(** * Qwen Image Edit S3 client: a shallow embedding and its properties

    The development follows [src/qwen_image_edit_s3_client.py], the class
    [QwenImageEditS3Client].  The client is sequential Python with four kinds
    of effects: the wall clock ([time.time], [time.sleep]), the local file
    system ([os.path], [os.makedirs], [open]), the object store
    ([s3_client.upload_file]) and the job queue HTTP API ([session.post],
    [session.get]).  They are modelled by an explicit [World] threaded through
    a small state-and-exception monad; the remote parties are scripted (the
    i-th network call receives the i-th scripted reply), and every call that
    leaves the process is recorded in a trace.

    Conventions of the model:
    - text is ASCII ([str.lower] acts on the letters A-Z), and paths are the
      strings the program builds, compared up to trailing slashes;
    - the clock counts whole seconds, and a network call takes the time its
      scripted reply says;
    - a reply of the job queue is a request error, a JSON object, or a JSON
      value that is not an object (on which the first [.get] raises);
    - a directory is listed in an order that the world chooses, and the
      listing can be refused;
    - the polling loop has fuel, and the theorems say how much is enough;
    - library functions ([base64], [os], [posixpath], [pathlib], [time])
      follow the CPython library, failures included.

    Layout: Python values and strings, the base64 codec, the file system,
    the world and the monad, the methods of the client, then the theorems. *)

From stdpp Require Import gmap strings list fin_maps pretty sorting.
From Stdlib Require Import ZArith Lia QArith_base Ascii.
From Stdlib.Strings Require Import Byte.

Set Warnings "-register-all".

Open Scope Z_scope.

(** ** Exceptions

    The exception classes that the methods can meet.  [RequestException]
    stands for [requests.exceptions.RequestException] and its subclasses
    (connection errors, timeouts, [HTTPError] from [raise_for_status]). *)
Inductive exn : Type :=
| RequestException
| ValueError
| TypeError
| AttributeError
| OSError
| FileExistsError
| BinasciiError
| S3Error.

(** ** Python values

    JSON documents and the dictionaries the client builds.  A dictionary is
    an association list in insertion order; [dict_get] is [dict.get]. *)
Inductive value : Type :=
| VNone
| VBool (b : bool)
| VInt (z : Z)
| VFloat (q : Q)
| VStr (s : string)
| VList (l : list value)
| VDict (d : list (string * value)).

Abbreviation dict := (list (string * value)).

Fixpoint dict_get (d : dict) (k : string) : option value :=
  match d with
  | [] => None
  | (k', v) :: d' => if String.eqb k' k then Some v else dict_get d' k
  end.

(** [d.get(k)] and [d.get(k, dflt)]. *)
Definition py_get (d : dict) (k : string) : value :=
  default VNone (dict_get d k).

Definition py_get_default (d : dict) (k : string) (dflt : value) : value :=
  default dflt (dict_get d k).

(** [d[k] = v]: replaces the binding in place, or appends a new one. *)
Fixpoint dict_set (d : dict) (k : string) (v : value) : dict :=
  match d with
  | [] => [(k, v)]
  | (k', v') :: d' =>
      if String.eqb k' k then (k', v) :: d' else (k', v') :: dict_set d' k v
  end.

(** Truth value of an object, as tested by [if x] and [not x]. *)
Definition truthy (v : value) : bool :=
  match v with
  | VNone => false
  | VBool b => b
  | VInt z => negb (z =? 0)
  | VFloat q => negb (Qnum q =? 0)
  | VStr s => negb (String.eqb s "")
  | VList l => match l with [] => false | _ => true end
  | VDict d => match d with [] => false | _ => true end
  end.

(** [v == 'literal'] for a string literal: only a [str] with the same
    characters is equal to it. *)
Definition is_str (v : value) (s : string) : bool :=
  match v with
  | VStr s' => String.eqb s' s
  | _ => false
  end.

(** ** Strings and paths *)

Definition slash : ascii := "/"%char.
Definition comma : ascii := ","%char.
Definition dot : ascii := "."%char.

Fixpoint contains_char (c : ascii) (s : string) : bool :=
  match s with
  | EmptyString => false
  | String c' s' => Ascii.eqb c' c || contains_char c s'
  end.

(** [s.split(c, 1)[1]] for a string that contains [c]: what follows the
    first occurrence. *)
Fixpoint after_first (c : ascii) (s : string) : string :=
  match s with
  | EmptyString => EmptyString
  | String c' s' => if Ascii.eqb c' c then s' else after_first c s'
  end.

Definition lower_char (c : ascii) : ascii :=
  let n := N_of_ascii c in
  if ((65 <=? n) && (n <=? 90))%N then ascii_of_N (n + 32) else c.

(** [str.lower] on the ASCII range. *)
Fixpoint lower (s : string) : string :=
  match s with
  | EmptyString => EmptyString
  | String c s' => String (lower_char c) (lower s')
  end.

Fixpoint string_rev_app (s acc : string) : string :=
  match s with
  | EmptyString => acc
  | String c s' => string_rev_app s' (String c acc)
  end.

Definition string_rev (s : string) : string := string_rev_app s EmptyString.

Fixpoint startswith (pre s : string) : bool :=
  match pre, s with
  | EmptyString, _ => true
  | String a pre', String b s' => Ascii.eqb a b && startswith pre' s'
  | String _ _, EmptyString => false
  end.

(** [s.endswith(suf)]. *)
Definition endswith (s suf : string) : bool :=
  startswith (string_rev suf) (string_rev s).

(** [s.endswith(sufs)] for a tuple of suffixes. *)
Definition endswith_any (s : string) (sufs : list string) : bool :=
  existsb (endswith s) sufs.

(** [posixpath.basename]: what follows the last slash. *)
Fixpoint basename (p : string) : string :=
  match p with
  | EmptyString => EmptyString
  | String c p' =>
      if contains_char slash p' then basename p'
      else if Ascii.eqb c slash then p' else p
  end.

(** [p[:p.rfind('/') + 1]]: up to and including the last slash. *)
Fixpoint head_with_slash (p : string) : string :=
  match p with
  | EmptyString => EmptyString
  | String c p' =>
      if contains_char slash p' then String c (head_with_slash p')
      else if Ascii.eqb c slash then String c EmptyString else EmptyString
  end.

Fixpoint rstrip_slash (s : string) : string :=
  match s with
  | EmptyString => EmptyString
  | String c s' =>
      match rstrip_slash s' with
      | EmptyString => if Ascii.eqb c slash then EmptyString else String c EmptyString
      | r => String c r
      end
  end.

(** [posixpath.dirname]: the head, without its trailing slashes unless it
    consists of slashes only. *)
Definition dirname (p : string) : string :=
  let head := head_with_slash p in
  match rstrip_slash head with
  | EmptyString => head
  | r => r
  end.

(** [posixpath.join] of two components. *)
Definition path_join (a b : string) : string :=
  if startswith "/" b then b
  else if String.eqb a "" || endswith a "/" then a +:+ b
  else a +:+ "/" +:+ b.

(** Index of the last dot of [s], if any ([s.rfind('.')]). *)
Fixpoint rfind_dot (s : string) : option nat :=
  match s with
  | EmptyString => None
  | String c s' =>
      match rfind_dot s' with
      | Some i => Some (S i)
      | None => if Ascii.eqb c dot then Some 0%nat else None
      end
  end.

Fixpoint string_take (n : nat) (s : string) : string :=
  match n, s with
  | S n', String c s' => String c (string_take n' s')
  | _, _ => EmptyString
  end.

(** [Path(name).stem] for a file name without slashes: the name without its
    last suffix; a leading or a trailing dot does not start a suffix. *)
Definition stem (name : string) : string :=
  match rfind_dot name with
  | Some i =>
      if ((0 <? i) && (i <? String.length name - 1))%nat
      then string_take i name else name
  | None => name
  end.

(** ** Base64

    [base64.b64decode(s)] with its default [validate=False], that is
    [binascii.a2b_base64] in its non-strict mode after the ASCII encoding of
    the text, and [base64.b64encode].  Bytes are [Byte.byte]; the decoder
    computes on their integer values with the shifts and masks of the
    library. *)
Module Base64.

Definition Zb (b : byte) : Z := Z.of_N (Byte.to_N b).

(** A store into an [unsigned char]: the low eight bits. *)
Definition byte_of_Z (z : Z) : byte :=
  default x00 (Byte.of_N (Z.to_N (Z.land z 255))).

Definition table_b2a_base64 : string :=
  "ABCDEFGHIJKLMNOPQRSTUVWXYZabcdefghijklmnopqrstuvwxyz0123456789+/".

Definition BASE64_PAD : ascii := "="%char.

Definition b2a (v : Z) : ascii :=
  default BASE64_PAD (String.get (Z.to_nat v) table_b2a_base64).

(** [table_a2b_base64]: the value of a character of the alphabet. *)
Definition a2b (c : ascii) : option Z :=
  let n := Z.of_N (N_of_ascii c) in
  if (65 <=? n) && (n <=? 90) then Some (n - 65)
  else if (97 <=? n) && (n <=? 122) then Some (n - 71)
  else if (48 <=? n) && (n <=? 57) then Some (n + 4)
  else if n =? 43 then Some 62
  else if n =? 47 then Some 63
  else None.

(** The decoding loop.  [quad_pos] counts the characters of the current
    group of four, [leftchar] holds the bits not yet written, [pads] counts
    the padding characters seen in a row.  Characters outside the alphabet
    are skipped; a padding that completes a group ends the decoding; input
    that ends inside a group is an error. *)
Fixpoint a2b_loop (s : string) (quad_pos : nat) (leftchar : Z) (pads : nat)
    (bin_data : list byte) : option (list byte) :=
  match s with
  | EmptyString => if (quad_pos =? 0)%nat then Some bin_data else None
  | String this_ch rest =>
      if Ascii.eqb this_ch BASE64_PAD then
        if ((2 <=? quad_pos) && (4 <=? quad_pos + S pads))%nat then Some bin_data
        else a2b_loop rest quad_pos leftchar
               (if (2 <=? quad_pos)%nat then S pads else pads) bin_data
      else
        match a2b this_ch with
        | None => a2b_loop rest quad_pos leftchar pads bin_data
        | Some v =>
            match quad_pos with
            | 0%nat => a2b_loop rest 1 v 0 bin_data
            | 1%nat =>
                a2b_loop rest 2 (Z.land v 15) 0
                  (bin_data ++ [byte_of_Z (Z.lor (Z.shiftl leftchar 2) (Z.shiftr v 4))])
            | 2%nat =>
                a2b_loop rest 3 (Z.land v 3) 0
                  (bin_data ++ [byte_of_Z (Z.lor (Z.shiftl leftchar 4) (Z.shiftr v 2))])
            | _ =>
                a2b_loop rest 0 0 0
                  (bin_data ++ [byte_of_Z (Z.lor (Z.shiftl leftchar 6) v)])
            end
        end
  end.

Definition a2b_base64 (s : string) : option (list byte) := a2b_loop s 0 0 0 [].

Fixpoint is_ascii (s : string) : bool :=
  match s with
  | EmptyString => true
  | String c s' => (N_of_ascii c <? 128)%N && is_ascii s'
  end.

(** [base64.b64decode] of a [str]: a character outside ASCII is a
    [ValueError], a malformed encoding a [binascii.Error]. *)
Definition b64decode (s : string) : exn + list byte :=
  if is_ascii s then
    match a2b_base64 s with
    | Some bs => inr bs
    | None => inl BinasciiError
    end
  else inl ValueError.

(** [base64.b64encode], as text: three bytes give four characters, and a
    last group of one or two bytes is padded. *)
Fixpoint b64encode (bs : list byte) : string :=
  match bs with
  | [] => EmptyString
  | [a] =>
      String (b2a (Z.shiftr (Zb a) 2))
        (String (b2a (Z.shiftl (Z.land (Zb a) 3) 4))
           (String BASE64_PAD (String BASE64_PAD EmptyString)))
  | [a; b] =>
      String (b2a (Z.shiftr (Zb a) 2))
        (String (b2a (Z.lor (Z.shiftl (Z.land (Zb a) 3) 4) (Z.shiftr (Zb b) 4)))
           (String (b2a (Z.shiftl (Z.land (Zb b) 15) 2))
              (String BASE64_PAD EmptyString)))
  | a :: b :: c :: rest =>
      String (b2a (Z.shiftr (Zb a) 2))
        (String (b2a (Z.lor (Z.shiftl (Z.land (Zb a) 3) 4) (Z.shiftr (Zb b) 4)))
           (String (b2a (Z.lor (Z.shiftl (Z.land (Zb b) 15) 2) (Z.shiftr (Zb c) 6)))
              (String (b2a (Z.land (Zb c) 63)) (b64encode rest))))
  end.

End Base64.

(** ** The file system

    A map from paths to nodes.  Paths are compared as written, up to
    trailing slashes; the current directory [.] and the root always exist.
    [FileExistsError] is kept apart from the other [OSError]s because
    [os.makedirs] treats it differently. *)
Inductive node : Type :=
| Dir
| File (content : list byte).

Definition norm_path (p : string) : string :=
  match rstrip_slash p with
  | EmptyString => if String.eqb p "" then "" else "/"
  | r => r
  end.

Definition fs_lookup (fs : gmap string node) (p : string) : option node :=
  let q := norm_path p in
  if String.eqb q "" then None
  else if String.eqb q "." || String.eqb q "/" then Some Dir
  else fs !! q.

(** [os.path.exists] and [os.path.isdir]. *)
Definition path_exists (fs : gmap string node) (p : string) : bool :=
  match fs_lookup fs p with Some _ => true | None => false end.

Definition path_isdir (fs : gmap string node) (p : string) : bool :=
  match fs_lookup fs p with Some Dir => true | _ => false end.

(** [os.path.dirname(p) or '.']. *)
Definition dirname_or_dot (p : string) : string :=
  let d := dirname p in if String.eqb d "" then "." else d.

(** [os.mkdir]: the path must be new and its parent a directory. *)
Definition mkdir (fs : gmap string node) (name : string) : exn + gmap string node :=
  let q := norm_path name in
  if String.eqb q "" then inl OSError
  else
    match fs_lookup fs name with
    | Some _ => inl FileExistsError
    | None =>
        match fs_lookup fs (dirname_or_dot q) with
        | Some Dir => inr (<[q := Dir]> fs)
        | _ => inl OSError
        end
    end.

(** The last [mkdir] of [os.makedirs(name, exist_ok=True)]: its error is
    dropped when the path is a directory all the same. *)
Definition makedirs_leaf (fs : gmap string node) (name : string)
    : exn + gmap string node :=
  match mkdir fs name with
  | inr fs' => inr fs'
  | inl e => if path_isdir fs name then inr fs else inl e
  end.

(** [head, tail = path.split(name)], and once more on [head] when [tail] is
    empty (a trailing slash). *)
Definition makedirs_head (name : string) : string :=
  if String.eqb (basename name) "" then dirname (dirname name) else dirname name.

Definition makedirs_tail (name : string) : string :=
  if String.eqb (basename name) "" then basename (dirname name) else basename name.

(** [os.makedirs(name, exist_ok=True)], following the library: create the
    missing head first (a [FileExistsError] there is passed over), stop if
    the tail is [.], then create the leaf. *)
Fixpoint makedirs_rec (fuel : nat) (fs : gmap string node) (name : string)
    : exn + gmap string node :=
  match fuel with
  | O => inl OSError
  | S fuel' =>
      let head := makedirs_head name in
      let tail := makedirs_tail name in
      if negb (String.eqb head "") && negb (String.eqb tail "")
         && negb (path_exists fs head)
      then
        match makedirs_rec fuel' fs head with
        | inl FileExistsError =>
            if String.eqb tail "." then inr fs else makedirs_leaf fs name
        | inl e => inl e
        | inr fs1 =>
            if String.eqb tail "." then inr fs1 else makedirs_leaf fs1 name
        end
      else makedirs_leaf fs name
  end.

Definition makedirs (fs : gmap string node) (name : string) : exn + gmap string node :=
  makedirs_rec (S (String.length name)) fs name.

(** [open(path, 'wb')], [write] and close: the parent must be a directory
    and the path must not name one. *)
Definition write_file (fs : gmap string node) (path : string) (data : list byte)
    : exn + gmap string node :=
  if String.eqb path "" || endswith path "/" then inl OSError
  else
    match fs_lookup fs path with
    | Some Dir => inl OSError
    | _ =>
        match fs_lookup fs (dirname_or_dot path) with
        | Some Dir => inr (<[norm_path path := File data]> fs)
        | _ => inl OSError
        end
    end.

(** [os.listdir]: the names of the entries directly under [folder], in the
    order in which the map enumerates them. *)
Definition listdir (fs : gmap string node) (folder : string) : list string :=
  omap (fun kv : string * node =>
          let name := basename kv.1 in
          if negb (String.eqb name "") && String.eqb (path_join folder name) kv.1
          then Some name else None)
       (map_to_list fs).

(** The names of a listing in the order of the operating system: by
    increasing rank. *)
Definition rank_le (rank : string -> nat) (a b : string) : Prop :=
  (rank a <= rank b)%nat.

#[global] Instance rank_le_dec (rank : string -> nat) : RelDecision (rank_le rank) :=
  fun a b => decide (rank a <= rank b)%nat.

Definition enumerate (rank : string -> nat) (names : list string) : list string :=
  merge_sort (rank_le rank) names.

(** ** The world *)

Inductive level : Type := INFO | WARNING | ERROR.

(** What one HTTP exchange gives: an exception of the [requests] library
    (also from [raise_for_status] and from [response.json]), the JSON
    object of the body, or a body that is JSON but not an object (an array,
    a string, a number, [true], [false], [null]): [response.json()] returns
    it like any other, and the caller's [.get] fails on it. *)
Inductive http_result : Type :=
| HttpError
| HttpJson (d : dict)
| HttpOther (body : value).

Record http_reply : Type := {
  latency : N;
  result : http_result
}.

Record s3_reply : Type := {
  s3_latency : N;
  s3_ok : bool
}.

(** What the process does to the outside, newest first.  Log records are
    named by their level and their line in the source.  [EvGet url id] is a
    GET of [f"{url}/{id}"].  [EvCall] marks an entry into
    [edit_single_image] with its actual arguments; it has no effect on the
    run. *)
Inductive event : Type :=
| EvLog (lvl : level) (line : nat)
| EvSleep (secs : Z)
| EvUpload (file_path bucket key : string)
| EvPost (url : string) (payload : value)
| EvGet (url : string) (job_id : value)
| EvCall (method : string) (args : dict).

(** The state of the outside.  [clock] is what [time.time()] reads, in
    whole seconds ([int(time.time())] is the clock itself); it moves with
    the sleeps and with the time the network calls take.  [http] and [s3]
    are the scripts of the job queue and of the object store, [http_calls]
    and [s3_calls] the number of calls made so far.  [listable] tells which
    directories [os.listdir] may read, and [dir_rank] the order in which it
    enumerates names (by increasing rank): the order of a listing is the
    operating system's, not the program's. *)
Record World : Type := {
  clock : Z;
  fs : gmap string node;
  http : nat -> http_reply;
  http_calls : nat;
  s3 : nat -> s3_reply;
  s3_calls : nat;
  listable : string -> bool;
  dir_rank : string -> nat;
  trace : list event
}.

Definition set_clock (t : Z) (w : World) : World :=
  {| clock := t; fs := fs w; http := http w; http_calls := http_calls w;
     s3 := s3 w; s3_calls := s3_calls w;
     listable := listable w; dir_rank := dir_rank w; trace := trace w |}.

Definition set_fs (f : gmap string node) (w : World) : World :=
  {| clock := clock w; fs := f; http := http w; http_calls := http_calls w;
     s3 := s3 w; s3_calls := s3_calls w;
     listable := listable w; dir_rank := dir_rank w; trace := trace w |}.

Definition emit (e : event) (w : World) : World :=
  {| clock := clock w; fs := fs w; http := http w; http_calls := http_calls w;
     s3 := s3 w; s3_calls := s3_calls w;
     listable := listable w; dir_rank := dir_rank w; trace := e :: trace w |}.

Definition next_http (w : World) : World :=
  {| clock := clock w + Z.of_N (latency (http w (http_calls w)));
     fs := fs w; http := http w; http_calls := S (http_calls w);
     s3 := s3 w; s3_calls := s3_calls w;
     listable := listable w; dir_rank := dir_rank w; trace := trace w |}.

Definition next_s3 (w : World) : World :=
  {| clock := clock w + Z.of_N (s3_latency (s3 w (s3_calls w)));
     fs := fs w; http := http w; http_calls := http_calls w;
     s3 := s3 w; s3_calls := S (s3_calls w);
     listable := listable w; dir_rank := dir_rank w; trace := trace w |}.

(** ** The monad: state, exceptions, and fuel for the polling loop *)

Inductive outcome (A : Type) : Type :=
| Ret (a : A)
| Raise (e : exn)
| OutOfFuel.
Arguments Ret {A} a.
Arguments Raise {A} e.
Arguments OutOfFuel {A}.

Definition M (A : Type) : Type := World -> outcome A * World.

Definition ret {A} (a : A) : M A := fun w => (Ret a, w).

Definition raise {A} (e : exn) : M A := fun w => (Raise e, w).

Definition out_of_fuel {A} : M A := fun w => (OutOfFuel, w).

Definition bind {A B} (m : M A) (k : A -> M B) : M B :=
  fun w =>
    match m w with
    | (Ret a, w') => k a w'
    | (Raise e, w') => (Raise e, w')
    | (OutOfFuel, w') => (OutOfFuel, w')
    end.

Notation "x <- m ;; k" := (bind m (fun x => k))
  (at level 62, m at next level, right associativity).
Notation "m ;;; k" := (bind m (fun _ => k))
  (at level 62, right associativity).

(** [try: body except <classes> as e: handler]. *)
Definition try_except {A} (body : M A) (catches : exn -> bool) (handler : exn -> M A)
    : M A :=
  fun w =>
    match body w with
    | (Raise e, w') => if catches e then handler e w' else (Raise e, w')
    | r => r
    end.

(** [except Exception] catches every class of [exn]. *)
Definition any_exception (e : exn) : bool := true.

Definition request_exception (e : exn) : bool :=
  match e with RequestException => true | _ => false end.

Definition lift_result {A} (r : exn + A) : M A :=
  match r with
  | inl e => raise e
  | inr a => ret a
  end.

(** *** Primitive actions *)

Definition log (lvl : level) (line : nat) : M unit :=
  fun w => (Ret tt, emit (EvLog lvl line) w).

Definition time_time : M Z := fun w => (Ret (clock w), w).


(** [time.sleep] raises [ValueError] on a negative length.  The model
    follows it for lengths up to [sleep_max]; the theorems that speak of
    every interval bound it by [sleep_max]. *)
Definition time_sleep (secs : Z) : M unit :=
  if secs <? 0 then raise ValueError
  else fun w => (Ret tt, set_clock (clock w + secs) (emit (EvSleep secs) w)).

(** [session.get(f"{url}/{job_id}", timeout=30)], [raise_for_status()],
    [response.json()], and the access to the body as a dictionary.  The
    callers apply [.get] to the body in the statement that follows
    [response.json()] (lines 167-168 and 132-133): on a body that is not an
    object this raises [AttributeError], with nothing done in between. *)
Definition session_get (url : string) (job_id : value) : M dict :=
  fun w =>
    let w' := next_http (emit (EvGet url job_id) w) in
    match result (http w (http_calls w)) with
    | HttpError => (Raise RequestException, w')
    | HttpJson d => (Ret d, w')
    | HttpOther _ => (Raise AttributeError, w')
    end.

(** [session.post(url, json=payload, timeout=30)], [raise_for_status()] and
    [response.json()]. *)
Definition session_post (url : string) (payload : value) : M dict :=
  fun w =>
    let w' := next_http (emit (EvPost url payload) w) in
    match result (http w (http_calls w)) with
    | HttpError => (Raise RequestException, w')
    | HttpJson d => (Ret d, w')
    | HttpOther _ => (Raise AttributeError, w')
    end.

(** [s3_client.upload_file(file_path, bucket, key)]. *)
Definition s3_upload_file (file_path bucket key : string) : M unit :=
  fun w =>
    let w' := next_s3 (emit (EvUpload file_path bucket key) w) in
    if s3_ok (s3 w (s3_calls w)) then (Ret tt, w') else (Raise S3Error, w').

Definition os_path_exists (p : string) : M bool :=
  fun w => (Ret (path_exists (fs w) p), w).

Definition os_path_isdir (p : string) : M bool :=
  fun w => (Ret (path_isdir (fs w) p), w).

Definition os_makedirs (p : string) : M unit :=
  fun w =>
    match makedirs (fs w) p with
    | inl e => (Raise e, w)
    | inr f => (Ret tt, set_fs f w)
    end.

Definition write_binary (p : string) (data : list byte) : M unit :=
  fun w =>
    match write_file (fs w) p data with
    | inl e => (Raise e, w)
    | inr f => (Ret tt, set_fs f w)
    end.

(** [os.listdir]: the names of the entries of a directory that may be
    read, in the order of the world; [OSError] otherwise. *)
Definition os_listdir (p : string) : M (list string) :=
  fun w =>
    if path_isdir (fs w) p && listable w p
    then (Ret (enumerate (dir_rank w) (listdir (fs w) p)), w)
    else (Raise OSError, w).

(** ** The client *)

Record Client : Type := {
  runpod_endpoint_id : string;
  runpod_api_key : string;
  s3_endpoint_url : string;
  s3_access_key_id : string;
  s3_secret_access_key : string;
  s3_bucket_name : string;
  s3_region : string
}.

Definition runpod_api_endpoint (self : Client) : string :=
  "https://api.runpod.ai/v2/" +:+ runpod_endpoint_id self +:+ "/run".

Definition status_url (self : Client) : string :=
  "https://api.runpod.ai/v2/" +:+ runpod_endpoint_id self +:+ "/status".

(** Default values of the keyword arguments. *)
Definition default_check_interval : Z := 10.
Definition default_max_wait_time : Z := 1800.
Definition default_seed : Z := 12345.
Definition default_width : Z := 1024.
Definition default_height : Z := 1024.
Definition default_steps : Z := 40.
Definition default_cfg : value := VFloat (4 # 1).
Definition default_negative_prompt : string := " ".
Definition default_output_folder_path : string := "output/qwen_batch".
Definition default_valid_image_extensions : list string :=
  [".jpg"; ".jpeg"; ".png"; ".bmp"].

Section Methods.

Variable self : Client.

(** [upload_to_s3], lines 85-111. *)
Definition upload_to_s3 (file_path s3_key : string) : M (option string) :=
  try_except
    (ex <- os_path_exists file_path ;;
     if negb ex then
       log ERROR 98 ;;; ret None
     else
       log INFO 101 ;;;
       s3_upload_file file_path (s3_bucket_name self) s3_key ;;;
       let s3_path := "/runpod-volume/" +:+ s3_key in
       log INFO 106 ;;;
       ret (Some s3_path))
    any_exception
    (fun e => log ERROR 110 ;;; ret None).

(** [submit_job], lines 113-144. *)
Definition submit_job (input_data : dict) : M (option value) :=
  let payload := VDict [("input", VDict input_data)] in
  try_except
    (log INFO 126 ;;;
     log INFO 127 ;;;
     response_data <- session_post (runpod_api_endpoint self) payload ;;
     let job_id := py_get response_data "id" in
     if truthy job_id then
       log INFO 136 ;;; ret (Some job_id)
     else
       log ERROR 139 ;;; ret None)
    request_exception
    (fun e => log ERROR 143 ;;; ret None).

(** One turn of the body of the [while] of [wait_for_completion], lines
    161-197: [Some r] is [return r], [None] goes back to the loop test. *)
Definition poll_once (job_id : value) (check_interval : Z) : M (option dict) :=
  try_except
    (log INFO 162 ;;;
     status_data <- session_get (status_url self) job_id ;;
     let status := py_get status_data "status" in
     if is_str status "COMPLETED" then
       log INFO 171 ;;;
       ret (Some [("status", VStr "COMPLETED");
                  ("output", py_get status_data "output");
                  ("job_id", job_id)])
     else if is_str status "FAILED" then
       log ERROR 178 ;;;
       ret (Some [("status", VStr "FAILED");
                  ("error", py_get_default status_data "error" (VStr "Unknown error"));
                  ("job_id", job_id)])
     else if is_str status "IN_QUEUE" || is_str status "IN_PROGRESS" then
       log INFO 185 ;;;
       time_sleep check_interval ;;;
       ret None
     else
       log WARNING 188 ;;;
       ret (Some [("status", VStr "UNKNOWN");
                  ("data", VDict status_data);
                  ("job_id", job_id)]))
    request_exception
    (fun e => log ERROR 196 ;;; time_sleep check_interval ;;; ret None).

(** The [while] loop of lines 160-203, with fuel for its turns. *)
Fixpoint wait_loop (fuel : nat) (job_id : value) (check_interval max_wait_time : Z)
    (start_time : Z) : M dict :=
  match fuel with
  | O => out_of_fuel
  | S fuel' =>
      now <- time_time ;;
      if now - start_time <? max_wait_time then
        r <- poll_once job_id check_interval ;;
        match r with
        | Some d => ret d
        | None => wait_loop fuel' job_id check_interval max_wait_time start_time
        end
      else
        log ERROR 199 ;;;
        ret [("status", VStr "TIMEOUT"); ("job_id", job_id)]
  end.

(** [wait_for_completion], lines 146-203. *)
Definition wait_for_completion (fuel : nat) (job_id : value)
    (check_interval max_wait_time : Z) : M dict :=
  start_time <- time_time ;;
  wait_loop fuel job_id check_interval max_wait_time start_time.

(** Lines 232-233: [if ',' in image_b64: image_b64 = image_b64.split(',', 1)[1]]. *)
Definition strip_data_uri_prefix (image_b64 : string) : string :=
  if contains_char comma image_b64 then after_first comma image_b64 else image_b64.

(** [save_image_result], lines 205-247.  A payload that is not a [str]
    makes the membership test or the decoder raise; whichever class it is,
    [except Exception] receives it. *)
Definition save_image_result (result : dict) (output_path : string) : M bool :=
  try_except
    (if negb (is_str (py_get result "status") "COMPLETED") then
       log ERROR 218 ;;; ret false
     else
       image_b64 <-
         match py_get_default result "output" (VDict []) with
         | VDict output => ret (py_get output "image")
         | _ => raise AttributeError
         end ;;
       if negb (truthy image_b64) then
         log ERROR 225 ;;; ret false
       else
         os_makedirs (dirname_or_dot output_path) ;;;
         match image_b64 with
         | VStr s =>
             let s := strip_data_uri_prefix s in
             decoded_image <- lift_result (Base64.b64decode s) ;;
             write_binary output_path decoded_image ;;;
             log INFO 242 ;;;
             ret true
         | _ => raise TypeError
         end)
    any_exception
    (fun e => log ERROR 246 ;;; ret false).

(** The end of both edit methods (lines 307-313 and 397-403): submit the
    job and wait for it with the default interval and maximum wait. *)
Definition submit_and_wait (fuel : nat) (input_data : dict) : M dict :=
  job_id <- submit_job input_data ;;
  match job_id with
  | None => ret [("error", VStr "Job submission failed")]
  | Some job_id =>
      wait_for_completion fuel job_id default_check_interval default_max_wait_time
  end.

(** The arguments of a call of [edit_single_image], as recorded by
    [EvCall]. *)
Definition edit_args (image_path prompt : string) (seed width height steps : Z)
    (cfg : value) (negative_prompt : string) (use_lightning : bool) : dict :=
  [("image_path", VStr image_path); ("prompt", VStr prompt); ("seed", VInt seed);
   ("width", VInt width); ("height", VInt height); ("steps", VInt steps);
   ("cfg", cfg); ("negative_prompt", VStr negative_prompt);
   ("use_lightning", VBool use_lightning)].

(** [edit_single_image], lines 249-313. *)
Definition edit_single_image (fuel : nat) (image_path prompt : string)
    (seed width height steps : Z) (cfg : value) (negative_prompt : string)
    (use_lightning : bool) : M dict :=
  (fun w => (Ret tt, emit (EvCall "edit_single_image"
     (edit_args image_path prompt seed width height steps cfg negative_prompt
        use_lightning)) w)) ;;;
  ex <- os_path_exists image_path ;;
  if negb ex then
    ret [("error", VStr ("Image file does not exist: " +:+ image_path))]
  else
    now <- time_time ;;
    let timestamp := now in
    let image_s3_key :=
      "input/qwen/" +:+ pretty timestamp +:+ "_" +:+ basename image_path in
    image_s3_path <- upload_to_s3 image_path image_s3_key ;;
    match image_s3_path with
    | None => ret [("error", VStr "Image S3 upload failed")]
    | Some image_s3_path =>
        if String.eqb image_s3_path "" then
          ret [("error", VStr "Image S3 upload failed")]
        else
          steps <- (if use_lightning then log INFO 293 ;;; ret 4 else ret steps) ;;
          let input_data :=
            [("image_path", VStr image_s3_path);
             ("prompt", VStr prompt);
             ("seed", VInt seed);
             ("width", VInt width);
             ("height", VInt height);
             ("steps", VInt steps);
             ("cfg", cfg);
             ("negative_prompt", VStr negative_prompt)] in
          submit_and_wait fuel input_data
    end.

(** [edit_dual_image], lines 315-403. *)
Definition edit_dual_image (fuel : nat) (image_path image_path_2 prompt : string)
    (seed width height steps : Z) (cfg : value) (negative_prompt : string)
    (use_lightning : bool) : M dict :=
  ex <- os_path_exists image_path ;;
  if negb ex then
    ret [("error", VStr ("First image file does not exist: " +:+ image_path))]
  else
    ex2 <- os_path_exists image_path_2 ;;
    if negb ex2 then
      ret [("error", VStr ("Second image file does not exist: " +:+ image_path_2))]
    else
      now <- time_time ;;
      let timestamp := now in
      let image_s3_key :=
        "input/qwen/" +:+ pretty timestamp +:+ "_donor_" +:+ basename image_path in
      image_s3_path <- upload_to_s3 image_path image_s3_key ;;
      match image_s3_path with
      | None => ret [("error", VStr "First image S3 upload failed")]
      | Some image_s3_path =>
          if String.eqb image_s3_path "" then
            ret [("error", VStr "First image S3 upload failed")]
          else
            let image_s3_key_2 :=
              "input/qwen/" +:+ pretty timestamp +:+ "_canvas_"
                +:+ basename image_path_2 in
            image_s3_path_2 <- upload_to_s3 image_path_2 image_s3_key_2 ;;
            match image_s3_path_2 with
            | None => ret [("error", VStr "Second image S3 upload failed")]
            | Some image_s3_path_2 =>
                if String.eqb image_s3_path_2 "" then
                  ret [("error", VStr "Second image S3 upload failed")]
                else
                  steps <- (if use_lightning then log INFO 382 ;;; ret 4
                            else ret steps) ;;
                  let input_data :=
                    [("image_path", VStr image_s3_path);
                     ("image_path_2", VStr image_s3_path_2);
                     ("prompt", VStr prompt);
                     ("seed", VInt seed);
                     ("width", VInt width);
                     ("height", VInt height);
                     ("steps", VInt steps);
                     ("cfg", cfg);
                     ("negative_prompt", VStr negative_prompt)] in
                  submit_and_wait fuel input_data
            end
      end.

(** The comprehension of lines 446-449: the names whose lower-case form
    ends with one of the extensions. *)
Definition select_images (valid_image_extensions : list string) (names : list string)
    : list string :=
  List.filter (fun f => endswith_any (lower f) valid_image_extensions) names.

(** [results[k] += 1] and [results[k].append(x)] on the summary. *)
Definition dict_incr (d : dict) (k : string) : dict :=
  match dict_get d k with
  | Some (VInt n) => dict_set d k (VInt (n + 1))
  | _ => d
  end.

Definition dict_append (d : dict) (k : string) (x : value) : dict :=
  match dict_get d k with
  | Some (VList l) => dict_set d k (VList (l ++ [x]))
  | _ => d
  end.

(** The [for] loop of [batch_edit_images], lines 464-515; [i] is the index
    that [enumerate] gives to the head of [image_files]. *)
Fixpoint batch_loop (fuel : nat) (image_folder_path output_folder_path prompt : string)
    (seed width height steps : Z) (cfg : value) (negative_prompt : string)
    (use_lightning : bool) (i : nat) (image_files : list string) (results : dict)
    : M dict :=
  match image_files with
  | [] => ret results
  | image_filename :: rest =>
      log INFO 465 ;;;
      let image_path := path_join image_folder_path image_filename in
      result <- edit_single_image fuel image_path prompt (seed + Z.of_nat i) width
                  height steps cfg negative_prompt use_lightning ;;
      results <-
        (if is_str (py_get result "status") "COMPLETED" then
           let base_filename := stem image_filename in
           let output_filename :=
             path_join output_folder_path ("edited_" +:+ base_filename +:+ ".png") in
           saved <- save_image_result result output_filename ;;
           if saved then
             log INFO 488 ;;;
             ret (dict_append (dict_incr results "successful") "results"
                    (VDict [("filename", VStr image_filename);
                            ("status", VStr "success");
                            ("output_file", VStr output_filename);
                            ("job_id", py_get result "job_id")]))
           else
             log ERROR 497 ;;;
             ret (dict_append (dict_incr results "failed") "results"
                    (VDict [("filename", VStr image_filename);
                            ("status", VStr "failed");
                            ("error", VStr "Result save failed");
                            ("job_id", py_get result "job_id")]))
         else
           log ERROR 506 ;;;
           ret (dict_append (dict_incr results "failed") "results"
                  (VDict [("filename", VStr image_filename);
                          ("status", VStr "failed");
                          ("error", py_get_default result "error" (VStr "Unknown error"));
                          ("job_id", py_get result "job_id")]))) ;;
      log INFO 515 ;;;
      batch_loop fuel image_folder_path output_folder_path prompt seed width height
        steps cfg negative_prompt use_lightning (S i) rest results
  end.

(** [batch_edit_images], lines 405-518. *)
Definition batch_edit_images (fuel : nat) (image_folder_path output_folder_path : string)
    (valid_image_extensions : list string) (prompt : string)
    (seed width height steps : Z) (cfg : value) (negative_prompt : string)
    (use_lightning : bool) : M dict :=
  isd <- os_path_isdir image_folder_path ;;
  if negb isd then
    ret [("error", VStr ("Image folder does not exist: " +:+ image_folder_path))]
  else
    os_makedirs output_folder_path ;;;
    names <- os_listdir image_folder_path ;;
    let image_files := select_images valid_image_extensions names in
    match image_files with
    | [] => ret [("error", VStr ("No image files to process: " +:+ image_folder_path))]
    | _ =>
        log INFO 454 ;;;
        let results :=
          [("total_files", VInt (Z.of_nat (length image_files)));
           ("successful", VInt 0);
           ("failed", VInt 0);
           ("results", VList [])] in
        results <- batch_loop fuel image_folder_path output_folder_path prompt seed
                     width height steps cfg negative_prompt use_lightning 0
                     image_files results ;;
        log INFO 517 ;;;
        ret results
    end.

End Methods.

(** ** Vocabulary of the statements *)

(** A reply after which the poller tries again: a request error, or a
    status that is [IN_QUEUE] or [IN_PROGRESS]. *)
Definition pending_status (d : dict) : bool :=
  let status := py_get d "status" in
  negb (is_str status "COMPLETED") && negb (is_str status "FAILED")
  && (is_str status "IN_QUEUE" || is_str status "IN_PROGRESS").

Definition retry_reply (r : http_reply) : bool :=
  match result r with
  | HttpError => true
  | HttpJson d => pending_status d
  | HttpOther _ => false
  end.

(** A reply that the client can read: a request error or a JSON object. *)
Definition object_or_error (r : http_reply) : bool :=
  match result r with
  | HttpOther _ => false
  | _ => true
  end.

(** A status outside the four recognized values (also a missing one). *)
Definition unknown_status (d : dict) : bool :=
  let status := py_get d "status" in
  negb (is_str status "COMPLETED") && negb (is_str status "FAILED")
  && negb (is_str status "IN_QUEUE") && negb (is_str status "IN_PROGRESS").

(** Time taken by the [n] exchanges that start at index [c] of the script. *)
Fixpoint latencies (h : nat -> http_reply) (c n : nat) : Z :=
  match n with
  | O => 0
  | S n' => Z.of_N (latency (h c)) + latencies h (S c) n'
  end.

(** Time elapsed since [wait_for_completion] was entered in world [w], at
    the loop test that follows [n] turns which all slept. *)
Definition elapsed_after (w : World) (check_interval : Z) (n : nat) : Z :=
  latencies (http w) (http_calls w) n + Z.of_nat n * check_interval.

(** The world after the [try] block has issued its request: the log record
    of line 162, the GET, and the time the exchange took. *)
Definition polled (self : Client) (job_id : value) (w : World) : World :=
  next_http (emit (EvGet (status_url self) job_id) (emit (EvLog INFO 162) w)).

(** The whole effect of a turn that ends in a sleep: the request, one log
    record ([lvl], [line]), and a sleep of one interval. *)
Definition slept (self : Client) (job_id : value) (check_interval : Z)
    (lvl : level) (line : nat) (w : World) : World :=
  let w1 := emit (EvLog lvl line) (polled self job_id w) in
  set_clock (clock w1 + check_interval) (emit (EvSleep check_interval) w1).

(** The effect of a turn whose request raised. *)
Definition error_turn (self : Client) (job_id : value) (check_interval : Z)
    (w : World) : World :=
  slept self job_id check_interval ERROR 196 w.

(** The effect of a turn, whatever its reply. *)
Definition turn (self : Client) (job_id : value) (check_interval : Z) (w : World)
    : World :=
  (poll_once self job_id check_interval w).2.

(** The result dictionaries of [wait_for_completion]. *)
Definition completed_result (status_data : dict) (job_id : value) : dict :=
  [("status", VStr "COMPLETED"); ("output", py_get status_data "output");
   ("job_id", job_id)].

Definition failed_result (status_data : dict) (job_id : value) : dict :=
  [("status", VStr "FAILED");
   ("error", py_get_default status_data "error" (VStr "Unknown error"));
   ("job_id", job_id)].

Definition unknown_result (status_data : dict) (job_id : value) : dict :=
  [("status", VStr "UNKNOWN"); ("data", VDict status_data); ("job_id", job_id)].

Definition timeout_result (job_id : value) : dict :=
  [("status", VStr "TIMEOUT"); ("job_id", job_id)].

(** [f] applied [n] times, the first application innermost. *)
Fixpoint after_turns (f : World -> World) (n : nat) (w : World) : World :=
  match n with
  | O => w
  | S n' => after_turns f n' (f w)
  end.

(** What [wait_for_completion] returns on a reply that ends the polling. *)
Definition final_result (status_data : dict) (job_id : value) : dict :=
  let status := py_get status_data "status" in
  if is_str status "COMPLETED" then completed_result status_data job_id
  else if is_str status "FAILED" then failed_result status_data job_id
  else unknown_result status_data job_id.

Definition final_log (status_data : dict) : event :=
  let status := py_get status_data "status" in
  if is_str status "COMPLETED" then EvLog INFO 171
  else if is_str status "FAILED" then EvLog ERROR 178
  else EvLog WARNING 188.

(** ** Outward history of a run

    The events that matter to the remote parties and to the callers, in the
    order in which they happened: uploads, job submissions, and entries into
    [edit_single_image]. *)
Definition significant (e : event) : bool :=
  match e with
  | EvUpload _ _ _ | EvPost _ _ | EvCall _ _ => true
  | _ => false
  end.

Fixpoint history (tr : list event) : list event :=
  match tr with
  | [] => []
  | e :: tr' => if significant e then history tr' ++ [e] else history tr'
  end.

(** The payloads posted to the job queue, the uploads, and the argument
    lists of the calls of [edit_single_image]. *)
Definition posted (tr : list event) : list value :=
  omap (fun e => match e with EvPost _ p => Some p | _ => None end) (history tr).

Definition uploaded (tr : list event) : list (string * string * string) :=
  omap (fun e => match e with EvUpload f b k => Some (f, b, k) | _ => None end)
       (history tr).

Definition edit_calls (tr : list event) : list dict :=
  omap (fun e => match e with EvCall _ a => Some a | _ => None end) (history tr).

(** [payload["input"][k]] of a posted payload. *)
Definition payload_field (k : string) (payload : value) : option value :=
  match payload with
  | VDict d =>
      match dict_get d "input" with
      | Some (VDict input_data) => dict_get input_data k
      | _ => None
      end
  | _ => None
  end.

(** Two worlds with the same file system, the same object-store script and
    position, the same job-queue script, and the same outward history. *)
Definition same_outside (w w' : World) : Prop :=
  fs w' = fs w /\ s3 w' = s3 w /\ s3_calls w' = s3_calls w /\ http w' = http w
  /\ history (trace w') = history (trace w).

(** The summary of a batch, and the file name of one of its entries. *)
Definition summary (total successful failed : Z) (results : list value) : dict :=
  [("total_files", VInt total); ("successful", VInt successful);
   ("failed", VInt failed); ("results", VList results)].

Definition entry_filename (entry : value) : option value :=
  match entry with
  | VDict d => dict_get d "filename"
  | _ => None
  end.

(** The arguments with which the batch driver must call
    [edit_single_image] for the file of index [i]: the path under the source
    folder, the seed moved by [i], everything else as given. *)
Definition batch_call_args (image_folder_path prompt : string)
    (seed width height steps : Z) (cfg : value) (negative_prompt : string)
    (use_lightning : bool) (i : nat) (image_filename : string) : dict :=
  edit_args (path_join image_folder_path image_filename) prompt (seed + Z.of_nat i)
    width height steps cfg negative_prompt use_lightning.

(** A returned dictionary with an ["error"] key. *)
Definition is_error (d : dict) : bool :=
  match dict_get d "error" with Some _ => true | None => false end.

(** A base64 text as the job queue may send it: bare, or after a data-URI
    prefix that ends at the first comma. *)
Definition with_data_uri_prefix (prefix : option string) (b64 : string) : string :=
  match prefix with
  | Some p => p +:+ String comma b64
  | None => b64
  end.

(** ** Sample data for the instances *)

Definition example_client : Client :=
  {| runpod_endpoint_id := "ep-1"; runpod_api_key := "key";
     s3_endpoint_url := "https://s3api-eu-ro-1.runpod.io/";
     s3_access_key_id := "id"; s3_secret_access_key := "secret";
     s3_bucket_name := "bucket"; s3_region := "eu-ro-1" |}.

Definition reply_of (d : dict) : http_reply :=
  {| latency := 1; result := HttpJson d |}.

Definition failing_reply : http_reply := {| latency := 1; result := HttpError |}.

Definition in_queue : dict := [("status", VStr "IN_QUEUE")].

Definition upload_ok : s3_reply := {| s3_latency := 2; s3_ok := true |}.

(** The rank of a name in an explicit order of enumeration; names outside
    the list come last. *)
Fixpoint rank_of (order : list string) (name : string) : nat :=
  match order with
  | [] => 0%nat
  | x :: order' => if String.eqb x name then 0%nat else S (rank_of order' name)
  end.

(** The sample worlds list every directory, in this order of names. *)
Definition example_order : list string := ["a.JPG"; "c.png"; "notes.txt"; "out"].

Definition example_world (f : gmap string node) (h : nat -> http_reply) : World :=
  {| clock := 1700000000; fs := f; http := h; http_calls := 0;
     s3 := fun _ => upload_ok; s3_calls := 0;
     listable := fun _ => true; dir_rank := rank_of example_order; trace := [] |}.

(** A script: the listed replies in turn, then [IN_QUEUE] for ever. *)
Definition script (l : list http_reply) (i : nat) : http_reply :=
  nth i l (reply_of in_queue).

(** A folder with two images and a text file, and one with a text file
    only. *)
Definition example_fs : gmap string node :=
  <["imgs" := Dir]> (<["imgs/a.JPG" := File [x01; x02]]>
    (<["imgs/notes.txt" := File []]> (<["imgs/c.png" := File [x03]]> ∅))).

Definition example_fs_no_image : gmap string node :=
  <["docs" := Dir]> (<["docs/notes.txt" := File []]> ∅).

(** The bytes [ABCD] as the job queue sends them, with a data-URI prefix. *)
Definition example_payload : string := "data:image/png;base64,QUJDRA==".

Definition example_bytes : list byte := [x41; x42; x43; x44].

Definition example_completed : dict :=
  [("status", VStr "COMPLETED"); ("output", VDict [("image", VStr example_payload)])].

Definition example_failed : dict :=
  [("status", VStr "FAILED"); ("error", VStr "CUDA out of memory")].

Definition example_unknown : dict := [("status", VStr "CANCELLED")].

(** Two request errors, then the completed job. *)
Definition errors_then_completed : nat -> http_reply :=
  script [failing_reply; failing_reply; reply_of example_completed].

(** One [IN_QUEUE], then the failed job; one [IN_QUEUE], then a status that
    the client does not know. *)
Definition queue_then_failed : nat -> http_reply :=
  script [reply_of in_queue; reply_of example_failed].

Definition queue_then_unknown : nat -> http_reply :=
  script [reply_of in_queue; reply_of example_unknown].

(** The job queue accepts every submission and completes the job at the
    first status check. *)
Definition always_completed (i : nat) : http_reply :=
  if Nat.even i then reply_of [("id", VStr "job-1")] else reply_of example_completed.

(** A file system in which the output folder cannot be created: a file has
    its name. *)
Definition example_fs_blocked : gmap string node :=
  <["out" := File []]> example_fs_no_image.

Definition example_fs_blocked_images : gmap string node :=
  <["out" := File []]> example_fs.

(** ** Further vocabulary and sample data *)

(** The status checks of a run, oldest first: the URL and the job id of
    each GET. *)
Fixpoint gets (tr : list event) : list (string * value) :=
  match tr with
  | [] => []
  | EvGet url job_id :: tr' => gets tr' ++ [(url, job_id)]
  | _ :: tr' => gets tr'
  end.

(** The world after [submit_job] has sent its request: two log records, the
    POST, and the time the exchange took. *)
Definition submitted (self : Client) (input_data : dict) (w : World) : World :=
  next_http
    (emit (EvPost (runpod_api_endpoint self) (VDict [("input", VDict input_data)]))
       (emit (EvLog INFO 127) (emit (EvLog INFO 126) w))).

(** The [input_data] of [edit_single_image] (lines 296-305) and of
    [edit_dual_image] (lines 385-395). *)
Definition single_input_data (image_s3_path prompt : string) (seed width height steps : Z)
    (cfg : value) (negative_prompt : string) : dict :=
  [("image_path", VStr image_s3_path); ("prompt", VStr prompt); ("seed", VInt seed);
   ("width", VInt width); ("height", VInt height); ("steps", VInt steps);
   ("cfg", cfg); ("negative_prompt", VStr negative_prompt)].

Definition dual_input_data (image_s3_path image_s3_path_2 prompt : string)
    (seed width height steps : Z) (cfg : value) (negative_prompt : string) : dict :=
  [("image_path", VStr image_s3_path); ("image_path_2", VStr image_s3_path_2);
   ("prompt", VStr prompt); ("seed", VInt seed); ("width", VInt width);
   ("height", VInt height); ("steps", VInt steps); ("cfg", cfg);
   ("negative_prompt", VStr negative_prompt)].

Definition upload_failing : s3_reply := {| s3_latency := 2; s3_ok := false |}.

(** A world whose object store refuses every transfer. *)
Definition example_world_s3_down (f : gmap string node) (h : nat -> http_reply) : World :=
  {| clock := 1700000000; fs := f; http := h; http_calls := 0;
     s3 := fun _ => upload_failing; s3_calls := 0;
     listable := fun _ => true; dir_rank := rank_of example_order; trace := [] |}.

(** A world whose object store accepts the first transfer only. *)
Definition example_world_s3_once (f : gmap string node) (h : nat -> http_reply) : World :=
  {| clock := 1700000000; fs := f; http := h; http_calls := 0;
     s3 := fun i => if Nat.eqb i 0 then upload_ok else upload_failing;
     s3_calls := 0;
     listable := fun _ => true; dir_rank := rank_of example_order; trace := [] |}.

(** The job queue answers the submission without an [id]. *)
Definition no_job_id : nat -> http_reply := script [reply_of [("message", VStr "queued")]].

(** The job id that [submit_job] draws from a reply: the [id] of a JSON
    object, when it is truthy. *)
Definition job_id_of (r : http_reply) : option value :=
  match result r with
  | HttpError => None
  | HttpJson d => if truthy (py_get d "id") then Some (py_get d "id") else None
  | HttpOther _ => None
  end.

(** A reply whose body is the JSON array [[]]. *)
Definition array_reply : http_reply := {| latency := 1; result := HttpOther (VList []) |}.

(** The job queue accepts the first submission and answers the first status
    check with a JSON array. *)
Definition submitted_then_array : nat -> http_reply :=
  script [reply_of [("id", VStr "job-1")]; array_reply].

(** A world in which the folder [docs] cannot be listed. *)
Definition example_world_unlistable (f : gmap string node) (h : nat -> http_reply)
    : World :=
  {| clock := 1700000000; fs := f; http := h; http_calls := 0;
     s3 := fun _ => upload_ok; s3_calls := 0;
     listable := fun p => negb (String.eqb p "docs");
     dir_rank := rank_of example_order; trace := [] |}.

(** A folder [docs] that holds one image. *)
Definition example_fs_docs_image : gmap string node :=
  <["docs" := Dir]> (<["docs/a.JPG" := File [x01; x02]]> ∅).

(** An extension that [str.lower] leaves as it is. *)
Definition is_lower (s : string) : bool := String.eqb (lower s) s.

(** A text that [base64.b64decode] rejects: five characters of the
    alphabet cannot be padded to a whole number of bytes. *)
Definition example_bad_payload : string := "QUJDR".

Definition example_bad_completed : dict :=
  [("status", VStr "COMPLETED"); ("output", VDict [("image", VStr example_bad_payload)])].

(** A field of an entry of the batch summary, and the entries of a given
    status. *)
Definition entry_field (k : string) (entry : value) : option value :=
  match entry with
  | VDict d => dict_get d k
  | _ => None
  end.

Definition has_status (s : string) (entry : value) : bool :=
  match entry_field "status" entry with
  | Some v => is_str v s
  | None => false
  end.

Definition count_status (s : string) (entries : list value) : Z :=
  Z.of_nat (length (List.filter (has_status s) entries)).

(** The path under which the batch driver saves the result for a file
    (lines 479-480). *)
Definition output_file_of (output_folder_path image_filename : string) : string :=
  path_join output_folder_path ("edited_" +:+ stem image_filename +:+ ".png").

(** [os.path.isfile]. *)
Definition is_file (f : gmap string node) (p : string) : bool :=
  match fs_lookup f p with Some (File _) => true | _ => false end.

(** The entry recorded for [image_filename] is sound in the file system
    [f]: it names the file; when its status is [success] it names the output
    path of that file, which is a file of [f]; when its status is [failed]
    it names no output file and carries an error. *)
Definition entry_recorded (output_folder_path : string) (f : gmap string node)
    (image_filename : string) (entry : value) : bool :=
  match entry_field "filename" entry with
  | Some v => is_str v image_filename
  | None => false
  end
  && (if has_status "success" entry then
        match entry_field "output_file" entry with
        | Some v => is_str v (output_file_of output_folder_path image_filename)
        | None => false
        end
        && is_file f (output_file_of output_folder_path image_filename)
      else
        has_status "failed" entry
        && match entry_field "output_file" entry with Some _ => false | None => true end
        && match entry_field "error" entry with Some _ => true | None => false end).

(** * Properties *)

Example basename_ex : basename "imgs/cat.JPG" = "cat.JPG" /\ basename "cat" = "cat"
  /\ basename "a/b/" = "" /\ dirname "out/x/y.png" = "out/x" /\ dirname "y.png" = ""
  /\ dirname "/y.png" = "/" /\ dirname "a//b" = "a" /\ stem "cat.tar.gz" = "cat.tar"
  /\ stem ".png" = ".png" /\ stem "cat." = "cat." /\ path_join "imgs" "a.png" = "imgs/a.png"
  /\ path_join "imgs/" "a.png" = "imgs/a.png" /\ path_join "" "a" = "a"
  /\ endswith (lower "Cat.JPG") ".jpg" = true /\ after_first comma "data:x;base64,QUJD" = "QUJD".
Proof. repeat split; reflexivity. Qed.

Example b64_ex :
  Base64.b64encode [x41; x42; x43; x44] = "QUJDRA=="
  /\ Base64.b64decode "QUJDRA==" = inr [x41; x42; x43; x44]
  /\ Base64.b64decode "QU JD\RA=" = inl BinasciiError
  /\ Base64.b64decode "QUJD=RA==trailing" = inr [x41; x42; x43; x44]
  /\ Base64.b64decode "QUJDR" = inl BinasciiError.
Proof. repeat split; reflexivity. Qed.

Example makedirs_ex :
  makedirs ∅ "output/qwen_batch"
  = inr (<["output/qwen_batch" := Dir]> (<["output" := Dir]> ∅))
  /\ makedirs (<["output" := File []]> ∅) "output/qwen_batch" = inl OSError
  /\ makedirs (<["output" := File []]> ∅) "output" = inl FileExistsError
  /\ listdir example_fs "imgs" = ["c.png"; "a.JPG"; "notes.txt"]
  /\ select_images default_valid_image_extensions (listdir example_fs "imgs")
     = ["c.png"; "a.JPG"].
Proof. repeat split; vm_compute; reflexivity. Qed.

(** Three turns in the queue with an interval of 10 and a wait of 25: the
    fourth loop test finds 33 seconds elapsed. *)
Example wait_for_completion_ex :
  (wait_for_completion example_client 5 (VStr "job-1") 10 25
     (example_world ∅ (script []))).1
  = Ret [("status", VStr "TIMEOUT"); ("job_id", VStr "job-1")]
  /\ http_calls (wait_for_completion example_client 5 (VStr "job-1") 10 25
                   (example_world ∅ (script []))).2 = 3%nat.
Proof. split; vm_compute; reflexivity. Qed.

(** A whole batch in fast mode against a job queue that completes every
    job: two images processed, two files written, steps 4 in both payloads,
    seeds 12345 and 12346. *)
Example batch_edit_images_ex :
  let run :=
    batch_edit_images example_client 181 "imgs" "out" default_valid_image_extensions
      "enhance image quality" default_seed default_width default_height default_steps
      default_cfg default_negative_prompt true
      (example_world example_fs always_completed) in
  run.1
  = Ret [("total_files", VInt 2); ("successful", VInt 2); ("failed", VInt 0);
         ("results",
          VList
            [VDict [("filename", VStr "a.JPG"); ("status", VStr "success");
                    ("output_file", VStr "out/edited_a.png");
                    ("job_id", VStr "job-1")];
             VDict [("filename", VStr "c.png"); ("status", VStr "success");
                    ("output_file", VStr "out/edited_c.png");
                    ("job_id", VStr "job-1")]])]
  /\ fs_lookup (fs run.2) "out/edited_c.png" = Some (File example_bytes)
  /\ payload_field "steps" <$> posted (trace run.2) = [Some (VInt 4); Some (VInt 4)]
  /\ payload_field "seed" <$> posted (trace run.2)
     = [Some (VInt 12345); Some (VInt 12346)]
  /\ uploaded (trace run.2)
     = [("imgs/a.JPG", "bucket", "input/qwen/1700000000_a.JPG");
        ("imgs/c.png", "bucket", "input/qwen/1700000004_c.png")].
Proof. repeat split; vm_compute; reflexivity. Qed.

(** ** The base64 codec: decoding inverts encoding *)
Module Base64Facts.
Import Base64.

Lemma sextet_cases (v : Z) (P : Z -> Prop) :
  0 <= v < 64 -> (forall n : nat, (n < 64)%nat -> P (Z.of_nat n)) -> P v.
Proof.
  intros Hv HP. rewrite <- (Z2Nat.id v) by lia. apply HP. lia.
Qed.

Lemma a2b_b2a (v : Z) : 0 <= v < 64 -> a2b (b2a v) = Some v.
Proof.
  intros Hv. apply (sextet_cases v (fun v => a2b (b2a v) = Some v) Hv).
  intros n Hn. do 64 (destruct n as [|n]; [reflexivity|]). lia.
Qed.

Lemma b2a_not_pad (v : Z) : 0 <= v < 64 -> Ascii.eqb (b2a v) BASE64_PAD = false.
Proof.
  intros Hv. apply (sextet_cases v (fun v => Ascii.eqb (b2a v) BASE64_PAD = false) Hv).
  intros n Hn. do 64 (destruct n as [|n]; [reflexivity|]). lia.
Qed.

Lemma b2a_is_ascii (v : Z) : 0 <= v < 64 -> (N_of_ascii (b2a v) <? 128)%N = true.
Proof.
  intros Hv. apply (sextet_cases v (fun v => (N_of_ascii (b2a v) <? 128)%N = true) Hv).
  intros n Hn. do 64 (destruct n as [|n]; [reflexivity|]). lia.
Qed.

Lemma b2a_not_comma (v : Z) : 0 <= v < 64 -> Ascii.eqb (b2a v) comma = false.
Proof.
  intros Hv. apply (sextet_cases v (fun v => Ascii.eqb (b2a v) comma = false) Hv).
  intros n Hn. do 64 (destruct n as [|n]; [reflexivity|]). lia.
Qed.

Lemma lor_range (k x y : Z) :
  0 <= k -> 0 <= x < 2 ^ k -> 0 <= y < 2 ^ k -> 0 <= Z.lor x y < 2 ^ k.
Proof.
  intros Hk Hx Hy.
  assert (Hnn : 0 <= Z.lor x y) by (apply Z.lor_nonneg; lia).
  split; [exact Hnn|].
  destruct (Z.eq_dec (Z.lor x y) 0) as [->|Hne]; [lia|].
  apply Z.log2_lt_pow2; [lia|].
  rewrite Z.log2_lor by lia.
  destruct (Z.eq_dec x 0) as [->|Hx0]; destruct (Z.eq_dec y 0) as [->|Hy0];
    try (rewrite Z.lor_0_l in Hne); try (rewrite Z.lor_0_r in Hne); try lia.
  - simpl Z.log2 at 1. rewrite Z.max_r by apply Z.log2_nonneg.
    apply Z.log2_lt_pow2; lia.
  - simpl Z.log2 at 2. rewrite Z.max_l by apply Z.log2_nonneg.
    apply Z.log2_lt_pow2; lia.
  - apply Z.max_lub_lt; apply Z.log2_lt_pow2; lia.
Qed.

(** Single-byte facts, each checked on the 256 bytes. *)
Lemma hi6_range (a : byte) : 0 <= Z.shiftr (Zb a) 2 < 64.
Proof. destruct a; vm_compute; split; congruence. Qed.

Lemma lo2_range (a : byte) : 0 <= Z.shiftl (Z.land (Zb a) 3) 4 < 2 ^ 6.
Proof. destruct a; vm_compute; split; congruence. Qed.

Lemma hi4_range (a : byte) : 0 <= Z.shiftr (Zb a) 4 < 2 ^ 6.
Proof. destruct a; vm_compute; split; congruence. Qed.

Lemma lo4_range (a : byte) : 0 <= Z.shiftl (Z.land (Zb a) 15) 2 < 2 ^ 6.
Proof. destruct a; vm_compute; split; congruence. Qed.

Lemma hi2_range (a : byte) : 0 <= Z.shiftr (Zb a) 6 < 2 ^ 6.
Proof. destruct a; vm_compute; split; congruence. Qed.

Lemma lo6_range (a : byte) : 0 <= Z.land (Zb a) 63 < 64.
Proof. destruct a; vm_compute; split; congruence. Qed.

Lemma byte0 (a : byte) :
  byte_of_Z (Z.lor (Z.shiftl (Z.shiftr (Zb a) 2) 2) (Z.land (Zb a) 3)) = a.
Proof. destruct a; reflexivity. Qed.

Lemma byte1 (b : byte) :
  byte_of_Z (Z.lor (Z.shiftl (Z.shiftr (Zb b) 4) 4) (Z.land (Zb b) 15)) = b.
Proof. destruct b; reflexivity. Qed.

Lemma byte2 (c : byte) :
  byte_of_Z (Z.lor (Z.shiftl (Z.shiftr (Zb c) 6) 6) (Z.land (Zb c) 63)) = c.
Proof. destruct c; reflexivity. Qed.

Lemma lo2_shift (a : byte) : Z.shiftr (Z.shiftl (Z.land (Zb a) 3) 4) 4 = Z.land (Zb a) 3.
Proof. destruct a; reflexivity. Qed.

Lemma lo2_mask (a : byte) : Z.land (Z.shiftl (Z.land (Zb a) 3) 4) 15 = 0.
Proof. destruct a; reflexivity. Qed.

Lemma hi4_shift (b : byte) : Z.shiftr (Z.shiftr (Zb b) 4) 4 = 0.
Proof. destruct b; reflexivity. Qed.

Lemma hi4_mask (b : byte) : Z.land (Z.shiftr (Zb b) 4) 15 = Z.shiftr (Zb b) 4.
Proof. destruct b; reflexivity. Qed.

Lemma lo4_shift (b : byte) : Z.shiftr (Z.shiftl (Z.land (Zb b) 15) 2) 2 = Z.land (Zb b) 15.
Proof. destruct b; reflexivity. Qed.

Lemma lo4_mask (b : byte) : Z.land (Z.shiftl (Z.land (Zb b) 15) 2) 3 = 0.
Proof. destruct b; reflexivity. Qed.

Lemma hi2_shift (c : byte) : Z.shiftr (Z.shiftr (Zb c) 6) 2 = 0.
Proof. destruct c; reflexivity. Qed.

Lemma hi2_mask (c : byte) : Z.land (Z.shiftr (Zb c) 6) 3 = Z.shiftr (Zb c) 6.
Proof. destruct c; reflexivity. Qed.

Lemma a2b_loop_value (v : Z) (rest : string) (quad_pos : nat) (leftchar : Z)
    (pads : nat) (out : list byte) :
  0 <= v < 64 ->
  a2b_loop (String (b2a v) rest) quad_pos leftchar pads out =
  match quad_pos with
  | 0%nat => a2b_loop rest 1 v 0 out
  | 1%nat =>
      a2b_loop rest 2 (Z.land v 15) 0
        (out ++ [byte_of_Z (Z.lor (Z.shiftl leftchar 2) (Z.shiftr v 4))])
  | 2%nat =>
      a2b_loop rest 3 (Z.land v 3) 0
        (out ++ [byte_of_Z (Z.lor (Z.shiftl leftchar 4) (Z.shiftr v 2))])
  | _ => a2b_loop rest 0 0 0 (out ++ [byte_of_Z (Z.lor (Z.shiftl leftchar 6) v)])
  end.
Proof.
  intros Hv. cbn [a2b_loop]. rewrite (b2a_not_pad v Hv), (a2b_b2a v Hv). reflexivity.
Qed.

Lemma mid1_range (a b : byte) :
  0 <= Z.lor (Z.shiftl (Z.land (Zb a) 3) 4) (Z.shiftr (Zb b) 4) < 64.
Proof. apply (lor_range 6); [lia | apply lo2_range | apply hi4_range]. Qed.

Lemma mid2_range (b c : byte) :
  0 <= Z.lor (Z.shiftl (Z.land (Zb b) 15) 2) (Z.shiftr (Zb c) 6) < 64.
Proof. apply (lor_range 6); [lia | apply lo4_range | apply hi2_range]. Qed.

Ltac sextets :=
  repeat first
    [ rewrite Z.shiftr_lor | rewrite Z.land_lor_distr_l
    | rewrite lo2_shift | rewrite lo2_mask | rewrite hi4_shift | rewrite hi4_mask
    | rewrite lo4_shift | rewrite lo4_mask | rewrite hi2_shift | rewrite hi2_mask
    | rewrite Z.lor_0_r | rewrite Z.lor_0_l
    | rewrite byte0 | rewrite byte1 | rewrite byte2 ].

(** The decoder, started at a group boundary on the encoding of [bs], writes
    exactly [bs] after what it had written before. *)
Lemma a2b_loop_b64encode (n : nat) :
  forall (bs out : list byte), (length bs <= n)%nat ->
    a2b_loop (b64encode bs) 0 0 0 out = Some (out ++ bs).
Proof.
  induction n as [n IH] using lt_wf_ind.
  intros bs out Hlen.
  destruct bs as [|a [|b [|c rest]]].
  - cbn. by rewrite app_nil_r.
  - cbn [b64encode].
    rewrite a2b_loop_value by apply hi6_range.
    rewrite a2b_loop_value by (pose proof (lo2_range a); lia).
    sextets. reflexivity.
  - cbn [b64encode].
    rewrite a2b_loop_value by apply hi6_range.
    rewrite a2b_loop_value by apply mid1_range.
    rewrite a2b_loop_value by (pose proof (lo4_range b); lia).
    sextets. cbn. by rewrite <- app_assoc.
  - cbn [b64encode].
    rewrite a2b_loop_value by apply hi6_range.
    rewrite a2b_loop_value by apply mid1_range.
    rewrite a2b_loop_value by apply mid2_range.
    rewrite a2b_loop_value by apply lo6_range.
    sextets. cbn [length] in Hlen.
    rewrite (IH (n - 3)%nat) by lia.
    f_equal. rewrite <- !app_assoc. reflexivity.
Qed.

Lemma b64encode_is_ascii (n : nat) :
  forall bs : list byte, (length bs <= n)%nat -> is_ascii (b64encode bs) = true.
Proof.
  induction n as [n IH] using lt_wf_ind.
  intros bs Hlen.
  destruct bs as [|a [|b [|c rest]]]; cbn [b64encode is_ascii length] in *.
  - reflexivity.
  - rewrite b2a_is_ascii by apply hi6_range.
    rewrite b2a_is_ascii by (pose proof (lo2_range a); lia). reflexivity.
  - rewrite b2a_is_ascii by apply hi6_range.
    rewrite b2a_is_ascii by apply mid1_range.
    rewrite b2a_is_ascii by (pose proof (lo4_range b); lia). reflexivity.
  - rewrite b2a_is_ascii by apply hi6_range.
    rewrite b2a_is_ascii by apply mid1_range.
    rewrite b2a_is_ascii by apply mid2_range.
    rewrite b2a_is_ascii by apply lo6_range.
    rewrite (IH (n - 3)%nat) by lia. reflexivity.
Qed.

Lemma b64encode_no_comma (n : nat) :
  forall bs : list byte, (length bs <= n)%nat ->
    contains_char comma (b64encode bs) = false.
Proof.
  induction n as [n IH] using lt_wf_ind.
  intros bs Hlen.
  destruct bs as [|a [|b [|c rest]]]; cbn [b64encode contains_char length] in *.
  - reflexivity.
  - rewrite b2a_not_comma by apply hi6_range.
    rewrite b2a_not_comma by (pose proof (lo2_range a); lia). reflexivity.
  - rewrite b2a_not_comma by apply hi6_range.
    rewrite b2a_not_comma by apply mid1_range.
    rewrite b2a_not_comma by (pose proof (lo4_range b); lia). reflexivity.
  - rewrite b2a_not_comma by apply hi6_range.
    rewrite b2a_not_comma by apply mid1_range.
    rewrite b2a_not_comma by apply mid2_range.
    rewrite b2a_not_comma by apply lo6_range.
    rewrite (IH (n - 3)%nat) by lia. reflexivity.
Qed.

(** [b64decode (b64encode bs) = bs]. *)
Lemma b64decode_b64encode (bs : list byte) : b64decode (b64encode bs) = inr bs.
Proof.
  unfold b64decode, a2b_base64.
  rewrite (b64encode_is_ascii (length bs)) by lia.
  rewrite (a2b_loop_b64encode (length bs)) by lia.
  reflexivity.
Qed.

End Base64Facts.

(** ** The poller: [wait_for_completion] *)

Section Poller.
Variable self : Client.
Variable job_id : value.
Variable check_interval : Z.

Lemma poll_once_error (w : World) :
  result (http w (http_calls w)) = HttpError -> 0 <= check_interval ->
  poll_once self job_id check_interval w = (Ret None, error_turn self job_id check_interval w).
Proof.
  intros Hr Hi. unfold poll_once, try_except, bind, log, session_get. cbn.
  rewrite Hr. cbn. unfold time_sleep. 
  destruct (Z.ltb_spec check_interval 0) as [?|_]; [lia|]. reflexivity.
Qed.

Lemma poll_once_pending (w : World) (d : dict) :
  result (http w (http_calls w)) = HttpJson d -> pending_status d = true ->
  0 <= check_interval ->
  poll_once self job_id check_interval w
  = (Ret None, slept self job_id check_interval INFO 185 w).
Proof.
  intros Hr Hp Hi. unfold poll_once, try_except, bind, log, session_get. cbn.
  rewrite Hr. unfold pending_status in Hp.
  destruct (is_str (py_get d "status") "COMPLETED"); [discriminate|].
  destruct (is_str (py_get d "status") "FAILED"); [discriminate|].
  cbn in Hp. rewrite Hp. cbn. unfold time_sleep.
  destruct (Z.ltb_spec check_interval 0) as [?|_]; [lia|]. reflexivity.
Qed.

Lemma poll_once_final (w : World) (d : dict) :
  result (http w (http_calls w)) = HttpJson d -> pending_status d = false ->
  poll_once self job_id check_interval w
  = (Ret (Some (final_result d job_id)), emit (final_log d) (polled self job_id w)).
Proof.
  intros Hr Hp. unfold poll_once, try_except, bind, log, session_get. cbn.
  rewrite Hr. unfold pending_status in Hp. unfold final_result, final_log.
  destruct (is_str (py_get d "status") "COMPLETED"); [reflexivity|].
  destruct (is_str (py_get d "status") "FAILED"); [reflexivity|].
  cbn in Hp. rewrite Hp. reflexivity.
Qed.

Lemma poll_once_negative (w : World) :
  retry_reply (http w (http_calls w)) = true -> check_interval < 0 ->
  (poll_once self job_id check_interval w).1 = Raise ValueError.
Proof.
  intros Hr Hi. unfold retry_reply in Hr.
  unfold poll_once, try_except, bind, log, session_get. cbn.
  destruct (result (http w (http_calls w))) as [|d|v]; [| |discriminate].
  - cbn. unfold time_sleep.
    destruct (Z.ltb_spec check_interval 0) as [_|?]; [reflexivity|lia].
  - unfold pending_status in Hr.
    destruct (is_str (py_get d "status") "COMPLETED"); [discriminate|].
    destruct (is_str (py_get d "status") "FAILED"); [discriminate|].
    cbn in Hr. rewrite Hr. cbn. unfold time_sleep.
    destruct (Z.ltb_spec check_interval 0) as [_|?]; [reflexivity|lia].
Qed.

(** A turn that sleeps: what it leaves of the world. *)
Lemma poll_once_retry (w : World) :
  retry_reply (http w (http_calls w)) = true -> 0 <= check_interval ->
  poll_once self job_id check_interval w = (Ret None, turn self job_id check_interval w)
  /\ http (turn self job_id check_interval w) = http w
  /\ http_calls (turn self job_id check_interval w) = S (http_calls w)
  /\ clock (turn self job_id check_interval w)
     = clock w + Z.of_N (latency (http w (http_calls w))) + check_interval.
Proof.
  intros Hr Hi. unfold retry_reply in Hr. unfold turn.
  destruct (result (http w (http_calls w))) as [|d|v] eqn:E; [| |discriminate].
  - rewrite (poll_once_error w E Hi). repeat split; reflexivity.
  - rewrite (poll_once_pending w d E Hr Hi). repeat split; reflexivity.
Qed.

Variable max_wait_time : Z.

Lemma wait_loop_timeout (n : nat) :
  forall (w : World) (start_time : Z) (fuel : nat),
    0 <= check_interval ->
    (forall i, (i < n)%nat -> retry_reply (http w (http_calls w + i)) = true) ->
    max_wait_time
      <= clock w - start_time + latencies (http w) (http_calls w) n
         + Z.of_nat n * check_interval ->
    (n < fuel)%nat ->
    exists w', wait_loop self fuel job_id check_interval max_wait_time start_time w
               = (Ret (timeout_result job_id), w').
Proof.
  induction n as [|n IH]; intros w st fuel Hi Hr Hmax Hfuel.
  - destruct fuel as [|fuel]; [lia|]. cbn in Hmax. cbn [wait_loop].
    unfold bind, time_time.
    destruct (Z.ltb_spec (clock w - st) max_wait_time) as [?|_]; [lia|].
    eexists. reflexivity.
  - destruct fuel as [|fuel]; [lia|]. cbn [wait_loop].
    unfold bind at 1. unfold time_time at 1.
    destruct (Z.ltb_spec (clock w - st) max_wait_time) as [Hlt|_].
    + assert (H0 : retry_reply (http w (http_calls w)) = true).
      { rewrite <- (Nat.add_0_r (http_calls w)). apply Hr. lia. }
      destruct (poll_once_retry w H0 Hi) as (Hp & Hh & Hc & Hk).
      unfold bind. rewrite Hp.
      apply IH; [exact Hi| | |lia].
      * intros i Hlti. rewrite Hh, Hc.
        replace (S (http_calls w) + i)%nat with (http_calls w + S i)%nat by lia.
        apply Hr. lia.
      * rewrite Hh, Hc, Hk. cbn [latencies] in Hmax. lia.
    + eexists. reflexivity.
Qed.

Lemma wait_loop_final (w : World) (d : dict) (start_time : Z) (fuel : nat) :
  clock w - start_time < max_wait_time ->
  result (http w (http_calls w)) = HttpJson d -> pending_status d = false ->
  wait_loop self (S fuel) job_id check_interval max_wait_time start_time w
  = (Ret (final_result d job_id), emit (final_log d) (polled self job_id w)).
Proof.
  intros Hlt Hr Hp. cbn [wait_loop]. unfold bind at 1. unfold time_time at 1.
  destruct (Z.ltb_spec (clock w - start_time) max_wait_time) as [_|?]; [|lia].
  unfold bind. rewrite (poll_once_final w d Hr Hp). reflexivity.
Qed.

Lemma after_turns_retries (n : nat) :
  forall w : World,
    ((0 < n)%nat -> 0 <= check_interval) ->
    (forall i, (i < n)%nat -> retry_reply (http w (http_calls w + i)) = true) ->
    let w' := after_turns (turn self job_id check_interval) n w in
    http w' = http w /\ http_calls w' = (http_calls w + n)%nat
    /\ clock w' = clock w + latencies (http w) (http_calls w) n
                  + Z.of_nat n * check_interval.
Proof.
  induction n as [|n IH]; intros w Hi Hr.
  - cbn. repeat split; [lia|lia].
  - assert (H0 : retry_reply (http w (http_calls w)) = true).
    { rewrite <- (Nat.add_0_r (http_calls w)). apply Hr. lia. }
    destruct (poll_once_retry w H0 (Hi ltac:(lia))) as (_ & Hh & Hc & Hk).
    cbn [after_turns latencies].
    destruct (IH (turn self job_id check_interval w)) as (Hh' & Hc' & Hk').
    + intros _. apply Hi. lia.
    + intros i Hlti. rewrite Hh, Hc.
      replace (S (http_calls w) + i)%nat with (http_calls w + S i)%nat by lia.
      apply Hr. lia.
    + cbv zeta. rewrite Hh', Hc', Hk', Hh, Hc, Hk. repeat split; lia.
Qed.

Lemma wait_loop_retries (n : nat) :
  forall (w : World) (start_time : Z) (fuel : nat),
    ((0 < n)%nat -> 0 <= check_interval) ->
    (forall i, (i < n)%nat -> retry_reply (http w (http_calls w + i)) = true) ->
    (forall i, (i < n)%nat ->
       clock w - start_time + latencies (http w) (http_calls w) i
       + Z.of_nat i * check_interval < max_wait_time) ->
    wait_loop self (n + fuel) job_id check_interval max_wait_time start_time w
    = wait_loop self fuel job_id check_interval max_wait_time start_time
        (after_turns (turn self job_id check_interval) n w).
Proof.
  induction n as [|n IH]; intros w st fuel Hi Hr Hlt.
  - reflexivity.
  - assert (H0 : retry_reply (http w (http_calls w)) = true).
    { rewrite <- (Nat.add_0_r (http_calls w)). apply Hr. lia. }
    destruct (poll_once_retry w H0 (Hi ltac:(lia))) as (Hp & Hh & Hc & Hk).
    cbn [Nat.add wait_loop after_turns]. unfold bind at 1. unfold time_time at 1.
    pose proof (Hlt 0%nat ltac:(lia)) as Hlt0. cbn in Hlt0.
    destruct (Z.ltb_spec (clock w - st) max_wait_time) as [_|?]; [|lia].
    unfold bind. rewrite Hp. apply IH.
    + intros _. apply Hi. lia.
    + intros i Hlti. rewrite Hh, Hc.
      replace (S (http_calls w) + i)%nat with (http_calls w + S i)%nat by lia.
      apply Hr. lia.
    + intros i Hlti. rewrite Hh, Hc, Hk.
      pose proof (Hlt (S i) ltac:(lia)) as HltS. cbn [latencies] in HltS. lia.
Qed.


Lemma not_retry_reply (r : http_reply) :
  retry_reply r = false -> object_or_error r = true ->
  exists d, result r = HttpJson d /\ pending_status d = false.
Proof.
  unfold retry_reply, object_or_error.
  destruct (result r) as [|d|v]; [discriminate| |discriminate]. eauto.
Qed.

(** A body that is not an object ends the turn by [AttributeError]: the
    request was made, and nothing else. *)
Lemma poll_once_other (w : World) (v : value) :
  result (http w (http_calls w)) = HttpOther v ->
  poll_once self job_id check_interval w = (Raise AttributeError, polled self job_id w).
Proof.
  intros Hr. unfold poll_once, try_except, bind, log, session_get. cbn.
  by rewrite Hr.
Qed.

(** With a positive interval the loop ends: every turn that does not return
    moves the clock by at least one interval. *)
Lemma wait_loop_total (fuel : nat) :
  forall (w : World) (start_time : Z),
    0 < check_interval ->
    (forall i, object_or_error (http w i) = true) ->
    max_wait_time - (clock w - start_time) <= check_interval * (Z.of_nat fuel - 1) ->
    (0 < fuel)%nat ->
    exists r w', wait_loop self fuel job_id check_interval max_wait_time start_time w
                 = (Ret r, w').
Proof.
  induction fuel as [|fuel IH]; intros w st Hi Hobj Hrem Hfuel; [lia|].
  cbn [wait_loop]. unfold bind at 1. unfold time_time at 1.
  destruct (Z.ltb_spec (clock w - st) max_wait_time) as [Hlt|_].
  - destruct (retry_reply (http w (http_calls w))) eqn:Hr.
    + destruct (poll_once_retry w Hr ltac:(lia)) as (Hp & Hh & Hc & Hk).
      unfold bind. rewrite Hp. apply IH; [exact Hi| | |nia].
      * intros i. rewrite Hh. apply Hobj.
      * rewrite Hk. nia.
    + destruct (not_retry_reply _ Hr (Hobj _)) as (d & Hd & Hp).
      unfold bind. rewrite (poll_once_final w d Hd Hp). eauto.
  - eauto.
Qed.
End Poller.

Lemma is_str_inj (v : value) (a b : string) :
  is_str v a = true -> a <> b -> is_str v b = false.
Proof.
  destruct v; cbn; try discriminate.
  intros Ha Hab. apply String.eqb_eq in Ha. subst. by apply String.eqb_neq.
Qed.

Lemma unknown_not_pending (d : dict) : unknown_status d = true -> pending_status d = false.
Proof.
  unfold unknown_status, pending_status.
  destruct (is_str (py_get d "status") "COMPLETED"); [done|].
  destruct (is_str (py_get d "status") "FAILED"); [done|].
  destruct (is_str (py_get d "status") "IN_QUEUE"); [done|].
  destruct (is_str (py_get d "status") "IN_PROGRESS"); done.
Qed.


Lemma failed_not_pending (d : dict) :
  is_str (py_get d "status") "FAILED" = true -> pending_status d = false.
Proof. unfold pending_status. intros ->. by rewrite andb_false_r. Qed.

(** The common run: [n] turns that sleep, then a reply that ends the
    polling, all before the deadline. *)
Lemma wait_for_completion_final (self : Client) (job_id : value)
    (check_interval max_wait_time : Z) (w : World) (n : nat) (d : dict) (fuel : nat) :
  ((0 < n)%nat -> 0 <= check_interval) ->
  (forall i, (i < n)%nat -> retry_reply (http w (http_calls w + i)) = true) ->
  result (http w (http_calls w + n)) = HttpJson d ->
  pending_status d = false ->
  (forall i, (i <= n)%nat -> elapsed_after w check_interval i < max_wait_time) ->
  (n < fuel)%nat ->
  wait_for_completion self fuel job_id check_interval max_wait_time w
  = (Ret (final_result d job_id),
     emit (final_log d)
       (polled self job_id (after_turns (turn self job_id check_interval) n w))).
Proof.
  intros Hi Hr Hd Hp Hlt Hfuel.
  unfold wait_for_completion, bind, time_time.
  replace fuel with (n + S (fuel - S n))%nat by lia.
  unfold elapsed_after in Hlt.
  rewrite wait_loop_retries; [|exact Hi|exact Hr|].
  2:{ intros i Hlti. specialize (Hlt i ltac:(lia)). lia. }
  destruct (after_turns_retries self job_id check_interval n w Hi Hr) as (Hh & Hc & Hk).
  apply wait_loop_final.
  - rewrite Hk. specialize (Hlt n ltac:(lia)). lia.
  - by rewrite Hh, Hc.
  - exact Hp.
Qed.

(** With a positive interval [wait_for_completion] returns, whatever the
    replies are, as long as each is a request error or a JSON object. *)
Lemma wait_for_completion_total (self : Client) (job_id : value)
    (check_interval max_wait_time : Z) (w : World) (fuel : nat) :
  0 < check_interval ->
  (forall i, object_or_error (http w i) = true) ->
  max_wait_time <= check_interval * (Z.of_nat fuel - 1) ->
  (0 < fuel)%nat ->
  exists r w', wait_for_completion self fuel job_id check_interval max_wait_time w
               = (Ret r, w').
Proof.
  intros Hi Hobj Hmax Hfuel. unfold wait_for_completion, bind, time_time.
  apply wait_loop_total; [exact Hi|exact Hobj|lia|exact Hfuel].
Qed.



(** With a positive interval and replies that never end the polling, the
    deadline is reached, so the hypothesis of the theorem above can be met:
    enough fuel gives [TIMEOUT]. *)
Lemma wait_for_completion_stops (self : Client) (job_id : value)
    (check_interval max_wait_time : Z) (w : World) :
  0 < check_interval ->
  (forall i, retry_reply (http w (http_calls w + i)) = true) ->
  exists fuel0, forall fuel, (fuel0 <= fuel)%nat ->
    exists w', wait_for_completion self fuel job_id check_interval max_wait_time w
               = (Ret (timeout_result job_id), w').
Proof.
  intros Hi Hr.
  set (n := Z.to_nat (max_wait_time / check_interval + 1)).
  exists (S n). intros fuel Hfuel.
  unfold wait_for_completion, bind, time_time.
  apply (wait_loop_timeout self job_id check_interval max_wait_time n);
    [lia|intros; apply Hr| |lia].
  assert (Hlat : forall h c k, 0 <= latencies h c k).
  { intros h c k. revert c. induction k as [|k IHk]; intros c; cbn [latencies]; [lia|].
    specialize (IHk (S c)). lia. }
  specialize (Hlat (http w) (http_calls w) n).
  destruct (Z.le_gt_cases max_wait_time 0) as [Hneg|Hpos].
  - nia.
  - assert (Hq : 0 <= max_wait_time / check_interval) by (apply Z.div_pos; lia).
    pose proof (Z.mod_pos_bound max_wait_time check_interval Hi) as Hm.
    pose proof (Z.div_mod max_wait_time check_interval ltac:(lia)) as Hdm.
    assert (Hn : Z.of_nat n = max_wait_time / check_interval + 1) by lia.
    rewrite Hn. nia.
Qed.


(** ** The file system *)

Lemma norm_path_nonempty (p : string) : p <> "" -> norm_path p <> "".
Proof.
  intros Hp. unfold norm_path. destruct (rstrip_slash p) eqn:E.
  - apply String.eqb_neq in Hp. by rewrite Hp.
  - done.
Qed.

Lemma fs_lookup_insert_same (f : gmap string node) (p : string) (n : node) :
  fs_lookup f p <> Some Dir -> p <> "" ->
  fs_lookup (<[norm_path p := n]> f) p = Some n.
Proof.
  intros Hnd Hp. unfold fs_lookup in *. cbv zeta in *.
  pose proof (norm_path_nonempty p Hp) as Hq. apply String.eqb_neq in Hq.
  rewrite Hq in *.
  destruct (String.eqb (norm_path p) "." || String.eqb (norm_path p) "/"); [done|].
  apply lookup_insert_eq.
Qed.

Lemma fs_lookup_insert_other (f : gmap string node) (q p : string) (n : node) :
  norm_path p <> q -> fs_lookup (<[q := n]> f) p = fs_lookup f p.
Proof.
  intros Hne. unfold fs_lookup. cbv zeta.
  destruct (String.eqb (norm_path p) ""); [done|].
  destruct (String.eqb (norm_path p) "." || String.eqb (norm_path p) "/"); [done|].
  by apply lookup_insert_ne.
Qed.

Lemma fs_lookup_norm_eq (f : gmap string node) (p p' : string) :
  norm_path p = norm_path p' -> fs_lookup f p = fs_lookup f p'.
Proof. intros H. unfold fs_lookup. by rewrite H. Qed.

Lemma write_file_spec (f f' : gmap string node) (p : string) (data : list byte) :
  write_file f p data = inr f' ->
  fs_lookup f' p = Some (File data)
  /\ path_isdir f' (dirname_or_dot p) = true
  /\ (forall p', norm_path p' <> norm_path p -> fs_lookup f' p' = fs_lookup f p').
Proof.
  unfold write_file. intros H.
  destruct (String.eqb p "" || endswith p "/") eqn:E; [discriminate|].
  apply orb_false_elim in E as [Hp _]. apply String.eqb_neq in Hp.
  destruct (fs_lookup f (dirname_or_dot p)) as [[|c]|] eqn:Hpar;
    try (destruct (fs_lookup f p) as [[|?]|]; discriminate).
  assert (Hnd : fs_lookup f p <> Some Dir).
  { destruct (fs_lookup f p) as [[|?]|]; [discriminate|done|done]. }
  assert (f' = <[norm_path p := File data]> f) as ->.
  { destruct (fs_lookup f p) as [[|?]|]; [done| |]; by inversion H. }
  split; [by apply fs_lookup_insert_same|]. split.
  - unfold path_isdir. rewrite fs_lookup_insert_other; [by rewrite Hpar|].
    intros Heq. apply Hnd. rewrite <- Hpar. symmetry. by apply fs_lookup_norm_eq.
  - intros p' Hne. by apply fs_lookup_insert_other.
Qed.

Lemma mkdir_spec (f f' : gmap string node) (name : string) :
  mkdir f name = inr f' ->
  path_isdir f' name = true
  /\ (forall p n, fs_lookup f p = Some n -> fs_lookup f' p = Some n).
Proof.
  unfold mkdir. cbv zeta. intros H.
  destruct (String.eqb (norm_path name) "") eqn:Hq; [discriminate|].
  destruct (fs_lookup f name) eqn:Hn; [discriminate|].
  destruct (fs_lookup f (dirname_or_dot (norm_path name))) as [[|?]|]; try discriminate.
  inversion H; subst f'; clear H. split.
  - unfold path_isdir, fs_lookup. cbv zeta. rewrite Hq.
    destruct (String.eqb (norm_path name) "." || String.eqb (norm_path name) "/"); [done|].
    by rewrite lookup_insert_eq.
  - intros p n Hp. rewrite fs_lookup_insert_other; [done|].
    intros Heq. rewrite (fs_lookup_norm_eq f p name) in Hp; [congruence|].
    by rewrite Heq.
Qed.

Lemma makedirs_leaf_spec (f f' : gmap string node) (name : string) :
  makedirs_leaf f name = inr f' ->
  path_isdir f' name = true
  /\ (forall p n, fs_lookup f p = Some n -> fs_lookup f' p = Some n).
Proof.
  unfold makedirs_leaf. intros H.
  destruct (mkdir f name) as [e|f2] eqn:Hm.
  - destruct (path_isdir f name) eqn:Hd; [|discriminate].
    inversion H; subst. by split.
  - inversion H; subst. by apply mkdir_spec.
Qed.

Lemma makedirs_rec_preserves (fuel : nat) :
  forall (f f' : gmap string node) (name : string),
    makedirs_rec fuel f name = inr f' ->
    forall p n, fs_lookup f p = Some n -> fs_lookup f' p = Some n.
Proof.
  induction fuel as [|fuel IH]; intros f f' name H p n Hp; [discriminate|].
  cbn [makedirs_rec] in H. cbv zeta in H.
  destruct (negb (String.eqb (makedirs_head name) "")
            && negb (String.eqb (makedirs_tail name) "")
            && negb (path_exists f (makedirs_head name))).
  - destruct (makedirs_rec fuel f (makedirs_head name)) as [e|f1] eqn:Hrec.
    + destruct e; try discriminate.
      destruct (String.eqb (makedirs_tail name) ".").
      * inversion H; by subst.
      * by apply (makedirs_leaf_spec f f' name H).
    + destruct (String.eqb (makedirs_tail name) ".").
      * inversion H; subst. by apply (IH f f' _ Hrec).
      * apply (makedirs_leaf_spec f1 f' name H). by apply (IH f f1 _ Hrec).
  - by apply (makedirs_leaf_spec f f' name H).
Qed.

(** [os.makedirs] leaves a directory at the path and keeps what existed. *)
Lemma makedirs_spec (f f' : gmap string node) (name : string) :
  makedirs f name = inr f' ->
  (makedirs_tail name <> "." -> path_isdir f' name = true)
  /\ (forall p n, fs_lookup f p = Some n -> fs_lookup f' p = Some n).
Proof.
  intros H. split; [|by apply (makedirs_rec_preserves _ _ _ _ H)].
  intros Htail. apply String.eqb_neq in Htail.
  unfold makedirs in H. cbn [makedirs_rec] in H. cbv zeta in H. rewrite Htail in H.
  destruct (negb (String.eqb (makedirs_head name) "")
            && negb (String.eqb (makedirs_tail name) "")
            && negb (path_exists f (makedirs_head name))).
  - destruct (makedirs_rec (String.length name) f (makedirs_head name)) as [e|f1].
    + destruct e; try discriminate. by apply (makedirs_leaf_spec f f' name H).
    + by apply (makedirs_leaf_spec f1 f' name H).
  - by apply (makedirs_leaf_spec f f' name H).
Qed.

Lemma makedirs_keeps_dir (f f' : gmap string node) (name p : string) :
  makedirs f name = inr f' -> path_isdir f p = true -> path_isdir f' p = true.
Proof.
  intros Hmk. unfold path_isdir.
  destruct (fs_lookup f p) as [[|c]|] eqn:Hl; try discriminate.
  by rewrite (proj2 (makedirs_spec f f' name Hmk) p _ Hl).
Qed.

(** ** Frames: what each method leaves untouched *)

Section Frames.
Variable self : Client.

Lemma poll_once_frame (job_id : value) (check_interval : Z) (w : World) :
  same_outside w (poll_once self job_id check_interval w).2.
Proof.
  unfold poll_once, try_except, bind, log, session_get, time_sleep. cbn.
  destruct (result (http w (http_calls w))) as [|d|v]; cbn; [| |repeat split].
  - destruct (check_interval <? 0); cbn; repeat split.
  - destruct (is_str (py_get d "status") "COMPLETED"); [repeat split|].
    destruct (is_str (py_get d "status") "FAILED"); [repeat split|].
    destruct (is_str (py_get d "status") "IN_QUEUE"
              || is_str (py_get d "status") "IN_PROGRESS");
      [|repeat split].
    cbn. destruct (check_interval <? 0); cbn; repeat split.
Qed.

Lemma same_outside_trans (w1 w2 w3 : World) :
  same_outside w1 w2 -> same_outside w2 w3 -> same_outside w1 w3.
Proof.
  intros (A1 & A2 & A3 & A4 & A5) (B1 & B2 & B3 & B4 & B5).
  repeat split; congruence.
Qed.

Lemma wait_loop_frame (fuel : nat) :
  forall (job_id : value) (check_interval max_wait_time start_time : Z) (w : World),
    same_outside w
      (wait_loop self fuel job_id check_interval max_wait_time start_time w).2.
Proof.
  induction fuel as [|fuel IH]; intros job_id ci mw st w.
  - repeat split.
  - cbn [wait_loop]. unfold bind at 1. unfold time_time at 1.
    destruct (clock w - st <? mw).
    + pose proof (poll_once_frame job_id ci w) as Hp.
      unfold bind. destruct (poll_once self job_id ci w) as [[[d|]|e|] w1]; cbn in Hp |- *;
        try exact Hp.
      eapply same_outside_trans; [exact Hp|apply IH].
    + repeat split.
Qed.

Lemma wait_for_completion_frame (fuel : nat) (job_id : value)
    (check_interval max_wait_time : Z) (w : World) :
  same_outside w (wait_for_completion self fuel job_id check_interval max_wait_time w).2.
Proof. unfold wait_for_completion, bind, time_time. apply wait_loop_frame. Qed.


(** [upload_to_s3] in full. *)
Lemma upload_to_s3_eq (file_path s3_key : string) (w : World) :
  upload_to_s3 self file_path s3_key w =
  if path_exists (fs w) file_path then
    let w1 := next_s3 (emit (EvUpload file_path (s3_bucket_name self) s3_key)
                         (emit (EvLog INFO 101) w)) in
    if s3_ok (s3 w (s3_calls w))
    then (Ret (Some ("/runpod-volume/" +:+ s3_key)), emit (EvLog INFO 106) w1)
    else (Ret None, emit (EvLog ERROR 110) w1)
  else (Ret None, emit (EvLog ERROR 98) w).
Proof.
  unfold upload_to_s3, try_except, bind, os_path_exists, log, s3_upload_file. cbn.
  destruct (path_exists (fs w) file_path); [|reflexivity]. cbn.
  destruct (s3_ok (s3 w (s3_calls w))); reflexivity.
Qed.

(** [submit_job] posts its payload once and touches nothing else outside;
    it returns when the reply is a request error or a JSON object. *)
Lemma submit_job_spec (input_data : dict) (w : World) :
  exists o w', submit_job self input_data w = (o, w')
    /\ fs w' = fs w /\ s3 w' = s3 w /\ s3_calls w' = s3_calls w /\ http w' = http w
    /\ history (trace w')
       = history (trace w)
         ++ [EvPost (runpod_api_endpoint self) (VDict [("input", VDict input_data)])]
    /\ (object_or_error (http w (http_calls w)) = true -> exists r, o = Ret r).
Proof.
  unfold submit_job, try_except, bind, log, session_post, object_or_error. cbn.
  destruct (result (http w (http_calls w))) as [|d|v]; cbn.
  - eexists _, _. repeat split. eauto.
  - destruct (truthy (py_get d "id")); cbn; eexists _, _; repeat split; eauto.
  - eexists _, _. repeat split. discriminate.
Qed.

Lemma submit_and_wait_spec (fuel : nat) (input_data : dict) (w : World) :
  let w' := (submit_and_wait self fuel input_data w).2 in
  fs w' = fs w /\ s3 w' = s3 w /\ s3_calls w' = s3_calls w /\ http w' = http w
  /\ history (trace w')
     = history (trace w)
       ++ [EvPost (runpod_api_endpoint self) (VDict [("input", VDict input_data)])].
Proof.
  cbv zeta. unfold submit_and_wait, bind.
  destruct (submit_job_spec input_data w)
    as (o & w1 & -> & H1 & H2 & H3 & H4 & H5 & _).
  destruct o as [[job_id|]|e|]; try (by repeat split).
  destruct (wait_for_completion_frame fuel job_id default_check_interval
              default_max_wait_time w1) as (G1 & G2 & G3 & G4 & G5).
  repeat split; congruence.
Qed.

Lemma submit_and_wait_history (fuel : nat) (input_data : dict) (w : World) :
  history (trace (submit_and_wait self fuel input_data w).2)
  = history (trace w)
    ++ [EvPost (runpod_api_endpoint self) (VDict [("input", VDict input_data)])].
Proof. apply submit_and_wait_spec. Qed.

Lemma storage_reference_nonempty (s3_key : string) :
  String.eqb ("/runpod-volume/" +:+ s3_key) "" = false.
Proof. reflexivity. Qed.

Lemma edit_single_image_history (fuel : nat) (image_path prompt : string)
    (seed width height steps : Z) (cfg : value) (negative_prompt : string)
    (use_lightning : bool) (w : World) :
  let key := "input/qwen/" +:+ pretty (clock w) +:+ "_" +:+ basename image_path in
  let input_data :=
    [("image_path", VStr ("/runpod-volume/" +:+ key));
     ("prompt", VStr prompt);
     ("seed", VInt seed);
     ("width", VInt width);
     ("height", VInt height);
     ("steps", VInt (if use_lightning then 4 else steps));
     ("cfg", cfg);
     ("negative_prompt", VStr negative_prompt)] in
  history (trace (edit_single_image self fuel image_path prompt seed width height
                    steps cfg negative_prompt use_lightning w).2)
  = history (trace w)
    ++ EvCall "edit_single_image"
         (edit_args image_path prompt seed width height steps cfg negative_prompt
            use_lightning)
       :: (if path_exists (fs w) image_path then
             EvUpload image_path (s3_bucket_name self) key
             :: (if s3_ok (s3 w (s3_calls w)) then
                   [EvPost (runpod_api_endpoint self)
                      (VDict [("input", VDict input_data)])]
                 else [])
           else []).
Proof.
  cbv zeta. unfold edit_single_image.
  unfold bind at 1. cbn beta iota. unfold bind at 1. unfold os_path_exists at 1.
  cbn [fs emit].
  destruct (path_exists (fs w) image_path) eqn:Hex; cbn [negb].
  2:{ reflexivity. }
  unfold bind at 1. unfold time_time at 1. cbn [clock emit].
  unfold bind at 1. rewrite upload_to_s3_eq. cbn [fs emit]. rewrite Hex.
  cbn [s3 s3_calls emit].
  destruct (s3_ok (s3 w (s3_calls w))) eqn:Hok; cbv zeta.
  2:{ cbn. by rewrite <- app_assoc. }
  rewrite storage_reference_nonempty.
  destruct use_lightning.
  - unfold bind at 1. unfold bind at 1. cbn [log ret].
    rewrite submit_and_wait_history. cbn. by rewrite <- !app_assoc.
  - unfold bind at 1. cbn [ret].
    rewrite submit_and_wait_history. cbn. by rewrite <- !app_assoc.
Qed.


Lemma edit_dual_image_history (fuel : nat) (image_path image_path_2 prompt : string)
    (seed width height steps : Z) (cfg : value) (negative_prompt : string)
    (use_lightning : bool) (w : World) :
  let key := "input/qwen/" +:+ pretty (clock w) +:+ "_donor_" +:+ basename image_path in
  let key_2 :=
    "input/qwen/" +:+ pretty (clock w) +:+ "_canvas_" +:+ basename image_path_2 in
  let input_data :=
    [("image_path", VStr ("/runpod-volume/" +:+ key));
     ("image_path_2", VStr ("/runpod-volume/" +:+ key_2));
     ("prompt", VStr prompt);
     ("seed", VInt seed);
     ("width", VInt width);
     ("height", VInt height);
     ("steps", VInt (if use_lightning then 4 else steps));
     ("cfg", cfg);
     ("negative_prompt", VStr negative_prompt)] in
  history (trace (edit_dual_image self fuel image_path image_path_2 prompt seed width
                    height steps cfg negative_prompt use_lightning w).2)
  = history (trace w)
    ++ (if path_exists (fs w) image_path && path_exists (fs w) image_path_2 then
          EvUpload image_path (s3_bucket_name self) key
          :: (if s3_ok (s3 w (s3_calls w)) then
                EvUpload image_path_2 (s3_bucket_name self) key_2
                :: (if s3_ok (s3 w (S (s3_calls w))) then
                      [EvPost (runpod_api_endpoint self)
                         (VDict [("input", VDict input_data)])]
                    else [])
              else [])
        else []).
Proof.
  cbv zeta. unfold edit_dual_image.
  unfold bind at 1. unfold os_path_exists at 1.
  destruct (path_exists (fs w) image_path) eqn:Hex; cbn [negb andb].
  2:{ cbn. by rewrite app_nil_r. }
  unfold bind at 1. unfold os_path_exists at 1.
  destruct (path_exists (fs w) image_path_2) eqn:Hex2; cbn [negb].
  2:{ cbn. by rewrite app_nil_r. }
  unfold bind at 1. unfold time_time at 1.
  unfold bind at 1. rewrite upload_to_s3_eq. rewrite Hex.
  destruct (s3_ok (s3 w (s3_calls w))) eqn:Hok; cbn beta iota zeta.
  2:{ cbn. reflexivity. }
    rewrite storage_reference_nonempty.
  unfold bind at 1. rewrite upload_to_s3_eq. cbn [fs emit next_s3 s3 s3_calls].
  rewrite Hex2.
  destruct (s3_ok (s3 w (S (s3_calls w)))) eqn:Hok2; cbn beta iota zeta.
  2:{ cbn. by rewrite <- !app_assoc. }
  rewrite storage_reference_nonempty.
  destruct use_lightning.
  - unfold bind at 1. unfold bind at 1. cbn [log ret].
    rewrite submit_and_wait_history. cbn. by rewrite <- !app_assoc.
  - unfold bind at 1. cbn [ret].
    rewrite submit_and_wait_history. cbn. by rewrite <- !app_assoc.
Qed.

(** [edit_single_image] leaves the script of the job queue as it was. *)
Lemma edit_single_image_http (fuel : nat) (image_path prompt : string)
    (seed width height steps : Z) (cfg : value) (negative_prompt : string)
    (use_lightning : bool) (w : World) :
  http (edit_single_image self fuel image_path prompt seed width height steps cfg
          negative_prompt use_lightning w).2 = http w.
Proof.
  unfold edit_single_image.
  unfold bind at 1. cbn beta iota. unfold bind at 1. unfold os_path_exists at 1.
  cbn [fs emit].
  destruct (path_exists (fs w) image_path) eqn:Hex; cbn [negb]; [|reflexivity].
  unfold bind at 1. unfold time_time at 1. cbn [clock emit].
  unfold bind at 1. rewrite upload_to_s3_eq. cbn [fs emit]. rewrite Hex.
  cbn [s3 s3_calls emit].
  destruct (s3_ok (s3 w (s3_calls w))) eqn:Hok; cbv zeta; [|reflexivity].
  rewrite storage_reference_nonempty.
  destruct use_lightning.
  - unfold bind at 1. unfold bind at 1. cbn [log ret].
    match goal with
    | |- http (submit_and_wait ?s ?f ?d ?w0).2 = _ =>
        destruct (submit_and_wait_spec f d w0) as (_ & _ & _ & -> & _)
    end.
    reflexivity.
  - unfold bind at 1. cbn [ret].
    match goal with
    | |- http (submit_and_wait ?s ?f ?d ?w0).2 = _ =>
        destruct (submit_and_wait_spec f d w0) as (_ & _ & _ & -> & _)
    end.
    reflexivity.
Qed.

(** *** The methods return *)

Lemma submit_and_wait_returns (fuel : nat) (input_data : dict) (w : World) :
  (181 <= fuel)%nat ->
  (forall i, object_or_error (http w i) = true) ->
  exists d w', submit_and_wait self fuel input_data w = (Ret d, w').
Proof.
  intros Hfuel Hobj. unfold submit_and_wait, bind.
  destruct (submit_job_spec input_data w) as (o & w1 & -> & _ & _ & _ & Hh & _ & Hret).
  destruct (Hret (Hobj _)) as (r & ->).
  destruct r as [job_id|]; [|by eexists _, _].
  apply wait_for_completion_total;
    unfold default_check_interval, default_max_wait_time; try lia.
  intros i. rewrite Hh. apply Hobj.
Qed.

Lemma edit_single_image_returns (fuel : nat) (image_path prompt : string)
    (seed width height steps : Z) (cfg : value) (negative_prompt : string)
    (use_lightning : bool) (w : World) :
  (181 <= fuel)%nat ->
  (forall i, object_or_error (http w i) = true) ->
  exists d w', edit_single_image self fuel image_path prompt seed width height steps
                 cfg negative_prompt use_lightning w = (Ret d, w').
Proof.
  intros Hfuel Hobj. unfold edit_single_image.
  unfold bind at 1. cbn beta iota. unfold bind at 1. unfold os_path_exists at 1.
  destruct (path_exists _ image_path); cbn [negb]; [|by eexists _, _].
  unfold bind at 1. unfold time_time at 1.
  unfold bind at 1. rewrite upload_to_s3_eq.
  destruct (path_exists _ image_path); [|by eexists _, _].
  cbv zeta. destruct (s3_ok _); cbn beta iota zeta; [|by eexists _, _].
  rewrite storage_reference_nonempty.
  destruct use_lightning.
  - unfold bind at 1. unfold bind at 1. cbn [log ret].
    apply submit_and_wait_returns; [exact Hfuel|exact Hobj].
  - unfold bind at 1. cbn [ret].
    apply submit_and_wait_returns; [exact Hfuel|exact Hobj].
Qed.

Lemma edit_dual_image_returns (fuel : nat) (image_path image_path_2 prompt : string)
    (seed width height steps : Z) (cfg : value) (negative_prompt : string)
    (use_lightning : bool) (w : World) :
  (181 <= fuel)%nat ->
  (forall i, object_or_error (http w i) = true) ->
  exists d w', edit_dual_image self fuel image_path image_path_2 prompt seed width
                 height steps cfg negative_prompt use_lightning w = (Ret d, w').
Proof.
  intros Hfuel Hobj. unfold edit_dual_image.
  unfold bind at 1. unfold os_path_exists at 1.
  destruct (path_exists _ image_path); cbn [negb]; [|by eexists _, _].
  unfold bind at 1. unfold os_path_exists at 1.
  destruct (path_exists _ image_path_2); cbn [negb]; [|by eexists _, _].
  unfold bind at 1. unfold time_time at 1.
  unfold bind at 1. rewrite upload_to_s3_eq.
  destruct (path_exists _ image_path); [|by eexists _, _].
  cbv zeta. destruct (s3_ok _); cbn beta iota zeta; [|by eexists _, _].
  rewrite storage_reference_nonempty.
  unfold bind at 1. rewrite upload_to_s3_eq.
  destruct (path_exists _ image_path_2); [|by eexists _, _].
  cbv zeta. destruct (s3_ok _); cbn beta iota zeta; [|by eexists _, _].
  rewrite storage_reference_nonempty.
  destruct use_lightning.
  - unfold bind at 1. unfold bind at 1. cbn [log ret].
    apply submit_and_wait_returns; [exact Hfuel|exact Hobj].
  - unfold bind at 1. cbn [ret].
    apply submit_and_wait_returns; [exact Hfuel|exact Hobj].
Qed.

End Frames.

(** [save_image_result] returns a boolean whatever happens, and issues no
    upload and no request. *)
Lemma save_image_result_returns (result : dict) (output_path : string) (w : World) :
  exists b w', save_image_result result output_path w = (Ret b, w')
    /\ history (trace w') = history (trace w) /\ http w' = http w.
Proof.
  unfold save_image_result, try_except, bind, log, os_makedirs, write_binary,
    lift_result, ret, raise, any_exception.
  destruct (is_str (py_get result "status") "COMPLETED"); cbn [negb];
    [|by eexists _, _].
  destruct (py_get_default result "output" (VDict [])) as [| | | | | |output];
    try (by eexists _, _).
  destruct (truthy (py_get output "image")); cbn [negb]; [|by eexists _, _].
  destruct (makedirs (fs w) (dirname_or_dot output_path)) as [e|f1];
    [by eexists _, _|].
  destruct (py_get output "image") as [| | | |s| |]; try (by eexists _, _).
  destruct (Base64.b64decode (strip_data_uri_prefix s)) as [e|bs];
    [by eexists _, _|].
  cbn [fs set_fs].
  destruct (write_file f1 output_path bs) as [e|f2]; by eexists _, _.
Qed.

(** ** The result writer: [save_image_result] *)

Lemma save_image_result_not_completed (result : dict)
    (output_path : string) (w : World) :
  is_str (py_get result "status") "COMPLETED" = false ->
  save_image_result result output_path w = (Ret false, emit (EvLog ERROR 218) w).
Proof.
  intros Hs. unfold save_image_result, try_except, bind. rewrite Hs. reflexivity.
Qed.

Lemma save_image_result_decoded (result output : dict)
    (payload output_path : string) (w : World) (bs : list byte)
    (fs1 fs2 : gmap string node) :
  is_str (py_get result "status") "COMPLETED" = true ->
  dict_get result "output" = Some (VDict output) ->
  dict_get output "image" = Some (VStr payload) ->
  payload <> "" ->
  Base64.b64decode (strip_data_uri_prefix payload) = inr bs ->
  makedirs (fs w) (dirname_or_dot output_path) = inr fs1 ->
  write_file fs1 output_path bs = inr fs2 ->
  save_image_result result output_path w
  = (Ret true, emit (EvLog INFO 242) (set_fs fs2 w)).
Proof.
  intros Hs Ho Hi Hne Hdec Hmk Hwr.
  unfold save_image_result, try_except, bind. rewrite Hs. cbn [negb].
  unfold py_get_default, py_get. rewrite Ho. cbn. rewrite Hi. cbn.
  apply String.eqb_neq in Hne. rewrite Hne. cbn.
  unfold os_makedirs. rewrite Hmk. rewrite Hdec. cbn.
  unfold write_binary. cbn. rewrite Hwr. reflexivity.
Qed.

(** ** The batch driver *)

Lemma edit_calls_app (tr : list event) (new : list event) (w' : World) :
  history (trace w') = history tr ++ new ->
  edit_calls (trace w')
  = edit_calls tr ++ omap (fun e => match e with EvCall _ a => Some a | _ => None end) new.
Proof. intros H. unfold edit_calls. by rewrite H, omap_app. Qed.

Lemma edit_single_image_calls (self : Client) (fuel : nat) (image_path prompt : string)
    (seed width height steps : Z) (cfg : value) (negative_prompt : string)
    (use_lightning : bool) (w : World) :
  edit_calls (trace (edit_single_image self fuel image_path prompt seed width height
                       steps cfg negative_prompt use_lightning w).2)
  = edit_calls (trace w)
    ++ [edit_args image_path prompt seed width height steps cfg negative_prompt
          use_lightning].
Proof.
  rewrite (edit_calls_app (trace w) _ _
             (edit_single_image_history self fuel image_path prompt seed width height
                steps cfg negative_prompt use_lightning w)).
  f_equal. cbn. destruct (path_exists _ _); [|reflexivity].
  cbn. destruct (s3_ok _); reflexivity.
Qed.

Section Batch.
Variable self : Client.
Variables (fuel : nat) (image_folder_path output_folder_path prompt : string).
Variables (seed width height steps : Z) (cfg : value) (negative_prompt : string).
Variable use_lightning : bool.
Hypothesis enough_fuel : (181 <= fuel)%nat.


Lemma batch_loop_spec (image_files : list string) :
  forall (i : nat) (total successful failed : Z) (entries : list value) (w : World),
    (forall k, object_or_error (http w k) = true) ->
    exists successful' failed' new w',
      batch_loop self fuel image_folder_path output_folder_path prompt seed width
        height steps cfg negative_prompt use_lightning i image_files
        (summary total successful failed entries) w
      = (Ret (summary total successful' failed' (entries ++ new)), w')
      /\ successful <= successful' /\ failed <= failed'
      /\ successful' + failed' = successful + failed + Z.of_nat (length image_files)
      /\ entry_filename <$> new = (fun f => Some (VStr f)) <$> image_files
      /\ edit_calls (trace w')
         = edit_calls (trace w) ++ imap (fun k =>
                 batch_call_args image_folder_path prompt seed width height steps cfg
                   negative_prompt use_lightning (i + k)) image_files.
Proof.
  induction image_files as [|f rest IH]; intros i total s fl entries w Hobj.
  - exists s, fl, [], w. cbn. rewrite !app_nil_r. repeat split; lia.
  - cbn [batch_loop]. unfold bind at 1. cbn [log].
    unfold bind at 1.
    pose proof (edit_single_image_calls self fuel (path_join image_folder_path f) prompt
                  (seed + Z.of_nat i) width height steps cfg negative_prompt
                  use_lightning (emit (EvLog INFO 465) w)) as Hcalls.
    pose proof (edit_single_image_http self fuel (path_join image_folder_path f) prompt
                  (seed + Z.of_nat i) width height steps cfg negative_prompt
                  use_lightning (emit (EvLog INFO 465) w)) as Hhttp.
    destruct (edit_single_image_returns self fuel (path_join image_folder_path f) prompt
                (seed + Z.of_nat i) width height steps cfg negative_prompt
                use_lightning (emit (EvLog INFO 465) w) enough_fuel Hobj)
      as (result & w1 & Hedit).
    rewrite Hedit in Hcalls, Hhttp |- *. cbn [snd] in Hcalls, Hhttp.
    cbn [http emit] in Hhttp.
    change (edit_calls (trace (emit (EvLog INFO 465) w))) with (edit_calls (trace w))
      in Hcalls.
    assert (Hstep : exists s1 f1 entry w2,
      (results0 <-
         (if is_str (py_get result "status") "COMPLETED" then
            saved <- save_image_result result
                       (path_join output_folder_path ("edited_" +:+ stem f +:+ ".png")) ;;
            if saved then
              log INFO 488 ;;;
              ret (dict_append (dict_incr (summary total s fl entries) "successful")
                     "results"
                     (VDict [("filename", VStr f); ("status", VStr "success");
                             ("output_file",
                              VStr (path_join output_folder_path
                                      ("edited_" +:+ stem f +:+ ".png")));
                             ("job_id", py_get result "job_id")]))
            else
              log ERROR 497 ;;;
              ret (dict_append (dict_incr (summary total s fl entries) "failed")
                     "results"
                     (VDict [("filename", VStr f); ("status", VStr "failed");
                             ("error", VStr "Result save failed");
                             ("job_id", py_get result "job_id")]))
          else
            log ERROR 506 ;;;
            ret (dict_append (dict_incr (summary total s fl entries) "failed") "results"
                   (VDict [("filename", VStr f); ("status", VStr "failed");
                           ("error",
                            py_get_default result "error" (VStr "Unknown error"));
                           ("job_id", py_get result "job_id")]))) ;;
       log INFO 515 ;;;
       batch_loop self fuel image_folder_path output_folder_path prompt seed width
         height steps cfg negative_prompt use_lightning (S i) rest results0) w1
      = batch_loop self fuel image_folder_path output_folder_path prompt seed width
          height steps cfg negative_prompt use_lightning (S i) rest
          (summary total s1 f1 (entries ++ [entry])) w2
      /\ s <= s1 /\ fl <= f1 /\ s1 + f1 = s + fl + 1
      /\ entry_filename entry = Some (VStr f)
      /\ edit_calls (trace w2) = edit_calls (trace w1)
      /\ http w2 = http w1).
    { destruct (is_str (py_get result "status") "COMPLETED").
      - destruct (save_image_result_returns result
                    (path_join output_folder_path ("edited_" +:+ stem f +:+ ".png")) w1)
          as (b & w2 & Hsave & Hh & Hq).
        unfold bind at 1. unfold bind at 1. rewrite Hsave.
        assert (Hcalls2 : edit_calls (trace w2) = edit_calls (trace w1))
          by (unfold edit_calls; by rewrite Hh).
        destruct b.
        + eexists (s + 1), fl, _, _. split; [reflexivity|].
          split; [lia|]. split; [lia|]. split; [lia|]. split; [reflexivity|].
          split; [exact Hcalls2|exact Hq].
        + eexists s, (fl + 1), _, _. split; [reflexivity|].
          split; [lia|]. split; [lia|]. split; [lia|]. split; [reflexivity|].
          split; [exact Hcalls2|exact Hq].
      - eexists s, (fl + 1), _, _. split; [reflexivity|].
        split; [lia|]. split; [lia|]. split; [lia|]. by repeat split. }
    destruct Hstep
      as (s1 & f1 & entry & w2 & -> & Hs1 & Hf1 & Hsum & Hname & Hc2 & Hq2).
    destruct (IH (S i) total s1 f1 (entries ++ [entry]) w2)
      as (s' & f' & new & w' & Hloop & Hs' & Hf' & Hsum' & Hnames & Hc').
    { intros k. rewrite Hq2, Hhttp. apply Hobj. }
    exists s', f', (entry :: new), w'.
    rewrite Hloop, <- app_assoc. split; [reflexivity|].
    repeat split; try lia.
    + cbn [length]. lia.
    + cbn. by rewrite Hname, Hnames.
    + rewrite Hc', Hc2, Hcalls, <- app_assoc. f_equal. cbn [imap app]. f_equal.
      * unfold batch_call_args. by rewrite Nat.add_0_r.
      * apply imap_ext. intros k x _. unfold batch_call_args, compose.
        replace (i + S k)%nat with (S i + k)%nat by lia. reflexivity.
Qed.


Lemma batch_edit_images_runs (valid_image_extensions : list string) (w : World)
    (fs1 : gmap string node) :
  path_isdir (fs w) image_folder_path = true ->
  makedirs (fs w) output_folder_path = inr fs1 ->
  listable w image_folder_path = true ->
  (forall k, object_or_error (http w k) = true) ->
  let image_files :=
    select_images valid_image_extensions
      (enumerate (dir_rank w) (listdir fs1 image_folder_path)) in
  image_files <> [] ->
  exists successful failed entries w',
    batch_edit_images self fuel image_folder_path output_folder_path
      valid_image_extensions prompt seed width height steps cfg negative_prompt
      use_lightning w
    = (Ret (summary (Z.of_nat (length image_files)) successful failed entries), w')
    /\ 0 <= successful /\ 0 <= failed
    /\ successful + failed = Z.of_nat (length image_files)
    /\ entry_filename <$> entries = (fun f => Some (VStr f)) <$> image_files
    /\ edit_calls (trace w')
       = edit_calls (trace w)
         ++ imap (batch_call_args image_folder_path prompt seed width height steps cfg
                    negative_prompt use_lightning) image_files.
Proof.
  intros Hdir Hmk Hlist Hobj image_files Hne.
  unfold batch_edit_images.
  unfold bind at 1. unfold os_path_isdir at 1. rewrite Hdir. cbn [negb].
  unfold bind at 1. unfold os_makedirs at 1. rewrite Hmk.
  unfold bind at 1. unfold os_listdir at 1. cbn [fs set_fs listable dir_rank].
  rewrite (makedirs_keeps_dir _ _ _ _ Hmk Hdir), Hlist. cbn [andb].
  fold image_files.
  destruct image_files as [|f0 rest] eqn:Hfiles; [done|].
  rewrite <- Hfiles.
  unfold bind at 1. cbn [log]. unfold bind at 1.
  change [("total_files", VInt (Z.of_nat (length image_files))); ("successful", VInt 0);
          ("failed", VInt 0); ("results", VList [])]
    with (summary (Z.of_nat (length image_files)) 0 0 []).
  destruct (batch_loop_spec image_files 0 (Z.of_nat (length image_files)) 0 0 []
              (emit (EvLog INFO 454) (set_fs fs1 w)) Hobj)
    as (s' & f' & new & w' & Hloop & Hs' & Hf' & Hsum & Hnames & Hcalls).
  rewrite Hloop. cbn [app].
  eexists s', f', new, _. split; [reflexivity|].
  repeat split; try lia; [exact Hnames|].
  cbn [emit trace]. exact Hcalls.
Qed.

End Batch.

(** ** The claims *)

Lemma after_first_prefix (c : ascii) (p rest : string) :
  contains_char c p = false -> after_first c (p +:+ String c rest) = rest.
Proof.
  induction p as [|a p IH]; simpl; intros H.
  - by rewrite Ascii.eqb_refl.
  - apply orb_false_elim in H as [Ha Hp]. rewrite Ha. by apply IH.
Qed.

Lemma contains_char_prefix (c : ascii) (p rest : string) :
  contains_char c (p +:+ String c rest) = true.
Proof.
  induction p as [|a p IH]; simpl.
  - by rewrite Ascii.eqb_refl.
  - rewrite IH. by rewrite orb_true_r.
Qed.

(** Stripping the prefix gives back the encoding, and decoding it the
    bytes. *)
Lemma strip_data_uri_prefix_encoded (prefix : option string) (bs : list byte) :
  (forall p, prefix = Some p -> contains_char comma p = false) ->
  strip_data_uri_prefix (with_data_uri_prefix prefix (Base64.b64encode bs))
  = Base64.b64encode bs.
Proof.
  intros Hp. unfold strip_data_uri_prefix, with_data_uri_prefix.
  destruct prefix as [p|].
  - rewrite contains_char_prefix. apply after_first_prefix. by apply Hp.
  - by rewrite (Base64Facts.b64encode_no_comma (length bs)).
Qed.

(** [save_image_result] on a completed result with a text payload that
    decodes to [bs]: the outcome depends on the file system only. *)
Lemma save_image_result_completed (result output : dict) (payload output_path : string)
    (w : World) (bs : list byte) :
  is_str (py_get result "status") "COMPLETED" = true ->
  dict_get result "output" = Some (VDict output) ->
  dict_get output "image" = Some (VStr payload) ->
  payload <> "" ->
  Base64.b64decode (strip_data_uri_prefix payload) = inr bs ->
  save_image_result result output_path w
  = match makedirs (fs w) (dirname_or_dot output_path) with
    | inl _ => (Ret false, emit (EvLog ERROR 246) w)
    | inr fs1 =>
        match write_file fs1 output_path bs with
        | inl _ => (Ret false, emit (EvLog ERROR 246) (set_fs fs1 w))
        | inr fs2 => (Ret true, emit (EvLog INFO 242) (set_fs fs2 w))
        end
    end.
Proof.
  intros Hs Ho Hi Hne Hdec.
  destruct (makedirs (fs w) (dirname_or_dot output_path)) as [e|fs1] eqn:Hmk.
  - unfold save_image_result, try_except, bind. rewrite Hs. cbn [negb].
    unfold py_get_default, py_get. rewrite Ho. cbn. rewrite Hi. cbn.
    apply String.eqb_neq in Hne. rewrite Hne. cbn.
    unfold os_makedirs. rewrite Hmk. reflexivity.
  - destruct (write_file fs1 output_path bs) as [e|fs2] eqn:Hwr.
    + unfold save_image_result, try_except, bind. rewrite Hs. cbn [negb].
      unfold py_get_default, py_get. rewrite Ho. cbn. rewrite Hi. cbn.
      apply String.eqb_neq in Hne. rewrite Hne. cbn.
      unfold os_makedirs. rewrite Hmk. rewrite Hdec. cbn.
      unfold write_binary. cbn. rewrite Hwr. reflexivity.
    + by apply (save_image_result_decoded result output payload output_path w bs fs1 fs2).
Qed.

(** C3 (as amended): for every result with status [COMPLETED] whose output
    holds a non-empty image payload that is the base64 encoding of bytes
    [bs], bare or after a data-URI prefix ending at the first comma,
    [save_image_result] strips the prefix, decodes the rest to [bs], runs
    [os.makedirs] on the parent of the output path and writes [bs] to the
    output path.  It returns [True] exactly when the file system accepts
    both operations, and [False] (after the log record of line 246) when it
    refuses one of them.  After a success the file holds exactly [bs], the
    base64 decoding of the stripped payload, its parent is a directory, and
    what existed elsewhere is kept. *)
Theorem save_image_result_round_trip (result output : dict) (prefix : option string)
    (bs : list byte) (output_path : string) (w : World) :
  let payload := with_data_uri_prefix prefix (Base64.b64encode bs) in
  is_str (py_get result "status") "COMPLETED" = true ->
  dict_get result "output" = Some (VDict output) ->
  dict_get output "image" = Some (VStr payload) ->
  payload <> "" ->
  (forall p, prefix = Some p -> contains_char comma p = false) ->
  Base64.b64decode (strip_data_uri_prefix payload) = inr bs
  /\ save_image_result result output_path w
     = match makedirs (fs w) (dirname_or_dot output_path) with
       | inl _ => (Ret false, emit (EvLog ERROR 246) w)
       | inr fs1 =>
           match write_file fs1 output_path bs with
           | inl _ => (Ret false, emit (EvLog ERROR 246) (set_fs fs1 w))
           | inr fs2 => (Ret true, emit (EvLog INFO 242) (set_fs fs2 w))
           end
       end
  /\ (forall fs1 fs2 : gmap string node,
        makedirs (fs w) (dirname_or_dot output_path) = inr fs1 ->
        write_file fs1 output_path bs = inr fs2 ->
        fs_lookup fs2 output_path = Some (File bs)
        /\ path_isdir fs2 (dirname_or_dot output_path) = true
        /\ (forall p n, norm_path p <> norm_path output_path ->
              fs_lookup (fs w) p = Some n -> fs_lookup fs2 p = Some n)).
Proof.
  intros payload Hs Ho Hi Hne Hp.
  assert (Hdec : Base64.b64decode (strip_data_uri_prefix payload) = inr bs).
  { subst payload. rewrite strip_data_uri_prefix_encoded by exact Hp.
    apply Base64Facts.b64decode_b64encode. }
  split; [exact Hdec|]. split.
  - by apply (save_image_result_completed result output payload output_path w bs).
  - intros fs1 fs2 Hmk Hwr.
    destruct (write_file_spec fs1 fs2 output_path bs Hwr) as (Hfile & Hdir & Hother).
    split; [exact Hfile|]. split; [exact Hdir|].
    intros p n Hneq Hlook. rewrite Hother by exact Hneq.
    by apply (makedirs_spec (fs w) fs1 (dirname_or_dot output_path) Hmk).
Qed.

Lemma save_image_result_round_trip_witness :
  is_str (py_get example_completed "status") "COMPLETED" = true
  /\ example_payload
     = with_data_uri_prefix (Some "data:image/png;base64")
         (Base64.b64encode example_bytes)
  /\ Base64.b64decode (strip_data_uri_prefix example_payload) = inr example_bytes
  /\ save_image_result example_completed "out/edited.png" (example_world ∅ (script []))
     = (Ret true,
        emit (EvLog INFO 242)
          (set_fs (<["out/edited.png" := File example_bytes]> (<["out" := Dir]> ∅))
             (example_world ∅ (script []))))
  /\ fs_lookup (<["out/edited.png" := File example_bytes]> (<["out" := Dir]> ∅))
       "out/edited.png" = Some (File example_bytes).
Proof.
  assert (H1 : is_str (py_get example_completed "status") "COMPLETED" = true)
    by reflexivity.
  assert (H2 : dict_get example_completed "output"
               = Some (VDict [("image", VStr example_payload)])) by reflexivity.
  assert (H3 : dict_get [("image", VStr example_payload)] "image"
               = Some (VStr (with_data_uri_prefix (Some "data:image/png;base64")
                               (Base64.b64encode example_bytes)))) by reflexivity.
  assert (H4 : with_data_uri_prefix (Some "data:image/png;base64")
                 (Base64.b64encode example_bytes) <> "") by discriminate.
  assert (H5 : forall p, Some "data:image/png;base64" = Some p ->
                         contains_char comma p = false).
  { intros p Hp. inversion Hp. reflexivity. }
  assert (H6 : makedirs (fs (example_world ∅ (script [])))
                 (dirname_or_dot "out/edited.png") = inr (<["out" := Dir]> ∅))
    by (vm_compute; reflexivity).
  assert (H7 : write_file (<["out" := Dir]> ∅) "out/edited.png" example_bytes
               = inr (<["out/edited.png" := File example_bytes]> (<["out" := Dir]> ∅)))
    by (vm_compute; reflexivity).
  pose proof (save_image_result_round_trip example_completed _ _ example_bytes
                "out/edited.png" (example_world ∅ (script []))
                H1 H2 H3 H4 H5) as (Hdec & Hsave & Hfs).
  rewrite H6, H7 in Hsave.
  exact (conj H1 (conj eq_refl (conj Hdec (conj Hsave (proj1 (Hfs _ _ H6 H7)))))).
Defined.

(** C3 as stated fails when the file system refuses the write: with the
    same completed result and an output path that names an existing
    directory, [open] raises, the [except] branch logs, and
    [save_image_result] returns [False]. *)
Lemma save_image_result_on_directory :
  is_str (py_get example_completed "status") "COMPLETED" = true
  /\ Base64.b64decode (strip_data_uri_prefix example_payload) = inr example_bytes
  /\ path_isdir example_fs_no_image "docs" = true
  /\ save_image_result example_completed "docs"
       (example_world example_fs_no_image (script []))
     = (Ret false,
        emit (EvLog ERROR 246) (example_world example_fs_no_image (script []))).
Proof. repeat split; vm_compute; reflexivity. Qed.




(** C6: a status outside the recognized set is not retried.  If [n] turns
    slept and the next status check, made before the maximum wait has
    elapsed, answers with a status that is none of [COMPLETED], [FAILED],
    [IN_QUEUE], [IN_PROGRESS], then [wait_for_completion] returns at once the
    result with status [UNKNOWN], the raw status data and the [job_id]: the
    world it leaves ends with that request and the log record of line 188,
    with no sleep and no further request. *)
Theorem wait_for_completion_unknown_status (self : Client) (job_id : value)
    (check_interval max_wait_time : Z) (w : World) (n : nat) (d : dict) (fuel : nat) :
  ((0 < n)%nat -> 0 <= check_interval) ->
  (forall i, (i < n)%nat -> retry_reply (http w (http_calls w + i)) = true) ->
  result (http w (http_calls w + n)) = HttpJson d ->
  unknown_status d = true ->
  (forall i, (i <= n)%nat -> elapsed_after w check_interval i < max_wait_time) ->
  (n < fuel)%nat ->
  let w' := emit (EvLog WARNING 188)
              (polled self job_id
                 (after_turns (turn self job_id check_interval) n w)) in
  wait_for_completion self fuel job_id check_interval max_wait_time w
  = (Ret [("status", VStr "UNKNOWN"); ("data", VDict d); ("job_id", job_id)], w')
  /\ http_calls w' = S (http_calls w + n).
Proof.
  intros Hi Hr Hd Hu Hlt Hfuel w'.
  rewrite (wait_for_completion_final self job_id check_interval max_wait_time w n d fuel
             Hi Hr Hd (unknown_not_pending d Hu) Hlt Hfuel).
  destruct (after_turns_retries self job_id check_interval n w Hi Hr) as (_ & Hc & _).
  unfold final_result, final_log, unknown_status in *.
  destruct (is_str (py_get d "status") "COMPLETED"); [discriminate|].
  destruct (is_str (py_get d "status") "FAILED"); [discriminate|].
  split; [reflexivity|]. subst w'. cbn. by rewrite Hc.
Qed.

Lemma wait_for_completion_unknown_status_witness :
  retry_reply (http (example_world ∅ queue_then_unknown) 0) = true
  /\ result (http (example_world ∅ queue_then_unknown) (0 + 1)) = HttpJson example_unknown
  /\ unknown_status example_unknown = true
  /\ (forall i, (i <= 1)%nat ->
        elapsed_after (example_world ∅ queue_then_unknown) 10 i < 100)
  /\ (wait_for_completion example_client 2 (VStr "job-1") 10 100
        (example_world ∅ queue_then_unknown)).1
     = Ret [("status", VStr "UNKNOWN"); ("data", VDict example_unknown);
            ("job_id", VStr "job-1")].
Proof.
  assert (H0 : (0 < 1)%nat -> 0 <= 10) by lia.
  assert (H1 : forall i, (i < 1)%nat ->
             retry_reply (http (example_world ∅ queue_then_unknown)
                            (http_calls (example_world ∅ queue_then_unknown) + i))
             = true).
  { intros i Hlt. destruct i as [|i]; [reflexivity|lia]. }
  assert (H2 : result (http (example_world ∅ queue_then_unknown)
                         (http_calls (example_world ∅ queue_then_unknown) + 1))
               = HttpJson example_unknown) by reflexivity.
  assert (H3 : unknown_status example_unknown = true) by reflexivity.
  assert (H4 : forall i, (i <= 1)%nat ->
             elapsed_after (example_world ∅ queue_then_unknown) 10 i < 100).
  { intros i Hle. do 2 (destruct i as [|i]; [reflexivity|]). lia. }
  assert (H5 : (1 < 2)%nat) by lia.
  pose proof (wait_for_completion_unknown_status example_client (VStr "job-1") 10 100
                (example_world ∅ queue_then_unknown) 1 example_unknown 2
                H0 H1 H2 H3 H4 H5) as (Hrun & _).
  rewrite Hrun.
  exact (conj (H1 0%nat ltac:(lia)) (conj H2 (conj H3 (conj H4 eq_refl)))).
Defined.

(** C5: a job reported as [FAILED] gives a failure outcome and no file.  If
    [n] turns slept and the next status check, made before the maximum wait
    has elapsed, answers [FAILED], then [wait_for_completion] returns the
    result with status [FAILED], the [error] of the status data (or
    ['Unknown error'] when it has none) and the [job_id]; and
    [save_image_result] on any result whose status is not [COMPLETED], this
    one included, returns [False] after one log record and leaves the file
    system as it was. *)
Theorem failed_job_writes_nothing (self : Client) (job_id : value)
    (check_interval max_wait_time : Z) (w : World) (n : nat) (d : dict) (fuel : nat) :
  ((0 < n)%nat -> 0 <= check_interval) ->
  (forall i, (i < n)%nat -> retry_reply (http w (http_calls w + i)) = true) ->
  result (http w (http_calls w + n)) = HttpJson d ->
  is_str (py_get d "status") "FAILED" = true ->
  (forall i, (i <= n)%nat -> elapsed_after w check_interval i < max_wait_time) ->
  (n < fuel)%nat ->
  let failure :=
    [("status", VStr "FAILED");
     ("error", default (VStr "Unknown error") (dict_get d "error"));
     ("job_id", job_id)] in
  wait_for_completion self fuel job_id check_interval max_wait_time w
  = (Ret failure,
     emit (EvLog ERROR 178)
       (polled self job_id (after_turns (turn self job_id check_interval) n w)))
  /\ (forall (result : dict) (output_path : string) (w2 : World),
        is_str (py_get result "status") "COMPLETED" = false ->
        save_image_result result output_path w2 = (Ret false, emit (EvLog ERROR 218) w2)
        /\ fs (emit (EvLog ERROR 218) w2) = fs w2)
  /\ (forall (output_path : string) (w2 : World),
        save_image_result failure output_path w2 = (Ret false, emit (EvLog ERROR 218) w2)).
Proof.
  intros Hi Hr Hd Hf Hlt Hfuel failure.
  rewrite (wait_for_completion_final self job_id check_interval max_wait_time w n d fuel
             Hi Hr Hd (failed_not_pending d Hf) Hlt Hfuel).
  unfold final_result, final_log.
  rewrite (is_str_inj _ "FAILED" "COMPLETED" Hf) by discriminate. rewrite Hf.
  split; [reflexivity|]. split.
  - intros result output_path w2 Hs.
    split; [by apply save_image_result_not_completed|reflexivity].
  - intros output_path w2. by apply save_image_result_not_completed.
Qed.

Lemma failed_job_writes_nothing_witness :
  retry_reply (http (example_world ∅ queue_then_failed) 0) = true
  /\ result (http (example_world ∅ queue_then_failed) (0 + 1)) = HttpJson example_failed
  /\ is_str (py_get example_failed "status") "FAILED" = true
  /\ (forall i, (i <= 1)%nat ->
        elapsed_after (example_world ∅ queue_then_failed) 10 i < 100)
  /\ (wait_for_completion example_client 2 (VStr "job-1") 10 100
        (example_world ∅ queue_then_failed)).1
     = Ret [("status", VStr "FAILED"); ("error", VStr "CUDA out of memory");
            ("job_id", VStr "job-1")]
  /\ save_image_result
       [("status", VStr "FAILED"); ("error", VStr "CUDA out of memory");
        ("job_id", VStr "job-1")] "out/edited.png" (example_world ∅ queue_then_failed)
     = (Ret false, emit (EvLog ERROR 218) (example_world ∅ queue_then_failed)).
Proof.
  assert (H0 : (0 < 1)%nat -> 0 <= 10) by lia.
  assert (H1 : forall i, (i < 1)%nat ->
             retry_reply (http (example_world ∅ queue_then_failed)
                            (http_calls (example_world ∅ queue_then_failed) + i))
             = true).
  { intros i Hlt. destruct i as [|i]; [reflexivity|lia]. }
  assert (H2 : result (http (example_world ∅ queue_then_failed)
                         (http_calls (example_world ∅ queue_then_failed) + 1))
               = HttpJson example_failed) by reflexivity.
  assert (H3 : is_str (py_get example_failed "status") "FAILED" = true) by reflexivity.
  assert (H4 : forall i, (i <= 1)%nat ->
             elapsed_after (example_world ∅ queue_then_failed) 10 i < 100).
  { intros i Hle. do 2 (destruct i as [|i]; [reflexivity|]). lia. }
  assert (H5 : (1 < 2)%nat) by lia.
  pose proof (failed_job_writes_nothing example_client (VStr "job-1") 10 100
                (example_world ∅ queue_then_failed) 1 example_failed 2
                H0 H1 H2 H3 H4 H5) as (Hrun & _ & Hsave).
  rewrite Hrun.
  exact (conj (H1 0%nat ltac:(lia)) (conj H2 (conj H3 (conj H4 (conj eq_refl
    (Hsave "out/edited.png" (example_world ∅ queue_then_failed))))))).
Defined.

(** C8: for a local path that does not exist, [upload_to_s3] returns [None]
    after one log record, and issues no call to the object store: the
    position in the object-store script and the outward history are
    unchanged. *)
Theorem upload_to_s3_missing_file (self : Client) (file_path s3_key : string)
    (w : World) :
  path_exists (fs w) file_path = false ->
  upload_to_s3 self file_path s3_key w = (Ret None, emit (EvLog ERROR 98) w)
  /\ s3_calls (emit (EvLog ERROR 98) w) = s3_calls w
  /\ uploaded (trace (emit (EvLog ERROR 98) w)) = uploaded (trace w)
  /\ history (trace (emit (EvLog ERROR 98) w)) = history (trace w).
Proof.
  intros Hex. rewrite upload_to_s3_eq, Hex. repeat split.
Qed.

Lemma upload_to_s3_missing_file_witness :
  path_exists (fs (example_world example_fs (script []))) "imgs/missing.png" = false
  /\ upload_to_s3 example_client "imgs/missing.png" "input/qwen/1_missing.png"
       (example_world example_fs (script []))
     = (Ret None, emit (EvLog ERROR 98) (example_world example_fs (script []))).
Proof.
  assert (H : path_exists (fs (example_world example_fs (script []))) "imgs/missing.png"
              = false) by (vm_compute; reflexivity).
  split; [exact H|].
  exact (proj1 (upload_to_s3_missing_file example_client "imgs/missing.png"
                  "input/qwen/1_missing.png" (example_world example_fs (script [])) H)).
Defined.

Lemma posted_app (tr : list event) (new : list event) (w' : World) :
  history (trace w') = history tr ++ new ->
  posted (trace w')
  = posted tr ++ omap (fun e => match e with EvPost _ p => Some p | _ => None end) new.
Proof. intros H. unfold posted. by rewrite H, omap_app. Qed.

Lemma uploaded_app (tr : list event) (new : list event) (w' : World) :
  history (trace w') = history tr ++ new ->
  uploaded (trace w')
  = uploaded tr
    ++ omap (fun e => match e with EvUpload f b k => Some (f, b, k) | _ => None end) new.
Proof. intros H. unfold uploaded. by rewrite H, omap_app. Qed.

(** C7: fast mode fixes the step count.  Whatever step count the caller
    gives, the payload that [edit_single_image] and [edit_dual_image] submit
    (they submit one when the files exist and the uploads succeed, and none
    otherwise) has [steps] equal to 4 when [use_lightning] is set, and to
    the caller's value when it is not; the default of that value is 40. *)
Theorem lightning_sets_four_steps (self : Client) (fuel : nat)
    (image_path image_path_2 prompt : string) (seed width height steps : Z)
    (cfg : value) (negative_prompt : string) (use_lightning : bool) (w : World) :
  let sent : option value := Some (VInt (if use_lightning then 4 else steps)) in
  payload_field "steps"
    <$> posted (trace (edit_single_image self fuel image_path prompt seed width height
                         steps cfg negative_prompt use_lightning w).2)
  = (payload_field "steps" <$> posted (trace w))
    ++ (if path_exists (fs w) image_path && s3_ok (s3 w (s3_calls w))
        then [sent] else [])
  /\ payload_field "steps"
       <$> posted (trace (edit_dual_image self fuel image_path image_path_2 prompt seed
                            width height steps cfg negative_prompt use_lightning w).2)
     = (payload_field "steps" <$> posted (trace w))
       ++ (if path_exists (fs w) image_path && path_exists (fs w) image_path_2
              && s3_ok (s3 w (s3_calls w)) && s3_ok (s3 w (S (s3_calls w)))
           then [sent] else [])
  /\ default_steps = 40.
Proof.
  cbv zeta. split; [|split; [|reflexivity]].
  - rewrite (posted_app (trace w) _ _
               (edit_single_image_history self fuel image_path prompt seed width height
                  steps cfg negative_prompt use_lightning w)).
    rewrite fmap_app. f_equal.
    destruct (path_exists (fs w) image_path); [|reflexivity].
    destruct (s3_ok (s3 w (s3_calls w))); reflexivity.
  - rewrite (posted_app (trace w) _ _
               (edit_dual_image_history self fuel image_path image_path_2 prompt seed
                  width height steps cfg negative_prompt use_lightning w)).
    rewrite fmap_app. f_equal.
    destruct (path_exists (fs w) image_path); [|reflexivity].
    destruct (path_exists (fs w) image_path_2); [|reflexivity].
    destruct (s3_ok (s3 w (s3_calls w))); [|reflexivity].
    destruct (s3_ok (s3 w (S (s3_calls w)))); reflexivity.
Qed.

(** The file name of a path: [basename p] has no slash, and [p] is
    [basename p] after a head that is empty or ends with a slash.  So it is
    what follows the last slash of [p], and the whole of [p] when there is
    none. *)
Lemma basename_no_slash (p : string) : contains_char slash (basename p) = false.
Proof.
  induction p as [|c p IH]; [reflexivity|]. cbn [basename].
  destruct (contains_char slash p) eqn:Hp; [exact IH|].
  destruct (Ascii.eqb c slash) eqn:Hc; [exact Hp|].
  cbn [contains_char]. by rewrite Hc, Hp.
Qed.

Lemma basename_split (p : string) : head_with_slash p +:+ basename p = p.
Proof.
  induction p as [|c p IH]; [reflexivity|]. cbn [basename head_with_slash].
  destruct (contains_char slash p) eqn:Hp.
  - change (String c (head_with_slash p +:+ basename p) = String c p). by rewrite IH.
  - destruct (Ascii.eqb c slash) eqn:Hc; [|reflexivity].
    apply Ascii.eqb_eq in Hc. by subst c.
Qed.

Lemma head_with_slash_shape (p : string) :
  (contains_char slash p = false -> head_with_slash p = "")
  /\ (contains_char slash p = true -> exists h, head_with_slash p = h +:+ "/").
Proof.
  induction p as [|c p [IH0 IH1]]; [by split|].
  cbn [contains_char head_with_slash].
  destruct (contains_char slash p) eqn:Hp.
  - rewrite orb_true_r. split; [discriminate|]. intros _.
    destruct (IH1 eq_refl) as (h & ->). by exists (String c h).
  - rewrite orb_false_r. destruct (Ascii.eqb c slash) eqn:Hc.
    + split; [discriminate|]. intros _. apply Ascii.eqb_eq in Hc. subst c.
      by exists "".
    + by split.
Qed.

Lemma basename_spec (p : string) :
  contains_char slash (basename p) = false
  /\ exists head, p = head +:+ basename p
                  /\ (head = "" \/ exists h, head = h +:+ "/").
Proof.
  split; [apply basename_no_slash|]. exists (head_with_slash p).
  split; [by rewrite basename_split|].
  destruct (head_with_slash_shape p) as [H0 H1].
  destruct (contains_char slash p); [right|left]; auto.
Qed.

(** C9: storage references and keys.  [upload_to_s3] returns, when the file
    exists and the transfer succeeds, ['/runpod-volume/'] followed by the
    key (and [None] otherwise).  [edit_single_image] uploads an existing
    file under [input/qwen/<timestamp>_<basename>], where the timestamp is
    the clock at entry; [edit_dual_image] uploads the first file under
    [input/qwen/<timestamp>_donor_<basename>] and, when that succeeds, the
    second under [input/qwen/<timestamp>_canvas_<basename>], with one
    timestamp for both.  The bucket is the client's, and the storage
    reference of the upload is what the submitted payload carries as
    [image_path].  The [<basename>] of a path is its file name: what follows
    its last slash (it has no slash, and the path is a head that is empty or
    ends with a slash, followed by it). *)
Theorem upload_keys (self : Client) (fuel : nat) (file_path s3_key : string)
    (image_path image_path_2 prompt : string) (seed width height steps : Z)
    (cfg : value) (negative_prompt : string) (use_lightning : bool) (w : World) :
  (upload_to_s3 self file_path s3_key w).1
  = Ret (if path_exists (fs w) file_path && s3_ok (s3 w (s3_calls w))
         then Some ("/runpod-volume/" +:+ s3_key) else None)
  /\ uploaded (trace (edit_single_image self fuel image_path prompt seed width height
                        steps cfg negative_prompt use_lightning w).2)
     = uploaded (trace w)
       ++ (if path_exists (fs w) image_path
           then [(image_path, s3_bucket_name self,
                  "input/qwen/" +:+ pretty (clock w) +:+ "_" +:+ basename image_path)]
           else [])
  /\ uploaded (trace (edit_dual_image self fuel image_path image_path_2 prompt seed
                        width height steps cfg negative_prompt use_lightning w).2)
     = uploaded (trace w)
       ++ (if path_exists (fs w) image_path && path_exists (fs w) image_path_2
           then (image_path, s3_bucket_name self,
                 "input/qwen/" +:+ pretty (clock w) +:+ "_donor_"
                   +:+ basename image_path)
                :: (if s3_ok (s3 w (s3_calls w))
                    then [(image_path_2, s3_bucket_name self,
                           "input/qwen/" +:+ pretty (clock w) +:+ "_canvas_"
                             +:+ basename image_path_2)]
                    else [])
           else [])
  /\ payload_field "image_path"
       <$> posted (trace (edit_single_image self fuel image_path prompt seed width
                            height steps cfg negative_prompt use_lightning w).2)
     = (payload_field "image_path" <$> posted (trace w))
       ++ (if path_exists (fs w) image_path && s3_ok (s3 w (s3_calls w))
           then [Some (VStr ("/runpod-volume/" +:+ "input/qwen/" +:+ pretty (clock w)
                               +:+ "_" +:+ basename image_path))]
           else [])
  /\ (forall p : string,
        contains_char slash (basename p) = false
        /\ exists head, p = head +:+ basename p
                        /\ (head = "" \/ exists h, head = h +:+ "/")).
Proof.
  split; [|split; [|split; [|split; [|exact basename_spec]]]].
  - rewrite upload_to_s3_eq.
    destruct (path_exists (fs w) file_path); [|reflexivity].
    cbv zeta. destruct (s3_ok (s3 w (s3_calls w))); reflexivity.
  - rewrite (uploaded_app (trace w) _ _
               (edit_single_image_history self fuel image_path prompt seed width height
                  steps cfg negative_prompt use_lightning w)).
    f_equal.
    destruct (path_exists (fs w) image_path); [|reflexivity].
    destruct (s3_ok (s3 w (s3_calls w))); reflexivity.
  - rewrite (uploaded_app (trace w) _ _
               (edit_dual_image_history self fuel image_path image_path_2 prompt seed
                  width height steps cfg negative_prompt use_lightning w)).
    f_equal.
    destruct (path_exists (fs w) image_path); [|reflexivity].
    destruct (path_exists (fs w) image_path_2); [|reflexivity].
    destruct (s3_ok (s3 w (s3_calls w))); [|reflexivity].
    destruct (s3_ok (s3 w (S (s3_calls w)))); reflexivity.
  - rewrite (posted_app (trace w) _ _
               (edit_single_image_history self fuel image_path prompt seed width height
                  steps cfg negative_prompt use_lightning w)).
    rewrite fmap_app. f_equal.
    destruct (path_exists (fs w) image_path); [|reflexivity].
    destruct (s3_ok (s3 w (s3_calls w))); reflexivity.
Qed.

Lemma upload_keys_witness :
  (upload_to_s3 example_client "imgs/c.png" "input/qwen/1700000000_c.png"
     (example_world example_fs always_completed)).1
  = Ret (Some "/runpod-volume/input/qwen/1700000000_c.png")
  /\ uploaded (trace (edit_single_image example_client 181 "docs/imgs/c.png"
                        "make it night" default_seed default_width default_height
                        default_steps default_cfg default_negative_prompt false
                        (example_world (<["docs/imgs/c.png" := File [x03]]> ∅)
                           always_completed)).2)
     = [("docs/imgs/c.png", "bucket", "input/qwen/1700000000_c.png")]
  /\ uploaded (trace (edit_dual_image example_client 181 "imgs/a.JPG" "imgs/c.png"
                        "move the person into the second picture" default_seed
                        default_width default_height default_steps default_cfg
                        default_negative_prompt false
                        (example_world example_fs always_completed)).2)
     = [("imgs/a.JPG", "bucket", "input/qwen/1700000000_donor_a.JPG");
        ("imgs/c.png", "bucket", "input/qwen/1700000000_canvas_c.png")]
  /\ basename "docs/imgs/c.png" = "c.png".
Proof.
  pose proof (upload_keys example_client 181 "imgs/c.png" "input/qwen/1700000000_c.png"
                "docs/imgs/c.png" "imgs/c.png" "make it night" default_seed
                default_width default_height default_steps default_cfg
                default_negative_prompt false
                (example_world (<["docs/imgs/c.png" := File [x03]]> ∅) always_completed))
    as (_ & Hsingle & _).
  pose proof (upload_keys example_client 181 "imgs/c.png" "input/qwen/1700000000_c.png"
                "imgs/a.JPG" "imgs/c.png" "move the person into the second picture"
                default_seed default_width default_height default_steps default_cfg
                default_negative_prompt false
                (example_world example_fs always_completed))
    as (Hup & _ & Hdual & _).
  assert (R1 : Ret (if path_exists (fs (example_world example_fs always_completed))
                         "imgs/c.png"
                       && s3_ok (s3 (example_world example_fs always_completed)
                                   (s3_calls (example_world example_fs always_completed)))
                    then Some ("/runpod-volume/" +:+ "input/qwen/1700000000_c.png")
                    else None)
               = @Ret (option string) (Some "/runpod-volume/input/qwen/1700000000_c.png"))
    by (vm_compute; reflexivity).
  assert (R2 : uploaded (trace (example_world (<["docs/imgs/c.png" := File [x03]]> ∅)
                                  always_completed))
               ++ (if path_exists
                        (fs (example_world (<["docs/imgs/c.png" := File [x03]]> ∅)
                               always_completed)) "docs/imgs/c.png"
                   then [("docs/imgs/c.png", s3_bucket_name example_client,
                          "input/qwen/"
                            +:+ pretty (clock (example_world
                                                 (<["docs/imgs/c.png" := File [x03]]> ∅)
                                                 always_completed))
                            +:+ "_" +:+ basename "docs/imgs/c.png")]
                   else [])
               = [("docs/imgs/c.png", "bucket", "input/qwen/1700000000_c.png")])
    by (vm_compute; reflexivity).
  assert (R3 : uploaded (trace (example_world example_fs always_completed))
               ++ (if path_exists (fs (example_world example_fs always_completed))
                        "imgs/a.JPG"
                      && path_exists (fs (example_world example_fs always_completed))
                           "imgs/c.png"
                   then ("imgs/a.JPG", s3_bucket_name example_client,
                         "input/qwen/"
                           +:+ pretty (clock (example_world example_fs always_completed))
                           +:+ "_donor_" +:+ basename "imgs/a.JPG")
                        :: (if s3_ok (s3 (example_world example_fs always_completed)
                                        (s3_calls (example_world example_fs
                                                     always_completed)))
                            then [("imgs/c.png", s3_bucket_name example_client,
                                   "input/qwen/"
                                     +:+ pretty (clock (example_world example_fs
                                                          always_completed))
                                     +:+ "_canvas_" +:+ basename "imgs/c.png")]
                            else [])
                   else [])
               = [("imgs/a.JPG", "bucket", "input/qwen/1700000000_donor_a.JPG");
                  ("imgs/c.png", "bucket", "input/qwen/1700000000_canvas_c.png")])
    by (vm_compute; reflexivity).
  exact (conj (eq_trans Hup R1)
           (conj (eq_trans Hsingle R2) (conj (eq_trans Hdual R3) eq_refl))).
Defined.

Lemma select_images_Permutation (exts l l' : list string) :
  l ≡ₚ l' -> select_images exts l ≡ₚ select_images exts l'.
Proof.
  unfold select_images. induction 1 as [|x l l' _ IH|x y l|l l' l'' _ IH1 _ IH2].
  - reflexivity.
  - cbn. destruct (endswith_any (lower x) exts); [by constructor|exact IH].
  - cbn. destruct (endswith_any (lower x) exts), (endswith_any (lower y) exts);
      try reflexivity. apply perm_swap.
  - by etrans.
Qed.

(** The order of the enumeration does not change which files match. *)
Lemma select_images_enumerate (exts : list string) (rank : string -> nat)
    (names : list string) :
  select_images exts (enumerate rank names) ≡ₚ select_images exts names.
Proof. apply select_images_Permutation. unfold enumerate. apply merge_sort_Permutation. Qed.

Section BatchOutcome.
Variable self : Client.
Variables (fuel : nat) (image_folder_path output_folder_path prompt : string).
Variables (seed width height steps : Z) (cfg : value) (negative_prompt : string).
Variable use_lightning : bool.

(** Whatever the world, what the loop returns, when it returns, is the
    summary it was given with counts moved up and entries added. *)
Lemma batch_loop_outcome (image_files : list string) :
  forall (i : nat) (total successful failed : Z) (entries : list value)
         (w : World) (r : dict) (w' : World),
    batch_loop self fuel image_folder_path output_folder_path prompt seed width
      height steps cfg negative_prompt use_lightning i image_files
      (summary total successful failed entries) w = (Ret r, w') ->
    exists successful' failed' new,
      r = summary total successful' failed' (entries ++ new).
Proof.
  induction image_files as [|f rest IH]; intros i total s fl entries w r w' Hrun.
  - inversion Hrun; subst. exists s, fl, []. by rewrite app_nil_r.
  - cbn [batch_loop] in Hrun. unfold bind at 1 in Hrun. cbn [log] in Hrun.
    unfold bind at 1 in Hrun.
    destruct (edit_single_image self fuel (path_join image_folder_path f) prompt
                (seed + Z.of_nat i) width height steps cfg negative_prompt
                use_lightning (emit (EvLog INFO 465) w)) as [[result|e|] w1];
      try discriminate.
    unfold bind at 1 in Hrun.
    destruct (is_str (py_get result "status") "COMPLETED").
    + destruct (save_image_result_returns result
                  (path_join output_folder_path ("edited_" +:+ stem f +:+ ".png")) w1)
        as (b & w2 & Hsave & _).
      unfold bind at 1 in Hrun. rewrite Hsave in Hrun.
      destruct b; unfold bind at 1 in Hrun; cbn [log ret] in Hrun;
        unfold bind at 1 in Hrun; cbn [log] in Hrun;
        apply IH in Hrun as (s' & f' & new & ->);
        eexists s', f', (_ :: new); by rewrite <- app_assoc.
    + unfold bind at 1 in Hrun. cbn [log ret] in Hrun.
      unfold bind at 1 in Hrun. cbn [log] in Hrun.
      apply IH in Hrun as (s' & f' & new & ->).
      eexists s', f', (_ :: new). by rewrite <- app_assoc.
Qed.

End BatchOutcome.

Section BatchDriver.
Variable self : Client.
Variables (fuel : nat) (image_folder_path output_folder_path : string).
Variable valid_image_extensions : list string.
Variables (prompt : string) (seed width height steps : Z) (cfg : value).
Variables (negative_prompt : string) (use_lightning : bool).

(** [batch_edit_images] up to its loop. *)
Lemma batch_edit_images_eq (w : World) :
  batch_edit_images self fuel image_folder_path output_folder_path
    valid_image_extensions prompt seed width height steps cfg negative_prompt
    use_lightning w =
  if path_isdir (fs w) image_folder_path then
    match makedirs (fs w) output_folder_path with
    | inl e => (Raise e, w)
    | inr fs1 =>
        if listable w image_folder_path then
          match select_images valid_image_extensions
                  (enumerate (dir_rank w) (listdir fs1 image_folder_path)) with
          | [] =>
              (Ret [("error",
                     VStr ("No image files to process: " +:+ image_folder_path))],
               set_fs fs1 w)
          | f0 :: rest =>
              (results <- batch_loop self fuel image_folder_path output_folder_path
                            prompt seed width height steps cfg negative_prompt
                            use_lightning 0 (f0 :: rest)
                            (summary (Z.of_nat (length (f0 :: rest))) 0 0 []) ;;
               log INFO 517 ;;;
               ret results) (emit (EvLog INFO 454) (set_fs fs1 w))
          end
        else (Raise OSError, set_fs fs1 w)
    end
  else
    (Ret [("error", VStr ("Image folder does not exist: " +:+ image_folder_path))], w).
Proof.
  unfold batch_edit_images.
  unfold bind at 1. unfold os_path_isdir at 1.
  destruct (path_isdir (fs w) image_folder_path) eqn:Hdir; cbn [negb]; [|reflexivity].
  unfold bind at 1. unfold os_makedirs at 1.
  destruct (makedirs (fs w) output_folder_path) as [e|fs1] eqn:Hmk; [reflexivity|].
  unfold bind at 1. unfold os_listdir at 1. cbn [fs set_fs listable dir_rank].
  rewrite (makedirs_keeps_dir _ _ _ _ Hmk Hdir). cbn [andb].
  destruct (listable w image_folder_path); [|reflexivity].
  destruct (select_images valid_image_extensions
              (enumerate (dir_rank w) (listdir fs1 image_folder_path)));
    reflexivity.
Qed.

(** No file matches in the enumeration exactly when none matches in the
    folder. *)
Lemma select_images_enumerate_nil (rank : string -> nat) (names : list string) :
  select_images valid_image_extensions (enumerate rank names) = []
  <-> select_images valid_image_extensions names = [].
Proof.
  pose proof (select_images_enumerate valid_image_extensions rank names) as Hp.
  split; intros H; rewrite H in Hp.
  - by apply Permutation_nil in Hp.
  - symmetry in Hp. by apply Permutation_nil in Hp.
Qed.

(** What [batch_edit_images] returns, when it returns after a listing with
    a matching file, is a summary: it has no [error]. *)
Lemma batch_edit_images_returns_summary (w : World) (fs1 : gmap string node)
    (r : dict) (w' : World) :
  path_isdir (fs w) image_folder_path = true ->
  makedirs (fs w) output_folder_path = inr fs1 ->
  listable w image_folder_path = true ->
  select_images valid_image_extensions (listdir fs1 image_folder_path) <> [] ->
  batch_edit_images self fuel image_folder_path output_folder_path
    valid_image_extensions prompt seed width height steps cfg negative_prompt
    use_lightning w = (Ret r, w') ->
  is_error r = false.
Proof.
  intros Hdir Hmk Hlist Hne. rewrite batch_edit_images_eq, Hdir, Hmk, Hlist.
  destruct (select_images valid_image_extensions
              (enumerate (dir_rank w) (listdir fs1 image_folder_path)))
    as [|f0 rest] eqn:Hsel.
  { apply select_images_enumerate_nil in Hsel. done. }
  unfold bind at 1.
  destruct (batch_loop self fuel image_folder_path output_folder_path prompt seed width
              height steps cfg negative_prompt use_lightning 0 (f0 :: rest)
              (summary (Z.of_nat (length (f0 :: rest))) 0 0 [])
              (emit (EvLog INFO 454) (set_fs fs1 w))) as [[res|e|] w1] eqn:Hloop;
    try discriminate.
  apply batch_loop_outcome in Hloop as (s' & f' & new & ->).
  intros H. inversion H; subst. reflexivity.
Qed.

End BatchDriver.

(** C4 (as amended): the batch driver on a folder with at least one
    matching file.  When the source folder is a directory that can be
    listed, the output folder can be created, the folder holds [K >= 1]
    names whose lower-case form ends with an accepted extension (whatever
    the number of other names), and every reply of the job queue is a
    request error or a JSON object, [batch_edit_images] returns a summary
    with [total_files = K].  The files it processes are the matching names,
    each once, in the order in which [os.listdir] enumerates them; the
    list of results has one entry per processed file, in that order,
    whatever the outcome of the files before it (a missing file, a failed
    upload, a refused submission, a failed or timed-out job, a failed save);
    the entries counted as successful and as failed add up to [K]; and the
    calls of [edit_single_image] are exactly one per processed file, the one
    of index [i] with the path of that file, the seed [seed + i], and every
    other parameter as given. *)
Theorem batch_edit_images_summary (self : Client) (fuel : nat)
    (image_folder_path output_folder_path : string)
    (valid_image_extensions : list string) (prompt : string)
    (seed width height steps : Z) (cfg : value) (negative_prompt : string)
    (use_lightning : bool) (w : World) (fs1 : gmap string node) :
  path_isdir (fs w) image_folder_path = true ->
  makedirs (fs w) output_folder_path = inr fs1 ->
  listable w image_folder_path = true ->
  (forall i, object_or_error (http w i) = true) ->
  select_images valid_image_extensions (listdir fs1 image_folder_path) <> [] ->
  (181 <= fuel)%nat ->
  let matching := select_images valid_image_extensions (listdir fs1 image_folder_path) in
  let K := Z.of_nat (length matching) in
  let image_files :=
    select_images valid_image_extensions
      (enumerate (dir_rank w) (listdir fs1 image_folder_path)) in
  image_files ≡ₚ matching
  /\ exists successful failed entries w',
       batch_edit_images self fuel image_folder_path output_folder_path
         valid_image_extensions prompt seed width height steps cfg negative_prompt
         use_lightning w
       = (Ret [("total_files", VInt K); ("successful", VInt successful);
               ("failed", VInt failed); ("results", VList entries)], w')
       /\ 0 <= successful /\ 0 <= failed /\ successful + failed = K
       /\ entry_filename <$> entries = (fun f => Some (VStr f)) <$> image_files
       /\ edit_calls (trace w')
          = edit_calls (trace w)
            ++ imap (fun i image_filename =>
                       edit_args (path_join image_folder_path image_filename) prompt
                         (seed + Z.of_nat i) width height steps cfg negative_prompt
                         use_lightning)
                 image_files.
Proof.
  intros Hdir Hmk Hlist Hobj Hne Hfuel matching K image_files.
  pose proof (select_images_enumerate valid_image_extensions (dir_rank w)
                (listdir fs1 image_folder_path)) as Hperm.
  fold image_files matching in Hperm. split; [exact Hperm|].
  assert (Hne' : image_files <> []).
  { intros Hnil. apply Hne.
    by apply (select_images_enumerate_nil valid_image_extensions (dir_rank w)). }
  subst K. rewrite <- (Permutation_length Hperm).
  exact (batch_edit_images_runs self fuel image_folder_path output_folder_path prompt
           seed width height steps cfg negative_prompt use_lightning Hfuel
           valid_image_extensions w fs1 Hdir Hmk Hlist Hobj Hne').
Qed.

(** C4 as stated fails for [K = 0]: on a folder that holds a text file only,
    [batch_edit_images] returns the error outcome of line 452, which has no
    [total_files].  It fails, for [K = 2], when a file has the name of the
    output folder: [os.makedirs] raises and no file is processed.  And a
    failure on one file can halt the batch: when the first status check of
    the first file is answered by a JSON array, [status_data.get] raises
    [AttributeError], nothing catches it, and the second file is never
    processed.  It fails, for [K = 1], when the source folder cannot be
    listed: [os.listdir] raises and no file is processed. *)
Lemma batch_edit_images_no_matching_file :
  (select_images default_valid_image_extensions (listdir example_fs_no_image "docs") = []
   /\ exists w',
        batch_edit_images example_client 181 "docs" "docs"
          default_valid_image_extensions "enhance image quality" default_seed
          default_width default_height default_steps default_cfg
          default_negative_prompt false
          (example_world example_fs_no_image (script []))
        = (Ret [("error", VStr "No image files to process: docs")], w')
        /\ dict_get [("error", VStr "No image files to process: docs")] "total_files"
           = None)
  /\ (length (select_images default_valid_image_extensions
                (listdir example_fs_blocked_images "imgs")) = 2%nat
      /\ batch_edit_images example_client 181 "imgs" "out"
           default_valid_image_extensions "enhance image quality" default_seed
           default_width default_height default_steps default_cfg
           default_negative_prompt false
           (example_world example_fs_blocked_images always_completed)
         = (Raise FileExistsError,
            example_world example_fs_blocked_images always_completed))
  /\ (length (select_images default_valid_image_extensions
                (listdir (<["out" := Dir]> example_fs) "imgs")) = 2%nat
      /\ (batch_edit_images example_client 181 "imgs" "out"
            default_valid_image_extensions "enhance image quality" default_seed
            default_width default_height default_steps default_cfg
            default_negative_prompt false
            (example_world example_fs submitted_then_array)).1
         = Raise AttributeError
      /\ edit_calls
           (trace (batch_edit_images example_client 181 "imgs" "out"
                     default_valid_image_extensions "enhance image quality"
                     default_seed default_width default_height default_steps
                     default_cfg default_negative_prompt false
                     (example_world example_fs submitted_then_array)).2)
         = [edit_args "imgs/a.JPG" "enhance image quality" 12345 1024 1024 40
              default_cfg " " false])
  /\ (length (select_images default_valid_image_extensions
                (listdir (<["out" := Dir]> example_fs_docs_image) "docs")) = 1%nat
      /\ batch_edit_images example_client 181 "docs" "out"
           default_valid_image_extensions "enhance image quality" default_seed
           default_width default_height default_steps default_cfg
           default_negative_prompt false
           (example_world_unlistable example_fs_docs_image always_completed)
         = (Raise OSError,
            set_fs (<["out" := Dir]> example_fs_docs_image)
              (example_world_unlistable example_fs_docs_image always_completed))).
Proof.
  split; [|split; [|split]]; [| | |split; vm_compute; reflexivity].
  - split; [vm_compute; reflexivity|].
    eexists. split; [vm_compute; reflexivity|reflexivity].
  - split; [vm_compute; reflexivity|].
    rewrite batch_edit_images_eq.
    replace (path_isdir (fs (example_world example_fs_blocked_images always_completed))
               "imgs") with true by (vm_compute; reflexivity).
    replace (makedirs (fs (example_world example_fs_blocked_images always_completed))
               "out") with (@inl exn (gmap string node) FileExistsError)
      by (vm_compute; reflexivity).
    reflexivity.
  - split; [vm_compute; reflexivity|]. split; vm_compute; reflexivity.
Qed.

Lemma batch_edit_images_summary_witness :
  path_isdir (fs (example_world example_fs always_completed)) "imgs" = true
  /\ makedirs (fs (example_world example_fs always_completed)) "out"
     = inr (<["out" := Dir]> example_fs)
  /\ listable (example_world example_fs always_completed) "imgs" = true
  /\ (forall i, object_or_error (http (example_world example_fs always_completed) i)
                = true)
  /\ select_images default_valid_image_extensions
       (enumerate (dir_rank (example_world example_fs always_completed))
          (listdir (<["out" := Dir]> example_fs) "imgs")) = ["a.JPG"; "c.png"]
  /\ exists successful failed entries w',
       batch_edit_images example_client 181 "imgs" "out" default_valid_image_extensions
         "enhance image quality" default_seed default_width default_height
         default_steps default_cfg default_negative_prompt false
         (example_world example_fs always_completed)
       = (Ret [("total_files", VInt 2); ("successful", VInt successful);
               ("failed", VInt failed); ("results", VList entries)], w')
       /\ successful + failed = 2
       /\ entry_filename <$> entries = [Some (VStr "a.JPG"); Some (VStr "c.png")]
       /\ edit_calls (trace w')
          = [edit_args "imgs/a.JPG" "enhance image quality" 12345 1024 1024 40
               default_cfg " " false;
             edit_args "imgs/c.png" "enhance image quality" 12346 1024 1024 40
               default_cfg " " false].
Proof.
  assert (H1 : path_isdir (fs (example_world example_fs always_completed)) "imgs" = true)
    by (vm_compute; reflexivity).
  assert (H2 : makedirs (fs (example_world example_fs always_completed)) "out"
               = inr (<["out" := Dir]> example_fs)) by (vm_compute; reflexivity).
  assert (Hl : listable (example_world example_fs always_completed) "imgs" = true)
    by reflexivity.
  assert (Ho : forall i, object_or_error
                           (http (example_world example_fs always_completed) i) = true).
  { intros i. cbn. unfold always_completed. by destruct (Nat.even i). }
  assert (Hsel : select_images default_valid_image_extensions
                   (enumerate (dir_rank (example_world example_fs always_completed))
                      (listdir (<["out" := Dir]> example_fs) "imgs"))
                 = ["a.JPG"; "c.png"]) by (vm_compute; reflexivity).
  assert (Hlen : Z.of_nat (length (select_images default_valid_image_extensions
                                     (listdir (<["out" := Dir]> example_fs) "imgs")))
                 = 2) by (vm_compute; reflexivity).
  assert (H3 : select_images default_valid_image_extensions
                 (listdir (<["out" := Dir]> example_fs) "imgs") <> [])
    by (vm_compute; discriminate).
  assert (H4 : (181 <= 181)%nat) by lia.
  pose proof (batch_edit_images_summary example_client 181 "imgs" "out"
                default_valid_image_extensions "enhance image quality" default_seed
                default_width default_height default_steps default_cfg
                default_negative_prompt false
                (example_world example_fs always_completed)
                (<["out" := Dir]> example_fs) H1 H2 Hl Ho H3 H4) as Hthm.
  cbv zeta in Hthm. rewrite Hsel, Hlen in Hthm.
  destruct Hthm
    as (_ & s & f & entries & w' & Hrun & _ & _ & Hsum & Hnames & Hcalls).
  refine (conj H1 (conj H2 (conj Hl (conj Ho (conj Hsel _))))).
  exists s, f, entries, w'.
  exact (conj Hrun (conj Hsum (conj Hnames Hcalls))).
Defined.

(** C10 (as amended): when [batch_edit_images] returns an error outcome.
    When the source folder is not a directory it returns the error of line
    440 and leaves the world as it was.  Otherwise it runs [os.makedirs] on
    the output folder first, then [os.listdir] on the source folder, neither
    inside a [try]: if one of them fails, its exception leaves the method,
    nothing is returned, and after a failed listing the output folder has
    been created all the same.  If both succeed and no name of the folder
    has an accepted extension, the method returns the error of line 452; the
    file system is then the one that [os.makedirs] left, with the output
    folder a directory.  If a name matches, whatever the method returns has
    no [error], and it does return when every reply of the job queue is a
    request error or a JSON object.  So an error outcome is returned exactly
    when the source folder is not a directory, or the output folder could
    be created, the source folder listed, and no name in it matches. *)
Theorem batch_edit_images_error_iff (self : Client) (fuel : nat)
    (image_folder_path output_folder_path : string)
    (valid_image_extensions : list string) (prompt : string)
    (seed width height steps : Z) (cfg : value) (negative_prompt : string)
    (use_lightning : bool) (w : World) :
  (181 <= fuel)%nat ->
  let run :=
    batch_edit_images self fuel image_folder_path output_folder_path
      valid_image_extensions prompt seed width height steps cfg negative_prompt
      use_lightning w in
  (path_isdir (fs w) image_folder_path = false ->
   run = (Ret [("error", VStr ("Image folder does not exist: " +:+ image_folder_path))],
          w))
  /\ (forall e : exn,
        path_isdir (fs w) image_folder_path = true ->
        makedirs (fs w) output_folder_path = inl e ->
        run = (Raise e, w))
  /\ (forall fs1 : gmap string node,
        path_isdir (fs w) image_folder_path = true ->
        makedirs (fs w) output_folder_path = inr fs1 ->
        listable w image_folder_path = false ->
        run = (Raise OSError, set_fs fs1 w))
  /\ (forall fs1 : gmap string node,
        path_isdir (fs w) image_folder_path = true ->
        makedirs (fs w) output_folder_path = inr fs1 ->
        listable w image_folder_path = true ->
        let no_match :=
          select_images valid_image_extensions (listdir fs1 image_folder_path) = [] in
        (no_match ->
         run = (Ret [("error",
                      VStr ("No image files to process: " +:+ image_folder_path))],
                set_fs fs1 w)
         /\ (makedirs_tail output_folder_path <> "." ->
             path_isdir (fs (set_fs fs1 w)) output_folder_path = true))
        /\ (~ no_match ->
            (forall i, object_or_error (http w i) = true) ->
            exists r w', run = (Ret r, w') /\ is_error r = false)
        /\ (forall r w', run = (Ret r, w') -> (is_error r = true <-> no_match))).
Proof.
  intros Hfuel run. subst run. split; [|split; [|split]].
  - intros Hdir. by rewrite batch_edit_images_eq, Hdir.
  - intros e Hdir Hmk. by rewrite batch_edit_images_eq, Hdir, Hmk.
  - intros fs1 Hdir Hmk Hlist. by rewrite batch_edit_images_eq, Hdir, Hmk, Hlist.
  - intros fs1 Hdir Hmk Hlist no_match. subst no_match.
    assert (Hnone : select_images valid_image_extensions
                      (listdir fs1 image_folder_path) = [] ->
                    batch_edit_images self fuel image_folder_path output_folder_path
                      valid_image_extensions prompt seed width height steps cfg
                      negative_prompt use_lightning w
                    = (Ret [("error",
                             VStr ("No image files to process: "
                                   +:+ image_folder_path))], set_fs fs1 w)).
    { intros Hno. rewrite batch_edit_images_eq, Hdir, Hmk, Hlist.
      by rewrite (proj2 (select_images_enumerate_nil valid_image_extensions
                           (dir_rank w) (listdir fs1 image_folder_path)) Hno). }
    split; [|split].
    + intros Hno. split; [by apply Hnone|].
      intros Htail. by apply (makedirs_spec (fs w) fs1 output_folder_path Hmk).
    + intros Hsome Hobj.
      destruct (batch_edit_images_runs self fuel image_folder_path output_folder_path
                  prompt seed width height steps cfg negative_prompt use_lightning
                  Hfuel valid_image_extensions w fs1 Hdir Hmk Hlist Hobj)
        as (s & f & entries & w' & Hrun & _).
      { intros Hnil. apply Hsome.
        by apply (select_images_enumerate_nil valid_image_extensions (dir_rank w)). }
      eexists _, w'. split; [exact Hrun|reflexivity].
    + intros r w' Hrun.
      destruct (select_images valid_image_extensions (listdir fs1 image_folder_path))
        as [|f0 rest] eqn:Hsel.
      * rewrite (Hnone eq_refl) in Hrun. inversion Hrun; subst. by split.
      * assert (Herr : is_error r = false).
        { apply (batch_edit_images_returns_summary self fuel image_folder_path
                   output_folder_path valid_image_extensions prompt seed width height
                   steps cfg negative_prompt use_lightning w fs1 r w' Hdir Hmk Hlist);
            [by rewrite Hsel|exact Hrun]. }
        rewrite Herr. split; discriminate.
Qed.

(** C10 as stated fails when the output folder cannot be created: the
    source folder holds no image, yet no error outcome is returned, since
    [os.makedirs] raises [FileExistsError] on the file named [out].  It
    fails as well when the source folder cannot be listed. *)
Lemma batch_edit_images_blocked_output :
  (path_isdir example_fs_blocked "docs" = true
   /\ select_images default_valid_image_extensions (listdir example_fs_blocked "docs")
      = []
   /\ batch_edit_images example_client 181 "docs" "out" default_valid_image_extensions
        "enhance image quality" default_seed default_width default_height
        default_steps default_cfg default_negative_prompt false
        (example_world example_fs_blocked (script []))
      = (Raise FileExistsError, example_world example_fs_blocked (script [])))
  /\ (path_isdir example_fs_no_image "docs" = true
      /\ select_images default_valid_image_extensions
           (listdir (<["out" := Dir]> example_fs_no_image) "docs") = []
      /\ batch_edit_images example_client 181 "docs" "out"
           default_valid_image_extensions "enhance image quality" default_seed
           default_width default_height default_steps default_cfg
           default_negative_prompt false
           (example_world_unlistable example_fs_no_image (script []))
         = (Raise OSError,
            set_fs (<["out" := Dir]> example_fs_no_image)
              (example_world_unlistable example_fs_no_image (script [])))).
Proof. repeat split; vm_compute; reflexivity. Qed.

Lemma batch_edit_images_error_iff_witness :
  (181 <= 181)%nat
  /\ exists r w',
       batch_edit_images example_client 181 "docs" "out" default_valid_image_extensions
         "enhance image quality" default_seed default_width default_height
         default_steps default_cfg default_negative_prompt false
         (example_world example_fs_no_image (script [])) = (Ret r, w')
       /\ is_error r = true
       /\ fs w' = <["out" := Dir]> example_fs_no_image.
Proof.
  assert (H1 : (181 <= 181)%nat) by lia.
  destruct (batch_edit_images_error_iff example_client 181 "docs" "out"
              default_valid_image_extensions "enhance image quality" default_seed
              default_width default_height default_steps default_cfg
              default_negative_prompt false
              (example_world example_fs_no_image (script [])) H1)
    as (_ & _ & _ & Hok).
  assert (Hdir : path_isdir (fs (example_world example_fs_no_image (script []))) "docs"
                 = true) by (vm_compute; reflexivity).
  assert (Hmk : makedirs (fs (example_world example_fs_no_image (script []))) "out"
                = inr (<["out" := Dir]> example_fs_no_image))
    by (vm_compute; reflexivity).
  assert (Hl : listable (example_world example_fs_no_image (script [])) "docs" = true)
    by reflexivity.
  assert (Hno : select_images default_valid_image_extensions
                  (listdir (<["out" := Dir]> example_fs_no_image) "docs") = [])
    by (vm_compute; reflexivity).
  destruct (Hok _ Hdir Hmk Hl) as (Hnone & _ & _).
  destruct (Hnone Hno) as (Hrun & _).
  refine (conj H1 _). eexists _, _.
  exact (conj Hrun (conj eq_refl eq_refl)).
Defined.

(** ** The poller: requests, results and time *)

Section PollerInvariants.
Variable self : Client.
Variable job_id : value.
Variables check_interval max_wait_time : Z.

(** One turn of the loop, whatever the reply and the interval: one request,
    a GET of the status URL for this job. *)
Lemma poll_once_request (w : World) :
  let w1 := (poll_once self job_id check_interval w).2 in
  http_calls w1 = S (http_calls w)
  /\ gets (trace w1) = gets (trace w) ++ [(status_url self, job_id)]
  /\ clock w <= clock w1.
Proof.
  unfold poll_once, try_except, bind, log, session_get, time_sleep. cbn.
  destruct (result (http w (http_calls w))) as [|d|v]; cbn;
    [| |repeat split; lia].
  - destruct (Z.ltb_spec check_interval 0); cbn; repeat split; lia.
  - destruct (is_str (py_get d "status") "COMPLETED"); [cbn; repeat split; lia|].
    destruct (is_str (py_get d "status") "FAILED"); [cbn; repeat split; lia|].
    destruct (is_str (py_get d "status") "IN_QUEUE"
              || is_str (py_get d "status") "IN_PROGRESS");
      [|cbn; repeat split; lia].
    cbn. destruct (Z.ltb_spec check_interval 0); cbn; repeat split; lia.
Qed.

(** What a turn returns: a final result built from the reply, or nothing
    (go round again). *)
Lemma poll_once_result (w : World) (r : option dict) (w1 : World) :
  poll_once self job_id check_interval w = (Ret r, w1) ->
  match r with
  | Some res => exists d, result (http w (http_calls w)) = HttpJson d
                          /\ pending_status d = false /\ res = final_result d job_id
  | None => retry_reply (http w (http_calls w)) = true /\ 0 <= check_interval
            /\ clock w1 = clock w + Z.of_N (latency (http w (http_calls w)))
                          + check_interval
  end.
Proof.
  destruct (object_or_error (http w (http_calls w))) eqn:Hobj.
  2:{ unfold object_or_error in Hobj.
      destruct (result (http w (http_calls w))) as [| |v] eqn:Hres; try discriminate.
      rewrite (poll_once_other self job_id check_interval w v Hres). discriminate. }
  destruct (retry_reply (http w (http_calls w))) eqn:Hr.
  - destruct (Z.ltb_spec check_interval 0) as [Hneg|Hpos].
    + pose proof (poll_once_negative self job_id check_interval w Hr Hneg) as Hx.
      intros H. rewrite H in Hx. discriminate.
    + destruct (poll_once_retry self job_id check_interval w Hr Hpos)
        as (Hp & _ & _ & Hk).
      rewrite Hp. intros H. inversion H; subst. repeat split; [lia|exact Hk].
  - destruct (not_retry_reply _ Hr Hobj) as (d & Hd & Hp).
    rewrite (poll_once_final self job_id check_interval w d Hd Hp).
    intros H. inversion H; subst. eauto.
Qed.

Lemma wait_loop_requests (fuel : nat) :
  forall (start_time : Z) (w : World) (o : outcome dict) (w' : World),
    wait_loop self fuel job_id check_interval max_wait_time start_time w = (o, w') ->
    (http_calls w <= http_calls w')%nat
    /\ gets (trace w')
       = gets (trace w)
         ++ replicate (http_calls w' - http_calls w) (status_url self, job_id)
    /\ clock w <= clock w'.
Proof.
  induction fuel as [|fuel IH]; intros st w o w' H.
  - inversion H; subst. rewrite Nat.sub_diag, app_nil_r. repeat split; lia.
  - cbn [wait_loop] in H. unfold bind at 1 in H. unfold time_time at 1 in H.
    destruct (clock w - st <? max_wait_time).
    + pose proof (poll_once_request w) as Hreq. cbv zeta in Hreq.
      unfold bind in H.
      destruct (poll_once self job_id check_interval w) as [[[d|]|e|] w1] eqn:Hp;
        cbn [snd] in Hreq; destruct Hreq as (Hc & Hg & Hk).
      * inversion H; subst. rewrite Hc, Hg.
        replace (S (http_calls w) - http_calls w)%nat with 1%nat by lia.
        repeat split; [lia|lia].
      * destruct (IH st w1 o w' H) as (Hc' & Hg' & Hk').
        split; [lia|]. split; [|lia].
        rewrite Hg', Hg, Hc, <- app_assoc. f_equal.
        replace (http_calls w' - http_calls w)%nat
          with (S (http_calls w' - S (http_calls w)))%nat by lia.
        reflexivity.
      * inversion H; subst. rewrite Hc, Hg.
        replace (S (http_calls w) - http_calls w)%nat with 1%nat by lia.
        repeat split; [lia|lia].
      * inversion H; subst. rewrite Hc, Hg.
        replace (S (http_calls w) - http_calls w)%nat with 1%nat by lia.
        repeat split; [lia|lia].
    + inversion H; subst. cbn. rewrite Nat.sub_diag, app_nil_r. repeat split; lia.
Qed.

Lemma wait_loop_result (fuel : nat) :
  forall (start_time : Z) (w : World) (r : dict) (w' : World),
    wait_loop self fuel job_id check_interval max_wait_time start_time w = (Ret r, w') ->
    (r = timeout_result job_id /\ max_wait_time <= clock w' - start_time)
    \/ (exists d, pending_status d = false /\ r = final_result d job_id
                  /\ result (http w' (pred (http_calls w'))) = HttpJson d
                  /\ (0 < http_calls w')%nat).
Proof.
  induction fuel as [|fuel IH]; intros st w r w' H; [discriminate|].
  cbn [wait_loop] in H. unfold bind at 1 in H. unfold time_time at 1 in H.
  destruct (Z.ltb_spec (clock w - st) max_wait_time) as [Hlt|Hge].
  - unfold bind in H.
    destruct (poll_once self job_id check_interval w) as [[[res|]|e|] w1] eqn:Hp;
      try discriminate.
    + inversion H; subst. right.
      destruct (poll_once_result w _ _ Hp) as (d & Hd & Hpend & ->).
      destruct (poll_once_request w) as (Hc & _ & _). rewrite Hp in Hc. cbn in Hc.
      destruct (poll_once_frame self job_id check_interval w) as (_ & _ & _ & Hh & _).
      rewrite Hp in Hh. cbn in Hh.
      exists d. rewrite Hc, Hh. cbn. repeat split; [exact Hpend|exact Hd|lia].
    + by apply (IH st w1).
  - inversion H; subst. left. split; [reflexivity|]. cbn. lia.
Qed.

Lemma wait_loop_request_bound (fuel : nat) :
  forall (start_time : Z) (w : World) (o : outcome dict) (w' : World),
    0 < check_interval ->
    wait_loop self fuel job_id check_interval max_wait_time start_time w = (o, w') ->
    http_calls w' = http_calls w
    \/ clock w - start_time
         + (Z.of_nat (http_calls w' - http_calls w) - 1) * check_interval
       < max_wait_time.
Proof.
  induction fuel as [|fuel IH]; intros st w o w' Hi H.
  - inversion H; subst. by left.
  - cbn [wait_loop] in H. unfold bind at 1 in H. unfold time_time at 1 in H.
    destruct (Z.ltb_spec (clock w - st) max_wait_time) as [Hlt|Hge].
    + pose proof (poll_once_request w) as Hreq. cbv zeta in Hreq.
      unfold bind in H.
      destruct (poll_once self job_id check_interval w) as [[[d|]|e|] w1] eqn:Hp;
        cbn [snd] in Hreq; destruct Hreq as (Hc & _ & _).
      * inversion H; subst. right. rewrite Hc.
        replace (S (http_calls w) - http_calls w)%nat with 1%nat by lia. lia.
      * destruct (poll_once_result w _ _ Hp) as (_ & _ & Hk).
        pose proof (wait_loop_requests fuel st w1 o w' H) as (Hle & _ & _).
        right. destruct (IH st w1 o w' Hi H) as [Heq|Hb].
        { rewrite Heq, Hc.
          replace (S (http_calls w) - http_calls w)%nat with 1%nat by lia. lia. }
        rewrite Hk, Hc in Hb.
        replace (Z.of_nat (http_calls w' - http_calls w))
          with (Z.of_nat (http_calls w' - S (http_calls w)) + 1) by lia.
        nia.
      * inversion H; subst. right. rewrite Hc.
        replace (S (http_calls w) - http_calls w)%nat with 1%nat by lia. lia.
      * inversion H; subst. right. rewrite Hc.
        replace (S (http_calls w) - http_calls w)%nat with 1%nat by lia. lia.
    + inversion H; subst. by left.
Qed.

End PollerInvariants.

Lemma final_result_fields (d : dict) (job_id : value) :
  py_get (final_result d job_id) "job_id" = job_id
  /\ (py_get (final_result d job_id) "status" = VStr "COMPLETED"
      \/ py_get (final_result d job_id) "status" = VStr "FAILED"
      \/ py_get (final_result d job_id) "status" = VStr "UNKNOWN").
Proof.
  unfold final_result.
  destruct (is_str (py_get d "status") "COMPLETED"); [cbn; by auto|].
  destruct (is_str (py_get d "status") "FAILED"); cbn; by auto.
Qed.

Lemma wait_for_completion_requests (self : Client) (fuel : nat) (job_id : value)
    (check_interval max_wait_time : Z) (w : World) (o : outcome dict) (w' : World) :
  wait_for_completion self fuel job_id check_interval max_wait_time w = (o, w') ->
  (http_calls w <= http_calls w')%nat
  /\ gets (trace w')
     = gets (trace w)
       ++ replicate (http_calls w' - http_calls w) (status_url self, job_id)
  /\ clock w <= clock w'.
Proof.
  unfold wait_for_completion, bind, time_time. apply wait_loop_requests.
Qed.

Lemma wait_for_completion_result (self : Client) (fuel : nat) (job_id : value)
    (check_interval max_wait_time : Z) (w : World) (r : dict) (w' : World) :
  wait_for_completion self fuel job_id check_interval max_wait_time w = (Ret r, w') ->
  (r = timeout_result job_id /\ max_wait_time <= clock w' - clock w)
  \/ (exists d, pending_status d = false /\ r = final_result d job_id
                /\ result (http w (pred (http_calls w'))) = HttpJson d
                /\ (0 < http_calls w')%nat).
Proof.
  intros Hrun.
  destruct (wait_for_completion_frame self fuel job_id check_interval max_wait_time w)
    as (_ & _ & _ & Hh & _).
  rewrite Hrun in Hh. cbn [snd] in Hh. rewrite <- Hh.
  unfold wait_for_completion, bind, time_time in Hrun.
  by apply (wait_loop_result self job_id check_interval max_wait_time fuel _ _ _ _ Hrun).
Qed.

(** X1: the poller only polls.  Whatever the replies, the interval, the
    maximum wait and the fuel, and however [wait_for_completion] ends
    (result, exception, fuel), the requests it made are GETs of the status
    URL for the given job, one per HTTP exchange; it made no upload and no
    submission, and left the file system and the object store as they
    were. *)
Theorem wait_for_completion_only_polls (self : Client) (fuel : nat) (job_id : value)
    (check_interval max_wait_time : Z) (w : World) :
  let w' := (wait_for_completion self fuel job_id check_interval max_wait_time w).2 in
  gets (trace w')
  = gets (trace w)
    ++ replicate (http_calls w' - http_calls w) (status_url self, job_id)
  /\ (http_calls w <= http_calls w')%nat
  /\ history (trace w') = history (trace w)
  /\ fs w' = fs w
  /\ s3_calls w' = s3_calls w.
Proof.
  cbv zeta.
  destruct (wait_for_completion_frame self fuel job_id check_interval max_wait_time w)
    as (Hfs & _ & Hs3 & _ & Hh).
  destruct (wait_for_completion self fuel job_id check_interval max_wait_time w)
    as [o w'] eqn:Hrun.
  cbn [snd] in *.
  destruct (wait_for_completion_requests self fuel job_id check_interval max_wait_time
              _ _ _ Hrun) as (Hle & Hg & _).
  repeat split; assumption.
Qed.

(** X2: a bound on the number of status checks.  With a positive interval,
    if [wait_for_completion] made [n] requests then
    [n * check_interval < max(0, max_wait_time) + check_interval]: none at
    all for a maximum wait that is not positive, and at most 180 with the
    defaults (10 and 1800). *)
Theorem wait_for_completion_request_bound (self : Client) (fuel : nat) (job_id : value)
    (check_interval max_wait_time : Z) (w : World) :
  0 < check_interval ->
  let w' := (wait_for_completion self fuel job_id check_interval max_wait_time w).2 in
  Z.of_nat (http_calls w' - http_calls w) * check_interval
  < Z.max 0 max_wait_time + check_interval.
Proof.
  intros Hi. cbv zeta.
  destruct (wait_for_completion self fuel job_id check_interval max_wait_time w)
    as [o w'] eqn:Hrun.
  cbn [snd]. unfold wait_for_completion, bind, time_time in Hrun.
  destruct (wait_loop_request_bound self job_id check_interval max_wait_time fuel
              _ _ _ _ Hi Hrun) as [Heq|Hb].
  - rewrite Heq, Nat.sub_diag. lia.
  - lia.
Qed.

Lemma wait_for_completion_request_bound_witness :
  0 < 10
  /\ Z.of_nat
       (http_calls (wait_for_completion example_client 200 (VStr "job-1") 10 25
                      (example_world ∅ (script []))).2
        - http_calls (example_world ∅ (script []))) * 10
     < Z.max 0 25 + 10.
Proof.
  assert (H : 0 < 10) by lia.
  exact (conj H (wait_for_completion_request_bound example_client 200 (VStr "job-1")
                   10 25 (example_world ∅ (script [])) H)).
Defined.

(** X3: a [TIMEOUT] is never early.  If [wait_for_completion] returns a
    result whose status is [TIMEOUT], the clock has moved by at least the
    maximum wait since the call. *)
Theorem wait_for_completion_timeout_not_early (self : Client) (fuel : nat)
    (job_id : value) (check_interval max_wait_time : Z) (w w' : World) (r : dict) :
  wait_for_completion self fuel job_id check_interval max_wait_time w = (Ret r, w') ->
  is_str (py_get r "status") "TIMEOUT" = true ->
  max_wait_time <= clock w' - clock w.
Proof.
  intros Hrun Hs.
  destruct (wait_for_completion_result self fuel job_id check_interval max_wait_time
              _ _ _ Hrun) as [(_ & Hmax)|(d & _ & -> & _)]; [exact Hmax|].
  destruct (final_result_fields d job_id) as (_ & [He|[He|He]]);
    rewrite He in Hs; discriminate.
Qed.

Lemma run_eta {A : Type} (run : outcome A * World) (o : outcome A) :
  run.1 = o -> run = (o, run.2).
Proof. destruct run. cbn. by intros ->. Qed.

Lemma wait_for_completion_timeout_not_early_witness :
  (wait_for_completion example_client 5 (VStr "job-1") 10 25
     (example_world ∅ (script []))).1 = Ret (timeout_result (VStr "job-1"))
  /\ 25 <= clock (wait_for_completion example_client 5 (VStr "job-1") 10 25
                    (example_world ∅ (script []))).2
           - clock (example_world ∅ (script [])).
Proof.
  assert (H0 : (wait_for_completion example_client 5 (VStr "job-1") 10 25
                  (example_world ∅ (script []))).1
               = Ret (timeout_result (VStr "job-1"))) by (vm_compute; reflexivity).
  assert (H2 : is_str (py_get (timeout_result (VStr "job-1")) "status") "TIMEOUT" = true)
    by reflexivity.
  exact (conj H0 (wait_for_completion_timeout_not_early example_client 5 (VStr "job-1")
                    10 25 _ _ _ (run_eta _ _ H0) H2)).
Defined.

(** X4: what the poller can return.  Every result of [wait_for_completion]
    carries the given job id, and its status is [COMPLETED], [FAILED],
    [UNKNOWN] or [TIMEOUT]; a result other than [TIMEOUT] is built from the
    last reply received, which was a JSON object with a status other than
    [IN_QUEUE] and [IN_PROGRESS]. *)
Theorem wait_for_completion_result_shape (self : Client) (fuel : nat) (job_id : value)
    (check_interval max_wait_time : Z) (w w' : World) (r : dict) :
  wait_for_completion self fuel job_id check_interval max_wait_time w = (Ret r, w') ->
  py_get r "job_id" = job_id
  /\ (py_get r "status" = VStr "COMPLETED" \/ py_get r "status" = VStr "FAILED"
      \/ py_get r "status" = VStr "UNKNOWN" \/ py_get r "status" = VStr "TIMEOUT")
  /\ (py_get r "status" <> VStr "TIMEOUT" ->
      exists d, result (http w (pred (http_calls w'))) = HttpJson d
                /\ pending_status d = false /\ r = final_result d job_id).
Proof.
  intros Hrun.
  destruct (wait_for_completion_result self fuel job_id check_interval max_wait_time
              _ _ _ Hrun) as [(-> & _)|(d & Hp & -> & Hd & _)].
  - split; [reflexivity|]. split; [by auto|]. intros Hne. by destruct Hne.
  - destruct (final_result_fields d job_id) as (Hj & Hst).
    split; [exact Hj|]. split; [tauto|].
    intros _. exists d. by repeat split.
Qed.

Lemma wait_for_completion_result_shape_witness :
  (wait_for_completion example_client 3 (VStr "job-1") 10 100
     (example_world ∅ queue_then_failed)).1
  = Ret (failed_result example_failed (VStr "job-1"))
  /\ py_get (failed_result example_failed (VStr "job-1")) "job_id" = VStr "job-1".
Proof.
  assert (H0 : (wait_for_completion example_client 3 (VStr "job-1") 10 100
                  (example_world ∅ queue_then_failed)).1
               = Ret (failed_result example_failed (VStr "job-1")))
    by (vm_compute; reflexivity).
  exact (conj H0 (proj1 (wait_for_completion_result_shape example_client 3 (VStr "job-1")
                           10 100 _ _ _ (run_eta _ _ H0)))).
Defined.



(** ** Submission and the two edit methods *)

Section Pipeline.
Variable self : Client.

(** [submit_job] in full. *)
Lemma submit_job_eq (input_data : dict) (w : World) :
  submit_job self input_data w =
  match result (http w (http_calls w)) with
  | HttpError => (Ret None, emit (EvLog ERROR 143) (submitted self input_data w))
  | HttpJson d =>
      if truthy (py_get d "id")
      then (Ret (Some (py_get d "id")), emit (EvLog INFO 136) (submitted self input_data w))
      else (Ret None, emit (EvLog ERROR 139) (submitted self input_data w))
  | HttpOther _ => (Raise AttributeError, submitted self input_data w)
  end.
Proof.
  unfold submit_job, try_except, bind, log, session_post. cbn.
  destruct (result (http w (http_calls w))) as [|d|v]; [reflexivity| |reflexivity].
  cbn. destruct (truthy (py_get d "id")); reflexivity.
Qed.

Lemma truthy_py_get (d : dict) (k : string) :
  truthy (py_get d k) = true -> dict_get d k = Some (py_get d k).
Proof.
  unfold py_get. destruct (dict_get d k); [reflexivity|discriminate].
Qed.

(** X6: [submit_job] sends exactly one request, whatever the reply: a POST
    of [{"input": input_data}] to the run URL of the endpoint,
    [https://api.runpod.ai/v2/<endpoint id>/run]; it makes no status check
    and touches neither the file system nor the object store.  On a request
    error it returns [None].  On a JSON object it returns the [id] when that
    is present and truthy, and [None] when it is missing, [null], empty or
    zero.  On a body that is JSON but not an object it raises
    [AttributeError]: the handler is for request errors only. *)
Theorem submit_job_outcome (input_data : dict) (w : World) :
  exists (o : outcome (option value)) (w' : World),
    submit_job self input_data w = (o, w')
    /\ http_calls w' = S (http_calls w)
    /\ history (trace w')
       = history (trace w)
         ++ [EvPost ("https://api.runpod.ai/v2/" +:+ runpod_endpoint_id self +:+ "/run")
               (VDict [("input", VDict input_data)])]
    /\ gets (trace w') = gets (trace w)
    /\ fs w' = fs w /\ s3_calls w' = s3_calls w
    /\ match result (http w (http_calls w)) with
       | HttpError => o = Ret None
       | HttpJson d =>
           o = Ret (if truthy (py_get d "id") then dict_get d "id" else None)
       | HttpOther _ => o = Raise AttributeError
       end.
Proof.
  rewrite submit_job_eq.
  destruct (result (http w (http_calls w))) as [|d|v] eqn:Hr.
  - eexists _, _. split; [reflexivity|]. by repeat split.
  - destruct (truthy (py_get d "id")) eqn:Ht.
    + eexists _, _. split; [reflexivity|]. split; [reflexivity|].
      split; [reflexivity|]. split; [reflexivity|]. split; [reflexivity|].
      split; [reflexivity|]. by rewrite (truthy_py_get d "id" Ht).
    + eexists _, _. split; [reflexivity|]. by repeat split.
  - eexists _, _. split; [reflexivity|]. by repeat split.
Qed.

(** X7: a failed transfer is swallowed.  When the file exists and
    [upload_file] raises, [upload_to_s3] returns [None] instead of raising;
    the attempt was made (one call to the object store, for this file, bucket
    and key), and the file system and the job queue are untouched. *)
Theorem upload_to_s3_transfer_error (file_path s3_key : string) (w : World) :
  path_exists (fs w) file_path = true ->
  s3_ok (s3 w (s3_calls w)) = false ->
  exists w',
    upload_to_s3 self file_path s3_key w = (Ret None, w')
    /\ s3_calls w' = S (s3_calls w)
    /\ uploaded (trace w')
       = uploaded (trace w) ++ [(file_path, s3_bucket_name self, s3_key)]
    /\ fs w' = fs w /\ http_calls w' = http_calls w.
Proof.
  intros Hex Hok. rewrite upload_to_s3_eq, Hex. cbv zeta. rewrite Hok.
  eexists. split; [reflexivity|]. split; [reflexivity|].
  split; [|by split]. unfold uploaded. cbn. by rewrite omap_app.
Qed.

(** [submit_and_wait] in full. *)
Lemma submit_and_wait_eq (fuel : nat) (input_data : dict) (w : World) :
  submit_and_wait self fuel input_data w =
  match result (http w (http_calls w)) with
  | HttpError =>
      (Ret [("error", VStr "Job submission failed")],
       emit (EvLog ERROR 143) (submitted self input_data w))
  | HttpJson d =>
      if truthy (py_get d "id")
      then wait_for_completion self fuel (py_get d "id") default_check_interval
             default_max_wait_time (emit (EvLog INFO 136) (submitted self input_data w))
      else (Ret [("error", VStr "Job submission failed")],
            emit (EvLog ERROR 139) (submitted self input_data w))
  | HttpOther _ => (Raise AttributeError, submitted self input_data w)
  end.
Proof.
  unfold submit_and_wait, bind. rewrite submit_job_eq.
  destruct (result (http w (http_calls w))) as [|d|v]; [reflexivity| |reflexivity].
  destruct (truthy (py_get d "id")); reflexivity.
Qed.

(** [edit_single_image] up to the submission. *)
Lemma edit_single_image_eq (fuel : nat) (image_path prompt : string)
    (seed width height steps : Z) (cfg : value) (negative_prompt : string)
    (use_lightning : bool) (w : World) :
  let w0 := emit (EvCall "edit_single_image"
                    (edit_args image_path prompt seed width height steps cfg
                       negative_prompt use_lightning)) w in
  let key := "input/qwen/" +:+ pretty (clock w) +:+ "_" +:+ basename image_path in
  let w1 := next_s3 (emit (EvUpload image_path (s3_bucket_name self) key)
                       (emit (EvLog INFO 101) w0)) in
  edit_single_image self fuel image_path prompt seed width height steps cfg
    negative_prompt use_lightning w =
  if path_exists (fs w) image_path then
    if s3_ok (s3 w (s3_calls w)) then
      submit_and_wait self fuel
        (single_input_data ("/runpod-volume/" +:+ key) prompt seed width height
           (if use_lightning then 4 else steps) cfg negative_prompt)
        (if use_lightning then emit (EvLog INFO 293) (emit (EvLog INFO 106) w1)
         else emit (EvLog INFO 106) w1)
    else (Ret [("error", VStr "Image S3 upload failed")], emit (EvLog ERROR 110) w1)
  else (Ret [("error", VStr ("Image file does not exist: " +:+ image_path))], w0).
Proof.
  cbv zeta. unfold edit_single_image.
  unfold bind at 1. cbn beta iota. unfold bind at 1. unfold os_path_exists at 1.
  cbn [fs emit].
  destruct (path_exists (fs w) image_path) eqn:Hex; cbn [negb]; [|reflexivity].
  unfold bind at 1. unfold time_time at 1. cbn [clock emit].
  unfold bind at 1. rewrite upload_to_s3_eq. cbn [fs emit]. rewrite Hex.
  cbn [s3 s3_calls emit].
  destruct (s3_ok (s3 w (s3_calls w))) eqn:Hok; cbv zeta; [|reflexivity].
  rewrite storage_reference_nonempty.
  destruct use_lightning; reflexivity.
Qed.


End Pipeline.

Lemma upload_to_s3_transfer_error_witness :
  path_exists (fs (example_world_s3_down example_fs (script []))) "imgs/c.png" = true
  /\ s3_ok (s3 (example_world_s3_down example_fs (script [])) 0) = false
  /\ exists w',
       upload_to_s3 example_client "imgs/c.png" "input/qwen/1_c.png"
         (example_world_s3_down example_fs (script [])) = (Ret None, w')
       /\ s3_calls w' = 1%nat.
Proof.
  assert (H1 : path_exists (fs (example_world_s3_down example_fs (script [])))
                 "imgs/c.png" = true) by (vm_compute; reflexivity).
  assert (H2 : s3_ok (s3 (example_world_s3_down example_fs (script []))
                        (s3_calls (example_world_s3_down example_fs (script []))))
               = false) by reflexivity.
  destruct (upload_to_s3_transfer_error example_client "imgs/c.png"
              "input/qwen/1_c.png" (example_world_s3_down example_fs (script [])) H1 H2)
    as (w' & Hrun & Hcalls & _).
  exact (conj H1 (conj H2 (ex_intro _ w' (conj Hrun Hcalls)))).
Defined.


Section SingleImage.
Variable self : Client.
Variables (fuel : nat) (image_path prompt : string) (seed width height steps : Z).
Variables (cfg : value) (negative_prompt : string) (use_lightning : bool).

(** X8: a missing input file stops [edit_single_image] at once: it returns
    the error that names the path, and has made no upload and no request. *)
Theorem edit_single_image_missing_file (w : World) :
  path_exists (fs w) image_path = false ->
  exists w',
    edit_single_image self fuel image_path prompt seed width height steps cfg
      negative_prompt use_lightning w
    = (Ret [("error", VStr ("Image file does not exist: " +:+ image_path))], w')
    /\ s3_calls w' = s3_calls w /\ http_calls w' = http_calls w
    /\ uploaded (trace w') = uploaded (trace w)
    /\ posted (trace w') = posted (trace w) /\ fs w' = fs w.
Proof.
  intros Hex. rewrite edit_single_image_eq, Hex. eexists. split; [reflexivity|].
  repeat split; unfold uploaded, posted; cbn; by rewrite omap_app, app_nil_r.
Qed.

(** X9: a failed upload stops [edit_single_image] before the submission:
    it returns the upload error, after one attempt on the object store and
    without any request to the job queue. *)
Theorem edit_single_image_upload_failed (w : World) :
  path_exists (fs w) image_path = true ->
  s3_ok (s3 w (s3_calls w)) = false ->
  exists w',
    edit_single_image self fuel image_path prompt seed width height steps cfg
      negative_prompt use_lightning w
    = (Ret [("error", VStr "Image S3 upload failed")], w')
    /\ s3_calls w' = S (s3_calls w) /\ http_calls w' = http_calls w
    /\ posted (trace w') = posted (trace w).
Proof.
  intros Hex Hok. rewrite edit_single_image_eq, Hex, Hok. eexists.
  split; [reflexivity|]. split; [reflexivity|]. split; [reflexivity|].
  unfold posted. cbn. rewrite !omap_app. cbn. by rewrite !app_nil_r.
Qed.

(** X10: a refused submission stops [edit_single_image] before the
    polling: when the upload succeeds but the job queue gives no usable job
    id, the method ends after exactly one request, and no status check is
    made.  On a request error, or a reply whose [id] is missing or falsy, it
    returns the submission error; on a body that is not an object, the
    [AttributeError] of [submit_job] leaves the method. *)
Theorem edit_single_image_submission_failed (w : World) :
  path_exists (fs w) image_path = true ->
  s3_ok (s3 w (s3_calls w)) = true ->
  job_id_of (http w (http_calls w)) = None ->
  exists w',
    edit_single_image self fuel image_path prompt seed width height steps cfg
      negative_prompt use_lightning w
    = (match result (http w (http_calls w)) with
       | HttpOther _ => Raise AttributeError
       | _ => Ret [("error", VStr "Job submission failed")]
       end, w')
    /\ http_calls w' = S (http_calls w)
    /\ gets (trace w') = gets (trace w).
Proof.
  intros Hex Hok Hid. rewrite edit_single_image_eq, Hex, Hok. cbv zeta.
  rewrite submit_and_wait_eq. unfold job_id_of in Hid.
  destruct use_lightning; cbn [http http_calls emit next_s3];
    destruct (result (http w (http_calls w))) as [|d|v];
    try (destruct (truthy (py_get d "id")); [discriminate|]);
    eexists; (split; [reflexivity|]); split; reflexivity.
Qed.

(** X11: [edit_single_image] polls the job it submitted.  When the upload
    succeeds and the job queue answers the submission with a usable [id],
    every later request of the method is a status check for that id, and a
    returned result carries that id. *)
Theorem edit_single_image_polls_submitted_job (w : World) (job_id : value) :
  path_exists (fs w) image_path = true ->
  s3_ok (s3 w (s3_calls w)) = true ->
  job_id_of (http w (http_calls w)) = Some job_id ->
  let run :=
    edit_single_image self fuel image_path prompt seed width height steps cfg
      negative_prompt use_lightning w in
  gets (trace run.2)
  = gets (trace w)
    ++ replicate (http_calls run.2 - S (http_calls w)) (status_url self, job_id)
  /\ (S (http_calls w) <= http_calls run.2)%nat
  /\ (forall r w', run = (Ret r, w') -> py_get r "job_id" = job_id).
Proof.
  intros Hex Hok Hid run. subst run.
  rewrite edit_single_image_eq, Hex, Hok. cbv zeta.
  rewrite submit_and_wait_eq. unfold job_id_of in Hid.
  assert (Hgo : forall w1 : World,
            http_calls w1 = S (http_calls w) -> gets (trace w1) = gets (trace w) ->
            let run := wait_for_completion self fuel job_id default_check_interval
                         default_max_wait_time w1 in
            gets (trace run.2)
            = gets (trace w)
              ++ replicate (http_calls run.2 - S (http_calls w)) (status_url self, job_id)
            /\ (S (http_calls w) <= http_calls run.2)%nat
            /\ (forall r w', run = (Ret r, w') -> py_get r "job_id" = job_id)).
  { intros w1 Hc Hg run.
    destruct run as [o w2] eqn:Hrun. cbn [snd].
    destruct (wait_for_completion_requests self fuel job_id default_check_interval
                default_max_wait_time _ _ _ Hrun) as (Hle & Hgets & _).
    rewrite Hc, Hg in *. split; [exact Hgets|]. split; [exact Hle|].
    intros r w' Heq. inversion Heq; subst.
    destruct (wait_for_completion_result self fuel job_id default_check_interval
                default_max_wait_time _ _ _ Hrun) as [(-> & _)|(d & _ & -> & _)];
      [reflexivity|by apply final_result_fields]. }
  destruct use_lightning; cbn [http http_calls emit next_s3];
    destruct (result (http w (http_calls w))) as [|d|v]; try discriminate;
    (destruct (truthy (py_get d "id")); [|discriminate]);
    inversion Hid; subst; by apply Hgo.
Qed.

End SingleImage.


Lemma edit_single_image_missing_file_witness :
  path_exists (fs (example_world example_fs (script []))) "imgs/missing.png" = false
  /\ exists w',
       edit_single_image example_client 181 "imgs/missing.png" "make it night"
         default_seed default_width default_height default_steps default_cfg
         default_negative_prompt false (example_world example_fs (script []))
       = (Ret [("error", VStr ("Image file does not exist: " +:+ "imgs/missing.png"))], w')
       /\ s3_calls w' = s3_calls (example_world example_fs (script []))
       /\ http_calls w' = http_calls (example_world example_fs (script []))
       /\ uploaded (trace w') = uploaded (trace (example_world example_fs (script [])))
       /\ posted (trace w') = posted (trace (example_world example_fs (script [])))
       /\ fs w' = fs (example_world example_fs (script [])).
Proof.
  assert (H : path_exists (fs (example_world example_fs (script []))) "imgs/missing.png"
              = false) by (vm_compute; reflexivity).
  exact (conj H (edit_single_image_missing_file example_client 181 "imgs/missing.png"
                   "make it night" default_seed default_width default_height
                   default_steps default_cfg default_negative_prompt false
                   (example_world example_fs (script [])) H)).
Defined.

Lemma edit_single_image_upload_failed_witness :
  path_exists (fs (example_world_s3_down example_fs (script []))) "imgs/c.png" = true
  /\ s3_ok (s3 (example_world_s3_down example_fs (script []))
              (s3_calls (example_world_s3_down example_fs (script [])))) = false
  /\ exists w',
       edit_single_image example_client 181 "imgs/c.png" "make it night"
         default_seed default_width default_height default_steps default_cfg
         default_negative_prompt false (example_world_s3_down example_fs (script []))
       = (Ret [("error", VStr "Image S3 upload failed")], w')
       /\ s3_calls w' = S (s3_calls (example_world_s3_down example_fs (script [])))
       /\ http_calls w' = http_calls (example_world_s3_down example_fs (script []))
       /\ posted (trace w')
          = posted (trace (example_world_s3_down example_fs (script []))).
Proof.
  assert (H1 : path_exists (fs (example_world_s3_down example_fs (script [])))
                 "imgs/c.png" = true) by (vm_compute; reflexivity).
  assert (H2 : s3_ok (s3 (example_world_s3_down example_fs (script []))
                        (s3_calls (example_world_s3_down example_fs (script []))))
               = false) by reflexivity.
  exact (conj H1 (conj H2
           (edit_single_image_upload_failed example_client 181 "imgs/c.png"
              "make it night" default_seed default_width default_height default_steps
              default_cfg default_negative_prompt false
              (example_world_s3_down example_fs (script [])) H1 H2))).
Defined.

Lemma edit_single_image_submission_failed_witness :
  path_exists (fs (example_world example_fs no_job_id)) "imgs/c.png" = true
  /\ s3_ok (s3 (example_world example_fs no_job_id)
              (s3_calls (example_world example_fs no_job_id))) = true
  /\ job_id_of (http (example_world example_fs no_job_id)
                  (http_calls (example_world example_fs no_job_id))) = None
  /\ exists w',
       edit_single_image example_client 181 "imgs/c.png" "make it night"
         default_seed default_width default_height default_steps default_cfg
         default_negative_prompt false (example_world example_fs no_job_id)
       = (Ret [("error", VStr "Job submission failed")], w')
       /\ http_calls w' = S (http_calls (example_world example_fs no_job_id))
       /\ gets (trace w') = gets (trace (example_world example_fs no_job_id)).
Proof.
  assert (H1 : path_exists (fs (example_world example_fs no_job_id)) "imgs/c.png" = true)
    by (vm_compute; reflexivity).
  assert (H2 : s3_ok (s3 (example_world example_fs no_job_id)
                        (s3_calls (example_world example_fs no_job_id))) = true)
    by reflexivity.
  assert (H3 : job_id_of (http (example_world example_fs no_job_id)
                            (http_calls (example_world example_fs no_job_id))) = None)
    by reflexivity.
  exact (conj H1 (conj H2 (conj H3
           (edit_single_image_submission_failed example_client 181 "imgs/c.png"
              "make it night" default_seed default_width default_height default_steps
              default_cfg default_negative_prompt false
              (example_world example_fs no_job_id) H1 H2 H3)))).
Defined.

Lemma edit_single_image_polls_submitted_job_witness :
  path_exists (fs (example_world example_fs always_completed)) "imgs/c.png" = true
  /\ s3_ok (s3 (example_world example_fs always_completed)
              (s3_calls (example_world example_fs always_completed))) = true
  /\ job_id_of (http (example_world example_fs always_completed)
                  (http_calls (example_world example_fs always_completed)))
     = Some (VStr "job-1")
  /\ gets (trace (edit_single_image example_client 181 "imgs/c.png" "make it night"
                    default_seed default_width default_height default_steps default_cfg
                    default_negative_prompt false
                    (example_world example_fs always_completed)).2)
     = [(status_url example_client, VStr "job-1")].
Proof.
  assert (H1 : path_exists (fs (example_world example_fs always_completed)) "imgs/c.png"
               = true) by (vm_compute; reflexivity).
  assert (H2 : s3_ok (s3 (example_world example_fs always_completed)
                        (s3_calls (example_world example_fs always_completed))) = true)
    by reflexivity.
  assert (H3 : job_id_of (http (example_world example_fs always_completed)
                            (http_calls (example_world example_fs always_completed)))
               = Some (VStr "job-1")) by reflexivity.
  assert (Hc : http_calls
                 (edit_single_image example_client 181 "imgs/c.png" "make it night"
                    default_seed default_width default_height default_steps default_cfg
                    default_negative_prompt false
                    (example_world example_fs always_completed)).2 = 2%nat)
    by (vm_compute; reflexivity).
  pose proof (edit_single_image_polls_submitted_job example_client 181 "imgs/c.png"
                "make it night" default_seed default_width default_height default_steps
                default_cfg default_negative_prompt false
                (example_world example_fs always_completed) (VStr "job-1") H1 H2 H3)
    as (Hg & _).
  rewrite Hc in Hg.
  exact (conj H1 (conj H2 (conj H3 Hg))).
Defined.

Section ImagePayload.
Variable self : Client.
Variables (fuel : nat) (image_path image_path_2 prompt : string).
Variables (seed width height steps : Z) (cfg : value) (negative_prompt : string).
Variable use_lightning : bool.

(** [edit_dual_image] up to the submission. *)
Lemma edit_dual_image_eq (w : World) :
  let key := "input/qwen/" +:+ pretty (clock w) +:+ "_donor_" +:+ basename image_path in
  let key_2 :=
    "input/qwen/" +:+ pretty (clock w) +:+ "_canvas_" +:+ basename image_path_2 in
  let w1 := next_s3 (emit (EvUpload image_path (s3_bucket_name self) key)
                       (emit (EvLog INFO 101) w)) in
  let w2 := next_s3 (emit (EvUpload image_path_2 (s3_bucket_name self) key_2)
                       (emit (EvLog INFO 101) (emit (EvLog INFO 106) w1))) in
  edit_dual_image self fuel image_path image_path_2 prompt seed width height steps cfg
    negative_prompt use_lightning w =
  if path_exists (fs w) image_path then
    if path_exists (fs w) image_path_2 then
      if s3_ok (s3 w (s3_calls w)) then
        if s3_ok (s3 w (S (s3_calls w))) then
          submit_and_wait self fuel
            (dual_input_data ("/runpod-volume/" +:+ key) ("/runpod-volume/" +:+ key_2)
               prompt seed width height (if use_lightning then 4 else steps) cfg
               negative_prompt)
            (if use_lightning then emit (EvLog INFO 382) (emit (EvLog INFO 106) w2)
             else emit (EvLog INFO 106) w2)
        else (Ret [("error", VStr "Second image S3 upload failed")],
              emit (EvLog ERROR 110) w2)
      else (Ret [("error", VStr "First image S3 upload failed")],
            emit (EvLog ERROR 110) w1)
    else (Ret [("error", VStr ("Second image file does not exist: " +:+ image_path_2))], w)
  else (Ret [("error", VStr ("First image file does not exist: " +:+ image_path))], w).
Proof.
  cbv zeta. unfold edit_dual_image.
  unfold bind at 1. unfold os_path_exists at 1.
  destruct (path_exists (fs w) image_path) eqn:Hex; cbn [negb]; [|reflexivity].
  unfold bind at 1. unfold os_path_exists at 1.
  destruct (path_exists (fs w) image_path_2) eqn:Hex2; cbn [negb]; [|reflexivity].
  unfold bind at 1. unfold time_time at 1.
  unfold bind at 1. rewrite upload_to_s3_eq. rewrite Hex.
  destruct (s3_ok (s3 w (s3_calls w))) eqn:Hok; cbn beta iota zeta; [|reflexivity].
  rewrite storage_reference_nonempty.
  unfold bind at 1. rewrite upload_to_s3_eq. cbn [fs emit next_s3 s3 s3_calls].
  rewrite Hex2.
  destruct (s3_ok (s3 w (S (s3_calls w)))) eqn:Hok2; cbn beta iota zeta; [|reflexivity].
  rewrite storage_reference_nonempty.
  destruct use_lightning; reflexivity.
Qed.

(** X12: what [edit_single_image] submits.  The payload posted to the job
    queue is [{"input": d}] where [d] holds the storage reference of the
    upload, and the prompt, seed, width, height, guidance scale and negative
    prompt exactly as the caller gave them, with the step count of the mode;
    it is posted once, when the file exists and the upload succeeds, and not
    at all otherwise. *)
Theorem edit_single_image_payload (w : World) :
  posted (trace (edit_single_image self fuel image_path prompt seed width height steps
                   cfg negative_prompt use_lightning w).2)
  = posted (trace w)
    ++ (if path_exists (fs w) image_path && s3_ok (s3 w (s3_calls w))
        then [VDict [("input", VDict
                (single_input_data
                   ("/runpod-volume/" +:+ "input/qwen/" +:+ pretty (clock w) +:+ "_"
                      +:+ basename image_path)
                   prompt seed width height (if use_lightning then 4 else steps) cfg
                   negative_prompt))]]
        else []).
Proof.
  unfold posted.
  rewrite (edit_single_image_history self fuel image_path prompt seed width height steps
             cfg negative_prompt use_lightning w).
  rewrite omap_app. f_equal.
  destruct (path_exists (fs w) image_path); [|reflexivity].
  destruct (s3_ok (s3 w (s3_calls w))); reflexivity.
Qed.

(** X13: what [edit_dual_image] submits.  The first file is the donor and
    the second the canvas: the payload carries the storage reference of the
    first upload as [image_path] and that of the second as [image_path_2],
    both keys made from the one timestamp taken at entry, and the other
    parameters as the caller gave them, with the step count of the mode.  It
    is posted once, when both files exist and both uploads succeed, and not
    at all otherwise. *)
Theorem edit_dual_image_payload (w : World) :
  posted (trace (edit_dual_image self fuel image_path image_path_2 prompt seed width
                   height steps cfg negative_prompt use_lightning w).2)
  = posted (trace w)
    ++ (if path_exists (fs w) image_path && path_exists (fs w) image_path_2
           && s3_ok (s3 w (s3_calls w)) && s3_ok (s3 w (S (s3_calls w)))
        then [VDict [("input", VDict
                (dual_input_data
                   ("/runpod-volume/" +:+ "input/qwen/" +:+ pretty (clock w) +:+ "_donor_"
                      +:+ basename image_path)
                   ("/runpod-volume/" +:+ "input/qwen/" +:+ pretty (clock w)
                      +:+ "_canvas_" +:+ basename image_path_2)
                   prompt seed width height (if use_lightning then 4 else steps) cfg
                   negative_prompt))]]
        else []).
Proof.
  unfold posted.
  rewrite (edit_dual_image_history self fuel image_path image_path_2 prompt seed width
             height steps cfg negative_prompt use_lightning w).
  rewrite omap_app. f_equal.
  destruct (path_exists (fs w) image_path); [|reflexivity].
  destruct (path_exists (fs w) image_path_2); [|reflexivity].
  destruct (s3_ok (s3 w (s3_calls w))); [|reflexivity].
  destruct (s3_ok (s3 w (S (s3_calls w)))); reflexivity.
Qed.

(** X14: [edit_dual_image] checks both files before it uploads anything.
    When either file is missing it returns the error that names the first
    missing one and leaves the world exactly as it was: in particular an
    existing first file is not uploaded when the second is missing. *)
Theorem edit_dual_image_missing_file (w : World) :
  path_exists (fs w) image_path && path_exists (fs w) image_path_2 = false ->
  edit_dual_image self fuel image_path image_path_2 prompt seed width height steps cfg
    negative_prompt use_lightning w
  = (Ret [("error",
           VStr (if path_exists (fs w) image_path
                 then "Second image file does not exist: " +:+ image_path_2
                 else "First image file does not exist: " +:+ image_path))], w).
Proof.
  intros H. rewrite edit_dual_image_eq.
  destruct (path_exists (fs w) image_path); [|reflexivity].
  destruct (path_exists (fs w) image_path_2); [discriminate|reflexivity].
Qed.

(** X15: a failed second upload comes after the first one.  When both
    files exist, the first upload succeeds and the second fails,
    [edit_dual_image] returns the error of the second upload; the object
    store has then received the donor image (it is not removed) and the
    attempt for the canvas image, and the job queue nothing. *)
Theorem edit_dual_image_second_upload_failed (w : World) :
  path_exists (fs w) image_path = true ->
  path_exists (fs w) image_path_2 = true ->
  s3_ok (s3 w (s3_calls w)) = true ->
  s3_ok (s3 w (S (s3_calls w))) = false ->
  exists w',
    edit_dual_image self fuel image_path image_path_2 prompt seed width height steps cfg
      negative_prompt use_lightning w
    = (Ret [("error", VStr "Second image S3 upload failed")], w')
    /\ uploaded (trace w')
       = uploaded (trace w)
         ++ [(image_path, s3_bucket_name self,
              "input/qwen/" +:+ pretty (clock w) +:+ "_donor_" +:+ basename image_path);
             (image_path_2, s3_bucket_name self,
              "input/qwen/" +:+ pretty (clock w) +:+ "_canvas_"
                +:+ basename image_path_2)]
    /\ s3_calls w' = S (S (s3_calls w))
    /\ http_calls w' = http_calls w /\ posted (trace w') = posted (trace w).
Proof.
  intros Hex Hex2 Hok Hok2. rewrite edit_dual_image_eq, Hex, Hex2, Hok, Hok2.
  eexists. split; [reflexivity|].
  split; [unfold uploaded; cbn; by rewrite !omap_app, <- !app_assoc|].
  split; [reflexivity|]. split; [reflexivity|].
  unfold posted. cbn. rewrite !omap_app. cbn. by rewrite !app_nil_r.
Qed.

End ImagePayload.

Lemma edit_dual_image_missing_file_witness :
  path_exists (fs (example_world example_fs (script []))) "imgs/c.png"
    && path_exists (fs (example_world example_fs (script []))) "imgs/missing.png" = false
  /\ edit_dual_image example_client 181 "imgs/c.png" "imgs/missing.png"
       "move the person into the second picture" default_seed default_width
       default_height default_steps default_cfg default_negative_prompt false
       (example_world example_fs (script []))
     = (Ret [("error", VStr "Second image file does not exist: imgs/missing.png")],
        example_world example_fs (script [])).
Proof.
  assert (H : path_exists (fs (example_world example_fs (script []))) "imgs/c.png"
                && path_exists (fs (example_world example_fs (script [])))
                     "imgs/missing.png" = false) by (vm_compute; reflexivity).
  assert (H1 : path_exists (fs (example_world example_fs (script []))) "imgs/c.png" = true)
    by (vm_compute; reflexivity).
  pose proof (edit_dual_image_missing_file example_client 181 "imgs/c.png"
                "imgs/missing.png" "move the person into the second picture"
                default_seed default_width default_height default_steps default_cfg
                default_negative_prompt false (example_world example_fs (script [])) H)
    as Hrun.
  rewrite H1 in Hrun.
  exact (conj H Hrun).
Defined.

Lemma edit_dual_image_second_upload_failed_witness :
  path_exists (fs (example_world_s3_once example_fs (script []))) "imgs/c.png" = true
  /\ path_exists (fs (example_world_s3_once example_fs (script []))) "imgs/a.JPG" = true
  /\ s3_ok (s3 (example_world_s3_once example_fs (script []))
              (s3_calls (example_world_s3_once example_fs (script [])))) = true
  /\ s3_ok (s3 (example_world_s3_once example_fs (script []))
              (S (s3_calls (example_world_s3_once example_fs (script []))))) = false
  /\ exists w',
       edit_dual_image example_client 181 "imgs/c.png" "imgs/a.JPG"
         "move the person into the second picture" default_seed default_width
         default_height default_steps default_cfg default_negative_prompt false
         (example_world_s3_once example_fs (script []))
       = (Ret [("error", VStr "Second image S3 upload failed")], w')
       /\ uploaded (trace w')
          = [("imgs/c.png", "bucket", "input/qwen/1700000000_donor_c.png");
             ("imgs/a.JPG", "bucket", "input/qwen/1700000000_canvas_a.JPG")]
       /\ http_calls w' = 0%nat.
Proof.
  assert (H1 : path_exists (fs (example_world_s3_once example_fs (script [])))
                 "imgs/c.png" = true) by (vm_compute; reflexivity).
  assert (H2 : path_exists (fs (example_world_s3_once example_fs (script [])))
                 "imgs/a.JPG" = true) by (vm_compute; reflexivity).
  assert (H3 : s3_ok (s3 (example_world_s3_once example_fs (script []))
                        (s3_calls (example_world_s3_once example_fs (script []))))
               = true) by reflexivity.
  assert (H4 : s3_ok (s3 (example_world_s3_once example_fs (script []))
                        (S (s3_calls (example_world_s3_once example_fs (script [])))))
               = false) by reflexivity.
  destruct (edit_dual_image_second_upload_failed example_client 181 "imgs/c.png"
              "imgs/a.JPG" "move the person into the second picture" default_seed
              default_width default_height default_steps default_cfg
              default_negative_prompt false
              (example_world_s3_once example_fs (script [])) H1 H2 H3 H4)
    as (w' & Hrun & Hup & _ & Hh & _).
  exact (conj H1 (conj H2 (conj H3 (conj H4
           (ex_intro _ w' (conj Hrun (conj Hup Hh))))))).
Defined.

(** ** Selection of the files of a batch *)

Lemma lower_char_idemp (c : ascii) : lower_char (lower_char c) = lower_char c.
Proof. destruct c as [[] [] [] [] [] [] [] []]; reflexivity. Qed.

Lemma string_rev_app_lower (s acc : string) :
  string_rev_app (lower s) (lower acc) = lower (string_rev_app s acc).
Proof.
  revert acc. induction s as [|c s IH]; intros acc; [reflexivity|].
  cbn [lower string_rev_app]. by rewrite <- IH.
Qed.

Lemma string_rev_lower (s : string) : string_rev (lower s) = lower (string_rev s).
Proof. apply (string_rev_app_lower s ""). Qed.

Lemma string_rev_app_twice (s a b : string) :
  string_rev_app (string_rev_app s a) b = string_rev_app a (s +:+ b).
Proof.
  revert a. induction s as [|c s IH]; intros a; [reflexivity|].
  cbn [string_rev_app]. by rewrite IH.
Qed.

Lemma string_rev_involutive (s : string) : string_rev (string_rev s) = s.
Proof.
  unfold string_rev. rewrite string_rev_app_twice. cbn [string_rev_app].
  induction s as [|c s IH]; [reflexivity|].
  change (String c (s +:+ "") = String c s). by f_equal.
Qed.

Lemma startswith_lower (p t : string) :
  startswith p (lower t) = true -> lower p = p.
Proof.
  revert t. induction p as [|a p IH]; intros t H; [reflexivity|].
  destruct t as [|b t]; [discriminate|]. cbn [lower startswith] in H |- *.
  apply andb_true_iff in H as [Hab Hp]. apply Ascii.eqb_eq in Hab. subst a.
  by rewrite lower_char_idemp, (IH t Hp).
Qed.

(** A suffix of a lower-case name is in lower case. *)
Lemma endswith_lower (f e : string) :
  endswith (lower f) e = true -> lower e = e.
Proof.
  unfold endswith. rewrite string_rev_lower. intros H.
  apply startswith_lower in H. rewrite <- string_rev_lower in H.
  rewrite <- (string_rev_involutive (lower e)), H. apply string_rev_involutive.
Qed.

(** X16: the extension filter of the batch driver compares the lower-case
    form of each file name with the extensions as given.  An extension that
    holds an upper-case letter therefore never selects a file: the selection
    is the one made by the lower-case extensions of the list alone.  So
    [('.PNG',)] selects nothing, not even [a.PNG]. *)
Theorem select_images_ignores_uppercase_extensions
    (valid_image_extensions names : list string) :
  select_images valid_image_extensions names
  = select_images (List.filter is_lower valid_image_extensions) names.
Proof.
  unfold select_images. apply List.filter_ext. intros f.
  unfold endswith_any.
  induction valid_image_extensions as [|e exts IH]; [reflexivity|].
  cbn [existsb List.filter]. unfold is_lower at 1.
  destruct (String.eqb (lower e) e) eqn:He.
  - cbn [existsb]. by rewrite IH.
  - rewrite <- IH. destruct (endswith (lower f) e) eqn:Hend; [|reflexivity].
    apply endswith_lower in Hend. apply String.eqb_neq in He. done.
Qed.

(** ** The result writer, whatever the result *)

(** [save_image_result] in full: which log record, which file system, and
    which boolean, case by case. *)
Lemma save_image_result_eq (result : dict) (output_path : string) (w : World) :
  save_image_result result output_path w =
  if is_str (py_get result "status") "COMPLETED" then
    match py_get_default result "output" (VDict []) with
    | VDict output =>
        if truthy (py_get output "image") then
          match makedirs (fs w) (dirname_or_dot output_path) with
          | inl _ => (Ret false, emit (EvLog ERROR 246) w)
          | inr fs1 =>
              match py_get output "image" with
              | VStr s =>
                  match Base64.b64decode (strip_data_uri_prefix s) with
                  | inl _ => (Ret false, emit (EvLog ERROR 246) (set_fs fs1 w))
                  | inr bs =>
                      match write_file fs1 output_path bs with
                      | inl _ => (Ret false, emit (EvLog ERROR 246) (set_fs fs1 w))
                      | inr fs2 => (Ret true, emit (EvLog INFO 242) (set_fs fs2 w))
                      end
                  end
              | _ => (Ret false, emit (EvLog ERROR 246) (set_fs fs1 w))
              end
          end
        else (Ret false, emit (EvLog ERROR 225) w)
    | _ => (Ret false, emit (EvLog ERROR 246) w)
    end
  else (Ret false, emit (EvLog ERROR 218) w).
Proof.
  unfold save_image_result, try_except, bind, log, os_makedirs, write_binary,
    lift_result, ret, raise, any_exception.
  destruct (is_str (py_get result "status") "COMPLETED"); cbn [negb]; [|reflexivity].
  destruct (py_get_default result "output" (VDict [])) as [| | | | | |output];
    try reflexivity.
  destruct (truthy (py_get output "image")); cbn [negb]; [|reflexivity].
  destruct (makedirs (fs w) (dirname_or_dot output_path)) as [e|fs1]; [reflexivity|].
  destruct (py_get output "image") as [| | | |s| |]; try reflexivity.
  destruct (Base64.b64decode (strip_data_uri_prefix s)) as [e|bs]; [reflexivity|].
  cbn [fs set_fs].
  destruct (write_file fs1 output_path bs) as [e|fs2]; reflexivity.
Qed.

Lemma py_get_default_dict (d : dict) (k : string) (x : dict) :
  py_get_default d k (VDict []) = VDict x ->
  dict_get d k = Some (VDict x) \/ (dict_get d k = None /\ x = []).
Proof.
  unfold py_get_default. destruct (dict_get d k) as [v|]; cbn.
  - intros ->. by left.
  - intros H. inversion H. by right.
Qed.

Lemma py_get_str (d : dict) (k s : string) :
  py_get d k = VStr s -> dict_get d k = Some (VStr s).
Proof.
  unfold py_get. destruct (dict_get d k) as [v|]; cbn; [by intros ->|discriminate].
Qed.

(** X17: [save_image_result] is safe to call on any result and any path.
    It never raises: it returns a boolean.  It makes no request and no
    upload, and it takes no time.  When the result has no image data (no
    [output], or an [image] that is missing, [null] or empty) it returns
    [False] before any operation on the file system.  When it returns
    [True], the result was [COMPLETED] with a text payload, and the output
    path is a file that holds the decoding of that payload (after the
    data-URI prefix), under a directory. *)
Theorem save_image_result_safe (result : dict) (output_path : string) (w : World) :
  exists (b : bool) (w' : World),
    save_image_result result output_path w = (Ret b, w')
    /\ clock w' = clock w /\ http_calls w' = http_calls w /\ s3_calls w' = s3_calls w
    /\ history (trace w') = history (trace w) /\ gets (trace w') = gets (trace w)
    /\ (forall output,
          py_get_default result "output" (VDict []) = VDict output ->
          truthy (py_get output "image") = false ->
          b = false /\ fs w' = fs w)
    /\ (b = true ->
        is_str (py_get result "status") "COMPLETED" = true
        /\ exists output s bs,
             dict_get result "output" = Some (VDict output)
             /\ dict_get output "image" = Some (VStr s)
             /\ Base64.b64decode (strip_data_uri_prefix s) = inr bs
             /\ fs_lookup (fs w') output_path = Some (File bs)
             /\ path_isdir (fs w') (dirname_or_dot output_path) = true).
Proof.
  rewrite save_image_result_eq.
  destruct (is_str (py_get result "status") "COMPLETED") eqn:Hs.
  2:{ eexists _, _. split; [reflexivity|]. repeat split; done. }
  destruct (py_get_default result "output" (VDict [])) as [| | | | | |output] eqn:Ho;
    try (eexists _, _; split; [reflexivity|]; repeat split; done).
  destruct (truthy (py_get output "image")) eqn:Ht.
  2:{ eexists _, _. split; [reflexivity|]. repeat split; done. }
  assert (Hdata : forall output0, VDict output = VDict output0 ->
                    truthy (py_get output0 "image") = false -> False).
  { intros output0 Heq Hf. inversion Heq; subst. congruence. }
  destruct (makedirs (fs w) (dirname_or_dot output_path)) as [e|fs1] eqn:Hmk.
  { eexists _, _. split; [reflexivity|]. do 5 (split; [done|]).
    split; [intros output0 Heq Hf; destruct (Hdata _ Heq Hf)|done]. }
  destruct (py_get output "image") as [| | | |s| |] eqn:Hi;
    try (eexists _, _; split; [reflexivity|]; do 5 (split; [done|]);
         split; [intros output0 Heq Hf; destruct (Hdata _ Heq Hf)|done]).
  destruct (Base64.b64decode (strip_data_uri_prefix s)) as [e|bs] eqn:Hdec.
  { eexists _, _. split; [reflexivity|]. do 5 (split; [done|]).
    split; [intros output0 Heq Hf; destruct (Hdata _ Heq Hf)|done]. }
  destruct (write_file fs1 output_path bs) as [e|fs2] eqn:Hwr.
  { eexists _, _. split; [reflexivity|]. do 5 (split; [done|]).
    split; [intros output0 Heq Hf; destruct (Hdata _ Heq Hf)|done]. }
  destruct (write_file_spec fs1 fs2 output_path bs Hwr) as (Hfile & Hdir & Hother).
  eexists _, _. split; [reflexivity|]. do 5 (split; [done|]).
  split; [intros output0 Heq Hf; destruct (Hdata _ Heq Hf)|].
  intros _. split; [reflexivity|].
  exists output, s, bs. apply py_get_str in Hi.
  destruct (py_get_default_dict _ _ _ Ho) as [Hout|[_ ->]]; [|discriminate].
  by repeat split.
Qed.

(** X18: a payload that cannot be decoded leaves directories behind.  The
    parent directories of the output path are created before the payload is
    decoded; when the decoder rejects the payload, [save_image_result]
    returns [False] (after the log record of line 246), writes no file, and
    the directories it has created stay. *)
Theorem save_image_result_undecodable (result output : dict)
    (payload output_path : string) (w : World) (e : exn) (fs1 : gmap string node) :
  is_str (py_get result "status") "COMPLETED" = true ->
  dict_get result "output" = Some (VDict output) ->
  dict_get output "image" = Some (VStr payload) ->
  payload <> "" ->
  Base64.b64decode (strip_data_uri_prefix payload) = inl e ->
  makedirs (fs w) (dirname_or_dot output_path) = inr fs1 ->
  save_image_result result output_path w
  = (Ret false, emit (EvLog ERROR 246) (set_fs fs1 w))
  /\ (makedirs_tail (dirname_or_dot output_path) <> "." ->
      path_isdir fs1 (dirname_or_dot output_path) = true)
  /\ (forall p n, fs_lookup (fs w) p = Some n -> fs_lookup fs1 p = Some n).
Proof.
  intros Hs Ho Hi Hne Hdec Hmk. split; [|by apply makedirs_spec].
  unfold save_image_result, try_except, bind. rewrite Hs. cbn [negb].
  unfold py_get_default, py_get. rewrite Ho. cbn. rewrite Hi. cbn.
  apply String.eqb_neq in Hne. rewrite Hne. cbn.
  unfold os_makedirs. rewrite Hmk. rewrite Hdec. reflexivity.
Qed.

Lemma save_image_result_undecodable_witness :
  is_str (py_get example_bad_completed "status") "COMPLETED" = true
  /\ Base64.b64decode (strip_data_uri_prefix example_bad_payload) = inl BinasciiError
  /\ path_exists (fs (example_world ∅ (script []))) "out/x" = false
  /\ save_image_result example_bad_completed "out/x/edited.png"
       (example_world ∅ (script []))
     = (Ret false,
        emit (EvLog ERROR 246)
          (set_fs (<["out/x" := Dir]> (<["out" := Dir]> ∅)) (example_world ∅ (script []))))
  /\ path_isdir (<["out/x" := Dir]> (<["out" := Dir]> ∅)) "out/x" = true
  /\ path_exists (<["out/x" := Dir]> (<["out" := Dir]> ∅)) "out/x/edited.png" = false.
Proof.
  assert (H1 : is_str (py_get example_bad_completed "status") "COMPLETED" = true)
    by reflexivity.
  assert (H2 : dict_get example_bad_completed "output"
               = Some (VDict [("image", VStr example_bad_payload)])) by reflexivity.
  assert (H3 : dict_get [("image", VStr example_bad_payload)] "image"
               = Some (VStr example_bad_payload)) by reflexivity.
  assert (H4 : example_bad_payload <> "") by discriminate.
  assert (H5 : Base64.b64decode (strip_data_uri_prefix example_bad_payload)
               = inl BinasciiError) by (vm_compute; reflexivity).
  assert (H6 : makedirs (fs (example_world ∅ (script [])))
                 (dirname_or_dot "out/x/edited.png")
               = inr (<["out/x" := Dir]> (<["out" := Dir]> ∅)))
    by (vm_compute; reflexivity).
  assert (H7 : path_exists (fs (example_world ∅ (script []))) "out/x" = false)
    by (vm_compute; reflexivity).
  assert (H8 : path_exists (<["out/x" := Dir]> (<["out" := Dir]> ∅)) "out/x/edited.png"
               = false) by (vm_compute; reflexivity).
  assert (H9 : makedirs_tail (dirname_or_dot "out/x/edited.png") <> ".")
    by (vm_compute; discriminate).
  destruct (save_image_result_undecodable example_bad_completed _ _ "out/x/edited.png"
              (example_world ∅ (script [])) BinasciiError _ H1 H2 H3 H4 H5 H6)
    as (Hrun & Hdir & _).
  exact (conj H1 (conj H5 (conj H7 (conj Hrun (conj (Hdir H9) H8))))).
Defined.

(** X19: from the status check to the file.  If the first [n] status
    checks are request errors or non-terminal statuses and the next one
    answers [COMPLETED] with an image that is the base64 text of [bs] (bare
    or after a data-URI prefix), all before the maximum wait, then the
    result that [wait_for_completion] returns is one that
    [save_image_result] accepts: on a file system that allows the write, the
    two calls in sequence return [True] and leave a file that holds exactly
    [bs] at the output path, after [n + 1] requests in all. *)
Theorem completed_job_is_saved (self : Client) (job_id : value)
    (check_interval max_wait_time : Z) (w : World) (n fuel : nat) (d output : dict)
    (prefix : option string) (bs : list byte) (output_path : string)
    (fs1 fs2 : gmap string node) :
  ((0 < n)%nat -> 0 <= check_interval) ->
  (forall i, (i < n)%nat -> retry_reply (http w (http_calls w + i)) = true) ->
  result (http w (http_calls w + n)) = HttpJson d ->
  is_str (py_get d "status") "COMPLETED" = true ->
  dict_get d "output" = Some (VDict output) ->
  dict_get output "image"
  = Some (VStr (with_data_uri_prefix prefix (Base64.b64encode bs))) ->
  with_data_uri_prefix prefix (Base64.b64encode bs) <> "" ->
  (forall p, prefix = Some p -> contains_char comma p = false) ->
  (forall i, (i <= n)%nat -> elapsed_after w check_interval i < max_wait_time) ->
  (n < fuel)%nat ->
  makedirs (fs w) (dirname_or_dot output_path) = inr fs1 ->
  write_file fs1 output_path bs = inr fs2 ->
  exists (r : dict) (w1 w2 : World),
    wait_for_completion self fuel job_id check_interval max_wait_time w = (Ret r, w1)
    /\ save_image_result r output_path w1 = (Ret true, w2)
    /\ fs w1 = fs w /\ fs w2 = fs2
    /\ fs_lookup (fs w2) output_path = Some (File bs)
    /\ http_calls w2 = S (http_calls w + n).
Proof.
  intros Hci Hretry Hd Hs Ho Hi Hne Hp Hlt Hfuel Hmk Hwr.
  assert (Hpend : pending_status d = false).
  { unfold pending_status. by rewrite Hs. }
  pose proof (wait_for_completion_final self job_id check_interval max_wait_time w n d
                fuel Hci Hretry Hd Hpend Hlt Hfuel) as Hrun.
  destruct (wait_for_completion_frame self fuel job_id check_interval max_wait_time w)
    as (Hfs & _).
  rewrite Hrun in Hfs. cbn [snd] in Hfs.
  destruct (after_turns_retries self job_id check_interval n w Hci Hretry)
    as (_ & Hcalls & _).
  set (w1 := emit (final_log d)
               (polled self job_id
                  (after_turns (turn self job_id check_interval) n w))) in *.
  assert (Hr : final_result d job_id = completed_result d job_id).
  { unfold final_result. by rewrite Hs. }
  rewrite Hr in Hrun.
  assert (Hdec : Base64.b64decode
                   (strip_data_uri_prefix
                      (with_data_uri_prefix prefix (Base64.b64encode bs))) = inr bs).
  { rewrite strip_data_uri_prefix_encoded by exact Hp.
    apply Base64Facts.b64decode_b64encode. }
  assert (Hout : dict_get (completed_result d job_id) "output" = Some (VDict output)).
  { unfold completed_result, py_get. rewrite Ho. reflexivity. }
  pose proof (save_image_result_completed (completed_result d job_id) output _
                output_path w1 bs eq_refl Hout Hi Hne Hdec) as Hsave.
  rewrite Hfs, Hmk, Hwr in Hsave.
  eexists _, w1, _. split; [exact Hrun|]. split; [exact Hsave|].
  split; [exact Hfs|]. split; [reflexivity|].
  split; [exact (proj1 (write_file_spec fs1 fs2 output_path bs Hwr))|].
  cbn. by rewrite Hcalls.
Qed.

Lemma completed_job_is_saved_witness :
  (forall i, (i < 2)%nat ->
     retry_reply (http (example_world ∅ errors_then_completed)
                    (http_calls (example_world ∅ errors_then_completed) + i)) = true)
  /\ result (http (example_world ∅ errors_then_completed)
               (http_calls (example_world ∅ errors_then_completed) + 2))
     = HttpJson example_completed
  /\ exists (r : dict) (w1 w2 : World),
       wait_for_completion example_client 181 (VStr "job-1") default_check_interval
         default_max_wait_time (example_world ∅ errors_then_completed) = (Ret r, w1)
       /\ save_image_result r "out/edited.png" w1 = (Ret true, w2)
       /\ fs_lookup (fs w2) "out/edited.png" = Some (File example_bytes)
       /\ http_calls w2 = 3%nat.
Proof.
  assert (Hci : (0 < 2)%nat -> 0 <= default_check_interval) by (intros _; by vm_compute).
  assert (Hretry : forall i, (i < 2)%nat ->
            retry_reply (http (example_world ∅ errors_then_completed)
                           (http_calls (example_world ∅ errors_then_completed) + i))
            = true).
  { intros i Hlt. destruct i as [|[|i]]; [reflexivity|reflexivity|lia]. }
  assert (Hd : result (http (example_world ∅ errors_then_completed)
                         (http_calls (example_world ∅ errors_then_completed) + 2))
               = HttpJson example_completed) by reflexivity.
  assert (Hs : is_str (py_get example_completed "status") "COMPLETED" = true)
    by reflexivity.
  assert (Ho : dict_get example_completed "output"
               = Some (VDict [("image", VStr example_payload)])) by reflexivity.
  assert (Hi : dict_get [("image", VStr example_payload)] "image"
               = Some (VStr (with_data_uri_prefix (Some "data:image/png;base64")
                               (Base64.b64encode example_bytes)))) by reflexivity.
  assert (Hne : with_data_uri_prefix (Some "data:image/png;base64")
                  (Base64.b64encode example_bytes) <> "") by discriminate.
  assert (Hp : forall p, Some "data:image/png;base64" = Some p ->
                         contains_char comma p = false).
  { intros p Hp. inversion Hp. reflexivity. }
  assert (Hlt : forall i, (i <= 2)%nat ->
            elapsed_after (example_world ∅ errors_then_completed)
              default_check_interval i < default_max_wait_time).
  { intros i Hle. destruct i as [|[|[|i]]]; [by vm_compute|by vm_compute|by vm_compute|lia]. }
  assert (Hfuel : (2 < 181)%nat) by lia.
  assert (Hmk : makedirs (fs (example_world ∅ errors_then_completed))
                  (dirname_or_dot "out/edited.png") = inr (<["out" := Dir]> ∅))
    by (vm_compute; reflexivity).
  assert (Hwr : write_file (<["out" := Dir]> ∅) "out/edited.png" example_bytes
                = inr (<["out/edited.png" := File example_bytes]> (<["out" := Dir]> ∅)))
    by (vm_compute; reflexivity).
  destruct (completed_job_is_saved example_client (VStr "job-1") default_check_interval
              default_max_wait_time (example_world ∅ errors_then_completed) 2 181
              example_completed _ _ example_bytes "out/edited.png" _ _
              Hci Hretry Hd Hs Ho Hi Hne Hp Hlt Hfuel Hmk Hwr)
    as (r & w1 & w2 & Hrun & Hsave & _ & _ & Hfile & Hcalls).
  exact (conj Hretry (conj Hd
           (ex_intro _ r (ex_intro _ w1 (ex_intro _ w2
              (conj Hrun (conj Hsave (conj Hfile Hcalls)))))))).
Defined.

(** ** The entries of a batch summary *)

(** [edit_single_image] never touches the file system. *)
Lemma edit_single_image_fs (self : Client) (fuel : nat) (image_path prompt : string)
    (seed width height steps : Z) (cfg : value) (negative_prompt : string)
    (use_lightning : bool) (w : World) :
  fs (edit_single_image self fuel image_path prompt seed width height steps cfg
        negative_prompt use_lightning w).2 = fs w.
Proof.
  rewrite edit_single_image_eq.
  destruct (path_exists (fs w) image_path); [|reflexivity].
  destruct (s3_ok (s3 w (s3_calls w))); [|reflexivity].
  cbv zeta.
  match goal with
  | |- fs (submit_and_wait ?s ?f ?d ?w0).2 = _ =>
      destruct (submit_and_wait_spec s f d w0) as (-> & _)
  end.
  by destruct use_lightning.
Qed.

Lemma is_file_save_image_result (result : dict) (output_path : string) (w : World) :
  exists b w', save_image_result result output_path w = (Ret b, w')
    /\ (forall p, is_file (fs w) p = true -> is_file (fs w') p = true)
    /\ (b = true -> is_file (fs w') output_path = true).
Proof.
  rewrite save_image_result_eq.
  destruct (is_str (py_get result "status") "COMPLETED");
    [|by eexists _, _].
  destruct (py_get_default result "output" (VDict [])) as [| | | | | |output];
    try (by eexists _, _).
  destruct (truthy (py_get output "image")); [|by eexists _, _].
  destruct (makedirs (fs w) (dirname_or_dot output_path)) as [e|fs1] eqn:Hmk;
    [by eexists _, _|].
  assert (Hkeep : forall p, is_file (fs w) p = true -> is_file fs1 p = true).
  { intros p Hp. unfold is_file in Hp |- *.
    destruct (fs_lookup (fs w) p) as [[|c]|] eqn:Hl; try discriminate.
    by rewrite (proj2 (makedirs_spec (fs w) fs1 _ Hmk) p _ Hl). }
  destruct (py_get output "image") as [| | | |s| |];
    try (eexists _, _; split; [reflexivity|]; split; [exact Hkeep|discriminate]).
  destruct (Base64.b64decode (strip_data_uri_prefix s)) as [e|bs];
    [eexists _, _; split; [reflexivity|]; split; [exact Hkeep|discriminate]|].
  destruct (write_file fs1 output_path bs) as [e|fs2] eqn:Hwr;
    [eexists _, _; split; [reflexivity|]; split; [exact Hkeep|discriminate]|].
  destruct (write_file_spec fs1 fs2 output_path bs Hwr) as (Hfile & _ & Hother).
  eexists _, _. split; [reflexivity|]. cbn [fs emit set_fs]. split.
  - intros p Hp. apply Hkeep in Hp. unfold is_file in Hp |- *.
    destruct (decide (norm_path p = norm_path output_path)) as [Heq|Hne].
    + by rewrite (fs_lookup_norm_eq _ p output_path Heq), Hfile.
    + by rewrite (Hother p Hne).
  - intros _. unfold is_file. by rewrite Hfile.
Qed.

Lemma entry_recorded_mono (out : string) (f1 f2 : gmap string node) (name : string)
    (entry : value) :
  (forall p, is_file f1 p = true -> is_file f2 p = true) ->
  entry_recorded out f1 name entry = true -> entry_recorded out f2 name entry = true.
Proof.
  intros Hmono. unfold entry_recorded.
  destruct (match entry_field "filename" entry with
            | Some v => is_str v name | None => false end); [|done].
  cbn [andb]. destruct (has_status "success" entry); [|done].
  intros H. apply andb_true_iff in H as [H1 H2].
  by rewrite H1, (Hmono _ H2).
Qed.

Lemma count_status_cons (s : string) (entry : value) (entries : list value) :
  count_status s (entry :: entries)
  = (if has_status s entry then 1 else 0) + count_status s entries.
Proof.
  unfold count_status. cbn [List.filter].
  destruct (has_status s entry); cbn [length]; lia.
Qed.

Lemma is_str_refl (s : string) : is_str (VStr s) s = true.
Proof. apply String.eqb_refl. Qed.

Section BatchEntries.
Variable self : Client.
Variables (fuel : nat) (image_folder_path output_folder_path prompt : string).
Variables (seed width height steps : Z) (cfg : value) (negative_prompt : string).
Variable use_lightning : bool.

(** Whatever the world, when the loop returns, the counts it has added are
    those of the entries it has added, each entry is sound in the final file
    system, and no file has disappeared. *)
Lemma batch_loop_entries (image_files : list string) :
  forall (i : nat) (total successful failed : Z) (entries : list value)
         (w : World) (r : dict) (w' : World),
    batch_loop self fuel image_folder_path output_folder_path prompt seed width
      height steps cfg negative_prompt use_lightning i image_files
      (summary total successful failed entries) w = (Ret r, w') ->
    exists successful' failed' new,
      r = summary total successful' failed' (entries ++ new)
      /\ successful' = successful + count_status "success" new
      /\ failed' = failed + count_status "failed" new
      /\ Forall2 (fun f entry => entry_recorded output_folder_path (fs w') f entry = true)
           image_files new
      /\ (forall p, is_file (fs w) p = true -> is_file (fs w') p = true).
Proof.
  induction image_files as [|f rest IH]; intros i total s fl entries w r w' Hrun.
  - inversion Hrun; subst. exists s, fl, []. rewrite app_nil_r.
    split; [reflexivity|]. unfold count_status. cbn [List.filter length].
    split; [lia|]. split; [lia|]. split; [constructor|done].
  - cbn [batch_loop] in Hrun. unfold bind at 1 in Hrun. cbn [log] in Hrun.
    unfold bind at 1 in Hrun.
    pose proof (edit_single_image_fs self fuel (path_join image_folder_path f) prompt
                  (seed + Z.of_nat i) width height steps cfg negative_prompt
                  use_lightning (emit (EvLog INFO 465) w)) as Hfs.
    destruct (edit_single_image self fuel (path_join image_folder_path f) prompt
                (seed + Z.of_nat i) width height steps cfg negative_prompt
                use_lightning (emit (EvLog INFO 465) w)) as [[result|e|] w1];
      try discriminate.
    cbn [snd emit fs] in Hfs.
    unfold bind at 1 in Hrun.
    destruct (is_str (py_get result "status") "COMPLETED").
    + destruct (is_file_save_image_result result
                  (path_join output_folder_path ("edited_" +:+ stem f +:+ ".png")) w1)
        as (b & w2 & Hsave & Hkeep & Htrue).
      unfold bind at 1 in Hrun. rewrite Hsave in Hrun.
      destruct b; unfold bind at 1 in Hrun; cbn [log ret] in Hrun;
        unfold bind at 1 in Hrun; cbn [log] in Hrun;
        apply IH in Hrun as (s' & f' & new & -> & Hs' & Hf' & Hall & Hkeep');
        cbn [emit fs] in Hkeep';
        eexists s', f', (_ :: new);
        (split; [by rewrite <- app_assoc|]);
        rewrite !count_status_cons; cbn [has_status entry_field dict_get String.eqb
          Ascii.eqb Bool.eqb is_str];
        (split; [lia|]); (split; [lia|]);
        (split; [|intros p Hp; apply Hkeep', Hkeep; by rewrite Hfs]);
        (constructor; [|exact Hall]).
      * apply (entry_recorded_mono _ (fs w2)); [exact Hkeep'|].
        unfold entry_recorded, has_status, entry_field.
        cbn [dict_get String.eqb Ascii.eqb Bool.eqb andb].
        unfold output_file_of. by rewrite (Htrue eq_refl), !is_str_refl.
      * unfold entry_recorded. cbn. by rewrite String.eqb_refl.
    + unfold bind at 1 in Hrun. cbn [log ret] in Hrun.
      unfold bind at 1 in Hrun. cbn [log] in Hrun.
      apply IH in Hrun as (s' & f' & new & -> & Hs' & Hf' & Hall & Hkeep').
      cbn [emit fs] in Hkeep'.
      eexists s', f', (_ :: new). split; [by rewrite <- app_assoc|].
      rewrite !count_status_cons. cbn [has_status entry_field dict_get String.eqb
        Ascii.eqb Bool.eqb is_str].
      split; [lia|]. split; [lia|].
      split; [|intros p Hp; apply Hkeep'; by rewrite Hfs].
      constructor; [|exact Hall].
      unfold entry_recorded. cbn. rewrite String.eqb_refl.
      unfold py_get_default. by destruct (dict_get result "error").
Qed.

End BatchEntries.

(** X20: the summary of a batch agrees with its entries and with the file
    system.  When the source folder is a directory that can be listed, the
    output folder can be created and at least one name matches, whatever
    [batch_edit_images] returns is a summary with one entry per matching
    name, in the order of the enumeration: [total_files] is their number,
    [successful] is the number of entries with status [success] and [failed]
    the number with status [failed]; an entry with status [success] names
    [<output folder>/edited_<stem>.png] as its output file, and this path is
    a file when the batch ends; the other entries have status [failed],
    name no output file and carry an error.  And the method does return
    when every reply of the job queue is a request error or a JSON object. *)
Theorem batch_edit_images_entries (self : Client) (fuel : nat)
    (image_folder_path output_folder_path : string)
    (valid_image_extensions : list string) (prompt : string)
    (seed width height steps : Z) (cfg : value) (negative_prompt : string)
    (use_lightning : bool) (w : World) (fs1 : gmap string node) :
  path_isdir (fs w) image_folder_path = true ->
  makedirs (fs w) output_folder_path = inr fs1 ->
  listable w image_folder_path = true ->
  select_images valid_image_extensions (listdir fs1 image_folder_path) <> [] ->
  let run :=
    batch_edit_images self fuel image_folder_path output_folder_path
      valid_image_extensions prompt seed width height steps cfg negative_prompt
      use_lightning w in
  let image_files :=
    select_images valid_image_extensions
      (enumerate (dir_rank w) (listdir fs1 image_folder_path)) in
  (forall r w',
     run = (Ret r, w') ->
     exists successful failed entries,
       r = summary (Z.of_nat (length image_files)) successful failed entries
       /\ successful = count_status "success" entries
       /\ failed = count_status "failed" entries
       /\ Forall2 (fun f entry =>
                     entry_recorded output_folder_path (fs w') f entry = true)
            image_files entries)
  /\ ((181 <= fuel)%nat ->
      (forall i, object_or_error (http w i) = true) ->
      exists r w', run = (Ret r, w')).
Proof.
  intros Hdir Hmk Hlist Hne run image_files. split.
  - intros r w' Hrun. subst run. rewrite batch_edit_images_eq, Hdir, Hmk, Hlist in Hrun.
    fold image_files in Hrun.
    destruct image_files as [|f0 rest] eqn:Hfiles.
    { apply select_images_enumerate_nil in Hfiles. done. }
    unfold bind at 1 in Hrun.
    destruct (batch_loop self fuel image_folder_path output_folder_path prompt seed width
                height steps cfg negative_prompt use_lightning 0 (f0 :: rest)
                (summary (Z.of_nat (length (f0 :: rest))) 0 0 [])
                (emit (EvLog INFO 454) (set_fs fs1 w))) as [[res|e|] w1] eqn:Hloop;
      try discriminate.
    apply batch_loop_entries in Hloop as (s' & f' & new & -> & Hs' & Hf' & Hall & _).
    cbn [log ret] in Hrun. injection Hrun as <- <-. exists s', f', new.
    split; [reflexivity|]. split; [lia|]. split; [lia|exact Hall].
  - intros Hfuel Hobj.
    destruct (batch_edit_images_runs self fuel image_folder_path output_folder_path
                prompt seed width height steps cfg negative_prompt use_lightning
                Hfuel valid_image_extensions w fs1 Hdir Hmk Hlist Hobj)
      as (s & f & entries & w' & Hrun & _).
    { intros Hnil. apply Hne.
      by apply (select_images_enumerate_nil valid_image_extensions (dir_rank w)). }
    by eexists _, w'.
Qed.

Lemma batch_edit_images_entries_witness :
  path_isdir (fs (example_world example_fs always_completed)) "imgs" = true
  /\ makedirs (fs (example_world example_fs always_completed)) "out"
     = inr (<["out" := Dir]> example_fs)
  /\ listable (example_world example_fs always_completed) "imgs" = true
  /\ select_images default_valid_image_extensions
       (enumerate (dir_rank (example_world example_fs always_completed))
          (listdir (<["out" := Dir]> example_fs) "imgs")) = ["a.JPG"; "c.png"]
  /\ exists r w' successful failed entries,
       batch_edit_images example_client 181 "imgs" "out" default_valid_image_extensions
         "enhance image quality" default_seed default_width default_height
         default_steps default_cfg default_negative_prompt false
         (example_world example_fs always_completed) = (Ret r, w')
       /\ r = summary 2 successful failed entries
       /\ successful = count_status "success" entries
       /\ failed = count_status "failed" entries
       /\ Forall2 (fun f entry => entry_recorded "out" (fs w') f entry = true)
            ["a.JPG"; "c.png"] entries.
Proof.
  assert (H1 : path_isdir (fs (example_world example_fs always_completed)) "imgs" = true)
    by (vm_compute; reflexivity).
  assert (H2 : makedirs (fs (example_world example_fs always_completed)) "out"
               = inr (<["out" := Dir]> example_fs)) by (vm_compute; reflexivity).
  assert (Hl : listable (example_world example_fs always_completed) "imgs" = true)
    by reflexivity.
  assert (Ho : forall i, object_or_error
                           (http (example_world example_fs always_completed) i) = true).
  { intros i. cbn. unfold always_completed. by destruct (Nat.even i). }
  assert (Hsel : select_images default_valid_image_extensions
                   (enumerate (dir_rank (example_world example_fs always_completed))
                      (listdir (<["out" := Dir]> example_fs) "imgs"))
                 = ["a.JPG"; "c.png"]) by (vm_compute; reflexivity).
  assert (H3 : select_images default_valid_image_extensions
                 (listdir (<["out" := Dir]> example_fs) "imgs") <> [])
    by (vm_compute; discriminate).
  assert (H4 : (181 <= 181)%nat) by lia.
  pose proof (batch_edit_images_entries example_client 181 "imgs" "out"
                default_valid_image_extensions "enhance image quality" default_seed
                default_width default_height default_steps default_cfg
                default_negative_prompt false
                (example_world example_fs always_completed)
                (<["out" := Dir]> example_fs) H1 H2 Hl H3) as Hthm.
  cbv zeta in Hthm. rewrite Hsel in Hthm. destruct Hthm as (Hsafe & Hret).
  destruct (Hret H4 Ho) as (r & w' & Hrun).
  destruct (Hsafe r w' Hrun) as (s & f & entries & Hr & Hs & Hf & Hall).
  refine (conj H1 (conj H2 (conj Hl (conj Hsel _)))).
  exists r, w', s, f, entries.
  exact (conj Hrun (conj Hr (conj Hs (conj Hf Hall)))).
Defined.
